(** * github-ai-commit-reporter: commit retrieval, aggregation and report synthesis

    A shallow embedding of the JavaScript sources
      - app/services/GitHubService.js      (repository reference resolution,
                                            paginated retrieval, date windows)
      - enhanced-commit-reporter.js        (the stand-alone reporter's retrieval loop)
      - app/models/Commit.js               (the Commit constructor)
      - app/controllers/CommitController.js, app/models/Report.js (aggregation)
      - app/services/ReportService.js, app/services/AIAnalysisService.js
                                           (rendering, heuristic categorizer, file names)
      - app/views/ReportView.js            (file names and extensions)

    Conventions.  JavaScript strings are modelled as [string] (sequences of
    8-bit characters); case folding and whitespace trimming act on the ASCII
    range.  JavaScript numbers that hold counts are modelled as [Z].  A thrown
    [Error] is the [Throw] constructor of [Result]; [console.error] appends a
    line to an explicit log.  Network calls are functions supplied by an
    [Upstream] record. *)

From Stdlib Require Import String Ascii List ZArith Lia Bool Arith.
From Stdlib Require Import DecimalString Permutation Sorted.
Import ListNotations.

Local Open Scope string_scope.
Local Open Scope list_scope.

(* ================================================================== *)
(** ** JavaScript string primitives *)
(* ================================================================== *)

Module JsString.

(** [s.startsWith(p)] *)
Definition startsWith (s p : string) : bool := String.prefix p s.

(** [s.slice(n)] for [0 <= n] *)
Fixpoint skip (n : nat) (s : string) : string :=
  match n, s with
  | O, _ => s
  | S _, EmptyString => EmptyString
  | S n', String _ s' => skip n' s'
  end.

(** [s.includes(needle)] *)
Fixpoint includes (s needle : string) : bool :=
  if String.prefix needle s then true
  else match s with
       | EmptyString => false
       | String _ s' => includes s' needle
       end.

(** [s.replace(pat, rep)] with a string pattern: only the first occurrence
    is replaced.  (The replacement strings used by the sources contain no
    [$] pattern.) *)
Fixpoint replace (s pat rep : string) : string :=
  if String.prefix pat s then rep ++ skip (String.length pat) s
  else match s with
       | EmptyString => EmptyString
       | String c s' => String c (replace s' pat rep)
       end.

(** White space recognised by [trim] in the ASCII range:
    TAB, LF, VT, FF, CR and SPACE. *)
Definition isSpace (c : ascii) : bool :=
  let n := nat_of_ascii c in
  ((9 <=? n)%nat && (n <=? 13)%nat) || (n =? 32)%nat.

Fixpoint trimStart (s : string) : string :=
  match s with
  | EmptyString => EmptyString
  | String c s' => if isSpace c then trimStart s' else s
  end.

Fixpoint trimEnd (s : string) : string :=
  match s with
  | EmptyString => EmptyString
  | String c s' =>
      match trimEnd s' with
      | EmptyString => if isSpace c then EmptyString else String c EmptyString
      | t => String c t
      end
  end.

(** [s.trim()].  JavaScript's [trim] takes no argument: the ['/'] passed
    by [extractRepoInfo] is ignored. *)
Definition trim (s : string) : string := trimEnd (trimStart s).

(** [s.split(sep)] for a one-character separator. *)
Fixpoint split (sep : ascii) (s : string) : list string :=
  match s with
  | EmptyString => [EmptyString]
  | String c s' =>
      if Ascii.eqb c sep then EmptyString :: split sep s'
      else match split sep s' with
           | [] => [String c EmptyString]
           | h :: t => String c h :: t
           end
  end.

(** [s.toLowerCase()] on the ASCII range. *)
Definition lowerChar (c : ascii) : ascii :=
  let n := nat_of_ascii c in
  if ((65 <=? n)%nat && (n <=? 90)%nat) then ascii_of_nat (n + 32) else c.

Fixpoint toLowerCase (s : string) : string :=
  match s with
  | EmptyString => EmptyString
  | String c s' => String (lowerChar c) (toLowerCase s')
  end.

(** [arr.join(sep)] *)
Fixpoint join (sep : string) (l : list string) : string :=
  match l with
  | [] => EmptyString
  | [x] => x
  | x :: rest => x ++ sep ++ join sep rest
  end.

(** ['c'.repeat(n)] *)
Fixpoint repeat (c : string) (n : nat) : string :=
  match n with
  | O => EmptyString
  | S n' => c ++ repeat c n'
  end.

(** Template-literal interpolation of an integer. *)
Definition ofZ (z : Z) : string := NilZero.string_of_int (Z.to_int z).
Definition ofNat (n : nat) : string := ofZ (Z.of_nat n).

Definition LF : string := String (ascii_of_nat 10) EmptyString.

End JsString.

Import JsString.

(** Outcome of a call that may throw. *)
Inductive Result (A : Type) : Type :=
| Ok (a : A)
| Throw (msg : string).
Arguments Ok {A} a.
Arguments Throw {A} msg.

Definition isThrow {A} (r : Result A) : bool :=
  match r with Ok _ => false | Throw _ => true end.

(* ================================================================== *)
(** ** GitHubService.extractRepoInfo *)
(* ================================================================== *)

Record RepoInfo : Type := mkRepoInfo { owner : string; repo : string }.

Definition httpsPrefix : string := "https://github.com/".
Definition sshPrefix : string := "git@github.com:".

(** The local [parts] of [extractRepoInfo]; [None] is the final [else]. *)
Definition repoParts (repoUrl : string) : option (list string) :=
  if startsWith repoUrl httpsPrefix then
    Some (split "/" (trim (replace repoUrl httpsPrefix "")))
  else if startsWith repoUrl sshPrefix then
    Some (split "/" (replace (replace repoUrl sshPrefix "") ".git" ""))
  else None.

Definition extractRepoInfo (repoUrl : string) : Result RepoInfo :=
  match repoParts repoUrl with
  | None => Throw "Invalid GitHub repository URL format"
  | Some parts =>
      match parts with
      | [p0; p1] => Ok (mkRepoInfo p0 (replace p1 ".git" ""))
      | _ => Throw "Invalid GitHub repository URL. Expected format: owner/repo"
      end
  end.

(** The path that remains once the matched scheme-and-host prefix is cut
    off, read independently of [replace]: the characters after the prefix. *)
Definition remainingPath (repoUrl : string) : option string :=
  if startsWith repoUrl httpsPrefix then
    Some (trim (skip (String.length httpsPrefix) repoUrl))
  else if startsWith repoUrl sshPrefix then
    Some (replace (skip (String.length sshPrefix) repoUrl) ".git" "")
  else None.

Definition segments (path : string) : list string := split "/" path.

(* ================================================================== *)
(** ** The calendar operations taken from the moment library *)
(* ================================================================== *)

(** The sources delegate calendar arithmetic and formatting to moment.
    The model covers what they use on ISO calendar dates: parsing
    [YYYY-MM-DD], [add(1, 'day')], and the formats [YYYY-MM-DD] and
    [YYYY-MM-DD-HH-mm-ss] (years 0 to 9999). *)
Module Moment.

Record Date : Type := mkDate { year : nat; month : nat; day : nat }.

Record DateTime : Type :=
  mkDateTime { on : Date; hour : nat; minute : nat; second : nat }.

Definition isLeapYear (y : nat) : bool :=
  (((y mod 4 =? 0) && negb (y mod 100 =? 0)) || (y mod 400 =? 0))%nat.

Definition daysInMonth (y m : nat) : nat :=
  match m with
  | 2 => if isLeapYear y then 29 else 28
  | 4 | 6 | 9 | 11 => 30
  | _ => 31
  end.

Definition validDate (d : Date) : bool :=
  ((year d / 100 <? 100) && (1 <=? month d) && (month d <=? 12) &&
   (1 <=? day d) && (day d <=? daysInMonth (year d) (month d)))%nat.


(** [m.add(1, 'day')] *)
Definition addDay (d : Date) : Date :=
  if (day d <? daysInMonth (year d) (month d))%nat
  then mkDate (year d) (month d) (day d + 1)
  else if (month d <? 12)%nat
       then mkDate (year d) (month d + 1) 1
       else mkDate (year d + 1) 1 1.

Definition digitOf (c : ascii) : option nat :=
  let n := nat_of_ascii c in
  if ((48 <=? n) && (n <=? 57))%nat then Some (n - 48) else None.

Definition digitChar (n : nat) : ascii := ascii_of_nat (48 + n mod 10).

Definition pad2 (n : nat) : string :=
  String (digitChar (n / 10)) (String (digitChar n) EmptyString).

Definition pad4 (n : nat) : string := pad2 (n / 100) ++ pad2 (n mod 100).

Definition number2 (a b : ascii) : option nat :=
  match digitOf a, digitOf b with
  | Some x, Some y => Some (10 * x + y)
  | _, _ => None
  end.

Definition number4 (a b c d : ascii) : option nat :=
  match number2 a b, number2 c d with
  | Some x, Some y => Some (100 * x + y)
  | _, _ => None
  end.

(** [moment(s)] for a calendar date written [YYYY-MM-DD]; [None] is an
    invalid moment. *)
Definition parseDate (s : string) : option Date :=
  match s with
  | String y1 (String y2 (String y3 (String y4 (String "-"
      (String m1 (String m2 (String "-"
        (String d1 (String d2 EmptyString))))))))) =>
      match number4 y1 y2 y3 y4, number2 m1 m2, number2 d1 d2 with
      | Some y, Some m, Some d =>
          let r := mkDate y m d in if validDate r then Some r else None
      | _, _, _ => None
      end
  | _ => None
  end.

(** [m.format('YYYY-MM-DD')] *)
Definition formatDate (d : Date) : string :=
  pad4 (year d) ++ "-" ++ pad2 (month d) ++ "-" ++ pad2 (day d).

(** [m.format('YYYY-MM-DD-HH-mm-ss')] *)
Definition formatStamp (t : DateTime) : string :=
  formatDate (on t) ++ "-" ++ pad2 (hour t) ++ "-" ++ pad2 (minute t)
    ++ "-" ++ pad2 (second t).

(** [moment(date).add(1, 'day').format('YYYY-MM-DD')]; an invalid moment
    formats as the text [Invalid date]. *)
Definition nextDay (date : string) : string :=
  match parseDate date with
  | Some d => formatDate (addDay d)
  | None => "Invalid date"
  end.

End Moment.

(* ================================================================== *)
(** ** Data model *)
(* ================================================================== *)

Record Person : Type := mkPerson { name : string; email : string; date : string }.

Record Stats : Type := mkStats { total : Z; additions : Z; deletions : Z }.

(** File status vocabulary of the upstream commit API. *)
Inductive FileStatus : Type :=
| added | modified | removed | renamed | copied | changed | unchanged.

Record FileChange : Type :=
  mkFile { filename : string; status : FileStatus;
           file_additions : Z; file_deletions : Z; changes : Z }.

(** A normalised commit: the object literal built by [getCommitDetails]
    and the fields of a [Commit] instance. *)
Record Commit : Type :=
  mkCommit { sha : string; message : string; author : Person;
             committer : Person; files : list FileChange; stats : Stats }.

(** [a || b]: the left operand unless it is falsy.  [None] stands for
    [undefined]/[null]; the zero number and the empty string are falsy
    too, and coincide with the defaults the sources use for them. *)
Definition orElse {A : Type} (a : option A) (b : A) : A :=
  match a with Some v => v | None => b end.

(** Input accepted by [new Commit(data)]: every field may be missing. *)
Record PersonData : Type :=
  mkPersonData { d_name : option string; d_email : option string;
                 d_date : option string }.

Record StatsData : Type :=
  mkStatsData { d_total : option Z; d_additions : option Z;
                d_deletions : option Z }.

Record CommitData : Type :=
  mkCommitData { d_sha : option string; d_message : option string;
                 d_author : option PersonData; d_committer : option PersonData;
                 d_files : option (list FileChange); d_stats : option StatsData }.

(** [data.author?.name || ''] and its siblings *)
Definition personOf (p : option PersonData) : Person :=
  mkPerson (orElse (match p with Some x => d_name x | None => None end) "")
           (orElse (match p with Some x => d_email x | None => None end) "")
           (orElse (match p with Some x => d_date x | None => None end) "").

Definition statsOf (s : option StatsData) : Stats :=
  mkStats (orElse (match s with Some x => d_total x | None => None end) 0%Z)
          (orElse (match s with Some x => d_additions x | None => None end) 0%Z)
          (orElse (match s with Some x => d_deletions x | None => None end) 0%Z).

(** [Commit.constructor] *)
Definition newCommit (data : CommitData) : Commit :=
  mkCommit (orElse (d_sha data) "")
           (orElse (d_message data) "")
           (personOf (d_author data))
           (personOf (d_committer data))
           (orElse (d_files data) [])
           (statsOf (d_stats data)).

(** A commit object handed back to the constructor, as the controllers and
    the report service do. *)
Definition dataOf (c : Commit) : CommitData :=
  let person p := Some (mkPersonData (Some (name p)) (Some (email p)) (Some (date p))) in
  mkCommitData (Some (sha c)) (Some (message c)) (person (author c))
               (person (committer c)) (Some (files c))
               (Some (mkStatsData (Some (total (stats c)))
                                  (Some (additions (stats c)))
                                  (Some (deletions (stats c))))).

(** [Commit.getNetChanges] *)
Definition getNetChanges (c : Commit) : Z :=
  (additions (stats c) - deletions (stats c))%Z.



(** [Commit.isValid] *)
Definition nonEmpty (s : string) : bool :=
  match s with EmptyString => false | _ => true end.

Definition isValid (c : Commit) : bool :=
  nonEmpty (sha c) && nonEmpty (message c) && nonEmpty (name (author c)).

(* ================================================================== *)
(** ** The upstream change-history API *)
(* ================================================================== *)

(** Query parameters of the list request.  [q_branch] and [q_author] are
    the extra keys that the spread of [options] copies into [params]. *)
Record Params : Type :=
  mkParams { q_page : nat; q_per_page : nat; q_sha : string;
             q_since : option string; q_until : option string;
             q_branch : option string; q_author : option string }.

(** One element of a listed page. *)
Record Summary : Type := mkSummary { s_sha : string }.

(** Body of the detail response.  Per-file counters may be absent. *)
Record RawFile : Type :=
  mkRawFile { rf_filename : string; rf_status : FileStatus;
              rf_additions : option Z; rf_deletions : option Z;
              rf_changes : option Z }.

Record RawDetail : Type :=
  mkRawDetail { rd_sha : string; rd_message : string; rd_author : Person;
                rd_committer : Person; rd_files : list RawFile;
                rd_stats : Stats }.

(** The two endpoints.  [Throw] is a rejected request (transport error,
    non-2xx status, time-out) or, for the detail endpoint, a body from
    which the commit object cannot be built.  A listed page may be [None]
    (an empty body). *)
Record Upstream : Type :=
  mkUpstream {
    listCommits : string -> string -> Params -> Result (option (list Summary));
    getCommit : string -> string -> string -> Result RawDetail }.

(** The object literal returned by both [getCommitDetails]. *)
Definition normalizeFile (f : RawFile) : FileChange :=
  mkFile (rf_filename f) (rf_status f)
         (orElse (rf_additions f) 0%Z) (orElse (rf_deletions f) 0%Z)
         (orElse (rf_changes f) 0%Z).

Definition normalize (d : RawDetail) : Commit :=
  mkCommit (rd_sha d) (rd_message d) (rd_author d) (rd_committer d)
           (map normalizeFile (rd_files d)) (rd_stats d).

(* ================================================================== *)
(** ** GitHubService: retrieval *)
(* ================================================================== *)

Module GitHubService.

(** The [options] argument of [getCommits]. *)
Record Options : Type :=
  mkOptions { per_page : option nat; branch : option string;
              since : option string; until : option string;
              author_filter : option string }.

(** [getCommitDetails]: any failure is rethrown with the commit named. *)
Definition getCommitDetails (up : Upstream) (owner repo sha : string)
  : Result Commit :=
  match getCommit up owner repo sha with
  | Ok d => Ok (normalize d)
  | Throw m => Throw ("Error fetching commit details for " ++ sha ++ ": " ++ m)
  end.

(** The [for (const commit of pageCommits)] loop.  [getCommitDetails]
    returns an object or throws, so the [if (detailedCommit)] guard always
    passes; a throw leaves the loop. *)
Fixpoint detailLoop (up : Upstream) (owner repo : string)
  (pageCommits : list Summary) (commits : list Commit) : Result (list Commit) :=
  match pageCommits with
  | [] => Ok commits
  | c :: rest =>
      match getCommitDetails up owner repo (s_sha c) with
      | Ok detailedCommit => detailLoop up owner repo rest (commits ++ [detailedCommit])
      | Throw m => Throw m
      end
  end.

(** [options.per_page || 100] *)
Definition perPageOf (options : Options) : nat :=
  match per_page options with
  | Some 0 => 100
  | Some n => n
  | None => 100
  end.

Definition truthy (s : option string) : option string :=
  match s with
  | Some EmptyString => None
  | other => other
  end.

(** The [params] literal: the spread of [options] comes last, so a
    [per_page] present in [options] overrides the computed one. *)
Definition paramsOf (options : Options) (page : nat) : Params :=
  mkParams page
           (orElse (per_page options) (perPageOf options))
           (orElse (truthy (branch options)) "main")
           (since options) (until options) (branch options)
           (author_filter options).

(** The [while (true)] loop of [getCommits].  [fuel] bounds the number of
    pages requested; [None] means the bound was reached while the upstream
    kept returning full pages. *)
Fixpoint getCommitsFrom (fuel : nat) (up : Upstream) (owner repo : string)
  (options : Options) (page : nat) (commits : list Commit)
  : option (Result (list Commit)) :=
  match fuel with
  | O => None
  | S fuel' =>
      match listCommits up owner repo (paramsOf options page) with
      | Throw m => Some (Throw ("Error fetching commits: " ++ m))
      | Ok None => Some (Ok commits)
      | Ok (Some []) => Some (Ok commits)
      | Ok (Some pageCommits) =>
          match detailLoop up owner repo pageCommits commits with
          | Throw m => Some (Throw ("Error fetching commits: " ++ m))
          | Ok commits' =>
              if (List.length pageCommits <? perPageOf options)%nat
              then Some (Ok commits')
              else getCommitsFrom fuel' up owner repo options (S page) commits'
          end
      end
  end.

Definition getCommits (fuel : nat) (up : Upstream) (owner repo : string)
  (options : Options) : option (Result (list Commit)) :=
  getCommitsFrom fuel up owner repo options 1 [].

(** The [options] literal of [getCommitsForDateRange]: [toDate] is stored
    under [until] as given; the [author] key is added only when truthy. *)
Definition rangeOptions (fromDate toDate branch : string)
  (author : option string) : Options :=
  mkOptions None (Some branch) (Some fromDate) (Some toDate) (truthy author).

(** [getCommitsForDateRange] *)
Definition getCommitsForDateRange (fuel : nat) (up : Upstream)
  (owner repo fromDate toDate branch : string) (author : option string)
  : option (Result (list Commit)) :=
  getCommits fuel up owner repo (rangeOptions fromDate toDate branch author).

(** [getCommitsForDate] *)
Definition getCommitsForDate (fuel : nat) (up : Upstream)
  (owner repo date branch : string) (author : option string)
  : option (Result (list Commit)) :=
  let fromDate := date in
  let toDate := Moment.nextDay date in
  getCommitsForDateRange fuel up owner repo fromDate toDate branch author.

End GitHubService.

(* ================================================================== *)
(** ** EnhancedGitHubCommitReporter: the stand-alone retrieval loop *)
(* ================================================================== *)

Module EnhancedReporter.

(** Lines written with [console.error], oldest first. *)
Definition Log : Type := list string.

(** [getCommitDetails]: a failure is logged and [null] is returned. *)
Definition getCommitDetails (up : Upstream) (owner repo sha : string) (log : Log)
  : option Commit * Log :=
  match getCommit up owner repo sha with
  | Ok d => (Some (normalize d), log)
  | Throw m => (None, log ++ [("Error fetching commit details for " ++ sha ++ ": " ++ m)%string])
  end.

(** The detail loop: [if (detailedCommit) commits.push(detailedCommit)]. *)
Fixpoint detailLoop (up : Upstream) (owner repo : string)
  (pageCommits : list Summary) (commits : list Commit) (log : Log)
  : list Commit * Log :=
  match pageCommits with
  | [] => (commits, log)
  | c :: rest =>
      match getCommitDetails up owner repo (s_sha c) log with
      | (Some detailedCommit, log') =>
          detailLoop up owner repo rest (commits ++ [detailedCommit]) log'
      | (None, log') => detailLoop up owner repo rest commits log'
      end
  end.

Definition perPage : nat := 100.

(** [since]/[until] are set only when truthy. *)
Definition paramsOf (sinceDate untilDate : option string) (branch : string)
  (page : nat) : Params :=
  mkParams page perPage branch
           (GitHubService.truthy sinceDate) (GitHubService.truthy untilDate)
           None None.

(** [getCommits]: a failed listing is logged and ends the loop with what
    has been accumulated. *)
Fixpoint getCommitsFrom (fuel : nat) (up : Upstream) (owner repo : string)
  (sinceDate untilDate : option string) (branch : string)
  (page : nat) (commits : list Commit) (log : Log)
  : option (list Commit * Log) :=
  match fuel with
  | O => None
  | S fuel' =>
      match listCommits up owner repo (paramsOf sinceDate untilDate branch page) with
      | Throw m => Some (commits, log ++ [("Error fetching commits: " ++ m)%string])
      | Ok None => Some (commits, log)
      | Ok (Some []) => Some (commits, log)
      | Ok (Some pageCommits) =>
          let '(commits', log') := detailLoop up owner repo pageCommits commits log in
          if (List.length pageCommits <? perPage)%nat
          then Some (commits', log')
          else getCommitsFrom fuel' up owner repo sinceDate untilDate branch
                              (S page) commits' log'
      end
  end.

Definition getCommits (fuel : nat) (up : Upstream) (owner repo : string)
  (sinceDate untilDate : option string) (branch : string)
  : option (list Commit * Log) :=
  getCommitsFrom fuel up owner repo sinceDate untilDate branch 1 [] [].

End EnhancedReporter.

(* ================================================================== *)
(** ** JavaScript objects used as tables *)
(* ================================================================== *)

Module JsObject.

(** Own properties of an object literal [{}] in creation order. *)
Definition Table (V : Type) : Type := list (string * V).

(** Members that every [{}] inherits from [Object.prototype].  Reading
    such a key yields a truthy inherited value, so the [if (!table[key])]
    guards of the sources never create an own entry for it, and the
    counters that follow are written to the inherited value. *)
Definition protoKeys : list string :=
  ["constructor"; "__defineGetter__"; "__defineSetter__"; "hasOwnProperty";
   "__lookupGetter__"; "__lookupSetter__"; "isPrototypeOf";
   "propertyIsEnumerable"; "toString"; "valueOf"; "__proto__";
   "toLocaleString"].

Definition inherited (k : string) : bool :=
  existsb (String.eqb k) protoKeys.

Fixpoint lookup {V : Type} (k : string) (t : Table V) : option V :=
  match t with
  | [] => None
  | (k', v) :: t' => if String.eqb k k' then Some v else lookup k t'
  end.

Fixpoint update {V : Type} (k : string) (f : V -> V) (t : Table V) : Table V :=
  match t with
  | [] => []
  | (k', v) :: t' =>
      if String.eqb k k' then (k', f v) :: t' else (k', v) :: update k f t'
  end.

(** [if (!t[k]) t[k] = fresh; bump(t[k])] *)
Definition upsert {V : Type} (k : string) (fresh : V) (bump : V -> V)
  (t : Table V) : Table V :=
  if inherited k then t
  else match lookup k t with
       | Some _ => update k bump t
       | None => t ++ [(k, bump fresh)]
       end.

(** Array-index keys: canonical decimal numerals below [2^32 - 1]. *)
Definition arrayIndex (k : string) : option N :=
  match NilZero.uint_of_string k with
  | Some u =>
      let n := N.of_uint u in
      if String.eqb (NilZero.string_of_uint (N.to_uint n)) k
         && (n <? 4294967295)%N
      then Some n else None
  | None => None
  end.

Fixpoint insertIndex {V : Type} (n : N) (v : V) (l : list (N * V)) : list (N * V) :=
  match l with
  | [] => [(n, v)]
  | (m, w) :: l' =>
      if (n <=? m)%N then (n, v) :: l else (m, w) :: insertIndex n v l'
  end.

Fixpoint indexed {V : Type} (t : Table V) : list (N * V) :=
  match t with
  | [] => []
  | (k, v) :: t' =>
      match arrayIndex k with
      | Some n => insertIndex n v (indexed t')
      | None => indexed t'
      end
  end.

Fixpoint named {V : Type} (t : Table V) : list V :=
  match t with
  | [] => []
  | (k, v) :: t' =>
      match arrayIndex k with
      | Some _ => named t'
      | None => v :: named t'
      end
  end.

(** [Object.values(t)]: array-index keys in ascending numeric order, then
    the other keys in creation order. *)
Definition values {V : Type} (t : Table V) : list V :=
  map snd (indexed t) ++ named t.

End JsObject.

(* ================================================================== *)
(** ** Array.prototype.sort with a descending numeric comparator *)
(* ================================================================== *)

Section Sort.
Context {A : Type}.
Variable key : A -> Z.

(** The comparator [(a, b) => key(b) - key(a)]. *)
Definition compareDesc (a b : A) : Z := (key b - key a)%Z.

(** [x] precedes the first element it does not have to follow. *)
Fixpoint insertDesc (x : A) (l : list A) : list A :=
  match l with
  | [] => [x]
  | y :: l' =>
      if (compareDesc x y <=? 0)%Z then x :: y :: l'
      else y :: insertDesc x l'
  end.

(** [arr.sort((a, b) => key(b) - key(a))]: the sort is stable, elements
    with equal keys keep their relative order. *)
Definition sortDesc (l : list A) : list A := fold_right insertDesc [] l.

(** Descending order of the keys. *)
Definition descending (l : list A) : Prop :=
  StronglySorted (fun a b => (key b <= key a)%Z) l.
End Sort.

(* ================================================================== *)
(** ** Aggregation: CommitController.getCommitStatistics and Report *)
(* ================================================================== *)

Module Aggregation.

Record Contributor : Type :=
  mkContributor { c_name : string; c_email : string; c_commits : Z;
                  c_additions : Z; c_deletions : Z }.

Record FileStat : Type :=
  mkFileStat { fs_filename : string; fs_changes : Z; fs_additions : Z;
               fs_deletions : Z; fs_commits : Z }.

Record Aggregate : Type :=
  mkAggregate { totalCommits : Z; totalAdditions : Z; totalDeletions : Z;
                netChanges : Z; averageChangesPerCommit : Z;
                topContributors : list Contributor;
                fileStatistics : list FileStat }.

(** Body of the first [commits.forEach]. *)
Definition countCommit (contributors : JsObject.Table Contributor) (commit : Commit)
  : JsObject.Table Contributor :=
  let who := name (author commit) in
  JsObject.upsert who
    (mkContributor who (email (author commit)) 0 0 0)
    (fun c => mkContributor (c_name c) (c_email c) (c_commits c + 1)
                (c_additions c + additions (stats commit))
                (c_deletions c + deletions (stats commit)))
    contributors.

Definition contributorsOf (commits : list Commit) : JsObject.Table Contributor :=
  fold_left countCommit commits [].

(** Body of the inner [commit.files.forEach]. *)
Definition countFile (fileStats : JsObject.Table FileStat) (file : FileChange)
  : JsObject.Table FileStat :=
  JsObject.upsert (filename file)
    (mkFileStat (filename file) 0 0 0 0)
    (fun s => mkFileStat (fs_filename s) (fs_changes s + changes file)
                (fs_additions s + file_additions file)
                (fs_deletions s + file_deletions file)
                (fs_commits s + 1))
    fileStats.

Definition fileStatsOf (commits : list Commit) : JsObject.Table FileStat :=
  fold_left (fun t commit => fold_left countFile (files commit) t) commits [].

Definition sumOf (f : Commit -> Z) (commits : list Commit) : Z :=
  fold_left (fun sum commit => (sum + f commit)%Z) commits 0%Z.

(** [Math.round(a / n)] for integers [a] and [n > 0]: halves round up. *)
Definition roundDiv (a n : Z) : Z := ((2 * a + n) / (2 * n))%Z.

(** [CommitController.getCommitStatistics] *)
Definition getCommitStatistics (commits : list Commit) : Aggregate :=
  match commits with
  | [] => mkAggregate 0 0 0 0 0 [] []
  | _ =>
      let totalCommits := Z.of_nat (List.length commits) in
      let totalAdditions := sumOf (fun c => additions (stats c)) commits in
      let totalDeletions := sumOf (fun c => deletions (stats c)) commits in
      let netChanges := (totalAdditions - totalDeletions)%Z in
      let averageChangesPerCommit :=
        roundDiv (totalAdditions + totalDeletions) totalCommits in
      let topContributors :=
        firstn 5 (sortDesc c_commits (JsObject.values (contributorsOf commits))) in
      let fileStatistics :=
        firstn 10 (sortDesc fs_changes (JsObject.values (fileStatsOf commits))) in
      mkAggregate totalCommits totalAdditions totalDeletions netChanges
                  averageChangesPerCommit topContributors fileStatistics
  end.

(** [Report.getTopContributors(limit = 5)] over the report's commits *)
Definition getTopContributors (commits : list Commit) (limit : nat)
  : list Contributor :=
  firstn limit (sortDesc c_commits (JsObject.values (contributorsOf commits))).

(** [Report.getFileStatistics] *)
Definition getFileStatistics (commits : list Commit) : list FileStat :=
  sortDesc fs_changes (JsObject.values (fileStatsOf commits)).

(** The files listed by [ReportView.formatCommitStatistics]:
    [statistics.fileStatistics.slice(0, 10)]. *)
Definition displayedFiles (statistics : Aggregate) : list FileStat :=
  firstn 10 (fileStatistics statistics).

End Aggregation.

(* ================================================================== *)
(** ** The heuristic categorizer: generateBasicAnalysis *)
(* ================================================================== *)

(** [AIAnalysisService.generateBasicAnalysis] and
    [ReportService.generateBasicAnalysis] have the same body. *)
Module Categorizer.

Definition authBlock : list string :=
  ["* Authentication/Authorization changes";
   "  - Implemented or modified user authentication system";
   "  - Updated security protocols or access controls"].

Definition apiBlock : list string :=
  ["* API integration or endpoint changes";
   "  - Added new API endpoints or modified existing ones";
   "  - Integrated external services or third-party APIs";
   "  - Updated API configuration or connection settings"].

Definition uiBlock : list string :=
  ["* UI/UX design updates";
   "  - Modified user interface components and layouts";
   "  - Updated styling, themes, or visual elements";
   "  - Improved user experience and interface responsiveness"].

Definition testBlock : list string :=
  ["* Testing improvements";
   "  - Added or updated test cases and test coverage";
   "  - Implemented automated testing or quality assurance"].

Definition docsBlock : list string :=
  ["* Documentation updates";
   "  - Updated project documentation and guides";
   "  - Improved code comments or technical documentation"].

Definition envBlock : list string :=
  ["* Environment configuration changes";
   "  - Updated environment variables and configuration settings";
   "  - Modified deployment or development environment setup"].

Definition packageBlock : list string :=
  ["* Dependency updates";
   "  - Updated project dependencies and libraries";
   "  - Added new packages or updated existing ones"].

Definition fullStackBlock : list string :=
  ["* Full-stack development changes";
   "  - Worked on both frontend and backend components";
   "  - Implemented end-to-end features or functionality"].

Definition backendBlock : list string :=
  ["* Backend functionality updates";
   "  - Modified server-side logic and business rules";
   "  - Updated database operations or data processing"].

Definition frontendBlock : list string :=
  ["* Frontend development changes";
   "  - Updated client-side components and user interface";
   "  - Modified user interactions and frontend logic"].

Definition generalBlock : list string :=
  ["* General code changes and improvements";
   "  - Made general code improvements and optimizations";
   "  - Updated existing functionality or fixed issues"].

(** [files.some(f => f.filename.toLowerCase().includes(word))] *)
Definition someFile (files : list FileChange) (word : string) : bool :=
  existsb (fun f => includes (toLowerCase (filename f)) word) files.

Definition backendExtensions : list string := [".js"; ".py"; ".java"; ".php"].
Definition frontendExtensions : list string := [".jsx"; ".tsx"; ".vue"; ".html"; ".css"].

(** [exts.some(ext => f.filename.toLowerCase().includes(ext))] *)
Definition hasExtension (exts : list string) (f : FileChange) : bool :=
  existsb (fun ext => includes (toLowerCase (filename f)) ext) exts.

Definition pushIf (cond : bool) (block : list string) : list string :=
  if cond then block else [].

(** The three mutually exclusive stack blocks. *)
Definition stackBlock (backendFiles frontendFiles : list FileChange) : list string :=
  if (0 <? List.length backendFiles)%nat && (0 <? List.length frontendFiles)%nat
  then fullStackBlock
  else if (0 <? List.length backendFiles)%nat then backendBlock
  else if (0 <? List.length frontendFiles)%nat then frontendBlock
  else [].

(** The [analysis] array just before [join]. *)
Definition analysisLines (commit : Commit) : list string :=
  let commitMessage := toLowerCase (message commit) in
  let files := files commit in
  let topics :=
    pushIf (someFile files "auth" || includes commitMessage "auth") authBlock
    ++ pushIf (someFile files "api" || includes commitMessage "api") apiBlock
    ++ pushIf (existsb (fun f => includes (toLowerCase (filename f)) "ui"
                                 || includes (toLowerCase (filename f)) "css"
                                 || includes (toLowerCase (filename f)) "jsx") files)
              uiBlock
    ++ pushIf (someFile files "test") testBlock
    ++ pushIf (someFile files "readme") docsBlock
    ++ pushIf (someFile files "env") envBlock
    ++ pushIf (someFile files "package") packageBlock in
  let backendFiles := filter (hasExtension backendExtensions) files in
  let frontendFiles := filter (hasExtension frontendExtensions) files in
  let analysis := topics ++ stackBlock backendFiles frontendFiles in
  match analysis with
  | [] => generalBlock
  | _ => analysis
  end.

Definition generateBasicAnalysis (commit : Commit) : string :=
  join LF (analysisLines commit).

(** A bullet block as it appears in the output text. *)
Definition blockText (block : list string) : string := join LF block.

End Categorizer.

(* ================================================================== *)
(** ** ReportService: text and markdown rendering *)
(* ================================================================== *)

Module ReportService.

(** [ReportService.getStatusEmoji] *)
Definition getStatusEmoji (s : FileStatus) : string :=
  match s with
  | added => "[ADDED]"
  | modified => "[MODIFIED]"
  | removed => "[REMOVED]"
  | renamed => "[RENAMED]"
  | _ => "[CHANGED]"
  end.

Definition isMarkdown (format : string) : bool := String.eqb format "markdown".
Definition isText (format : string) : bool := String.eqb format "text".

Section Rendering.
(** [Commit.getFormattedDate]: [moment(author.date).format('HH:mm:ss')]. *)
Variable formatTime : string -> string.

(** The report's opening line. *)
Definition heading (dateRange format : string) : string :=
  if isMarkdown format
  then "# Hey, on " ++ dateRange ++ " you did these changes:" ++ LF ++ LF
  else "Hey, on " ++ dateRange ++ " you did these changes:" ++ LF ++ LF.

(** The three leading lines of a commit block; [i] is the loop index. *)
Definition commitLines (format : string) (i : nat) (commit : Commit) : string :=
  let timeStr := formatTime (date (author commit)) in
  let message := trim (message commit) in
  let author := name (author commit) in
  let stats := stats commit in
  (if isMarkdown format
   then "## Commit " ++ ofNat (i + 1) ++ ": " ++ message ++ LF ++ LF
   else "Commit " ++ ofNat (i + 1) ++ ": " ++ message ++ LF)
  ++ (if isMarkdown format
      then "**Author:** " ++ author ++ " | **Time:** " ++ timeStr ++ LF ++ LF
      else "Author: " ++ author ++ " | Time: " ++ timeStr ++ LF)
  ++ (if isMarkdown format
      then "**Changes:** +" ++ ofZ (additions stats) ++ " -"
             ++ ofZ (deletions stats) ++ " lines" ++ LF ++ LF
      else "Changes: +" ++ ofZ (additions stats) ++ " -"
             ++ ofZ (deletions stats) ++ " lines" ++ LF).

(** One iteration of [for (const file of commit.files)]. *)
Definition fileLine (format : string) (file : FileChange) : string :=
  let statusEmoji := getStatusEmoji (status file) in
  if isMarkdown format
  then "- " ++ statusEmoji ++ " `" ++ filename file ++ "` ("
         ++ ofZ (changes file) ++ " changes)" ++ LF
  else "  " ++ statusEmoji ++ " " ++ filename file ++ " ("
         ++ ofZ (changes file) ++ " changes)" ++ LF.

Fixpoint fileLines (format : string) (files : list FileChange) : string :=
  match files with
  | [] => EmptyString
  | file :: rest => fileLine format file ++ fileLines format rest
  end.

(** The [Changed Files] part, present when the commit has files. *)
Definition changedFiles (format : string) (commit : Commit) : string :=
  match files commit with
  | [] => EmptyString
  | fs =>
      (if isMarkdown format then "**Changed Files:**" ++ LF
       else "Changed Files:" ++ LF)
      ++ fileLines format fs ++ LF
  end.

(** The rule that closes a commit block. *)
Definition separator (format : string) : string :=
  if isText format then JsString.repeat "-" 50 ++ LF ++ LF
  else "---" ++ LF ++ LF.

(** The [What you accomplished] part of the enhanced report. *)
Definition analysisPart (format analysis : string) : string :=
  if isMarkdown format
  then "**What you accomplished:**" ++ LF ++ analysis ++ LF ++ LF
  else "What you accomplished:" ++ LF ++ analysis ++ LF.

(** Body of the [for] loop of [generateQuickReport]. *)
Definition quickBlock (format : string) (i : nat) (data : CommitData) : string :=
  let commit := newCommit data in
  commitLines format i commit ++ changedFiles format commit ++ separator format.

Fixpoint quickLoop (format : string) (i : nat) (commits : list CommitData)
  (report : string) : string :=
  match commits with
  | [] => report
  | data :: rest => quickLoop format (S i) rest (report ++ quickBlock format i data)
  end.

(** [ReportService.generateQuickReport] *)
Definition generateQuickReport (commits : list CommitData)
  (dateRange format : string) : string :=
  match commits with
  | [] => "No commits found for " ++ dateRange
  | _ => quickLoop format 0 commits (heading dateRange format)
  end.

(** Body of the [for] loop of [generateEnhancedReport].  [aiAnalyzer] is
    the optional analysis callback; without it the heuristic categorizer
    is used. *)
Definition enhancedBlock (aiAnalyzer : option (Commit -> string))
  (format : string) (i : nat) (data : CommitData) : string :=
  let commit := newCommit data in
  let analysis :=
    match aiAnalyzer with
    | Some analyze => analyze commit
    | None => Categorizer.generateBasicAnalysis commit
    end in
  commitLines format i commit ++ analysisPart format analysis
    ++ changedFiles format commit ++ separator format.

Fixpoint enhancedLoop (aiAnalyzer : option (Commit -> string))
  (format : string) (i : nat) (commits : list CommitData) (report : string)
  : string :=
  match commits with
  | [] => report
  | data :: rest =>
      enhancedLoop aiAnalyzer format (S i) rest
                   (report ++ enhancedBlock aiAnalyzer format i data)
  end.

(** [ReportService.generateEnhancedReport] *)
Definition generateEnhancedReport (commits : list CommitData)
  (dateRange format : string) (aiAnalyzer : option (Commit -> string)) : string :=
  match commits with
  | [] => "No commits found for " ++ dateRange
  | _ => enhancedLoop aiAnalyzer format 0 commits (heading dateRange format)
  end.
End Rendering.

(** [ReportService.generateFilename]; [now] is the local clock reading
    taken by [moment()]. *)
Definition generateFilename (now : Moment.DateTime)
  (reportType dateRange format : string) : string :=
  let timestamp := Moment.formatStamp now in
  let extension := if isMarkdown format then "md" else "txt" in
  reportType ++ "-report-" ++ dateRange ++ "-" ++ timestamp ++ "." ++ extension.

End ReportService.

(* ================================================================== *)
(** ** ReportView: file names *)
(* ================================================================== *)

Module ReportView.

(** [ReportView.getFileExtension]: [extensions[format.toLowerCase()] || 'txt'].
    For a name inherited from [Object.prototype] the lookup is not a
    string; that case is [None]. *)
Definition getFileExtension (format : string) : option string :=
  let key := toLowerCase format in
  if JsObject.inherited key then None
  else if String.eqb key "text" then Some "txt"
  else if String.eqb key "markdown" then Some "md"
  else if String.eqb key "html" then Some "html"
  else if String.eqb key "json" then Some "json"
  else Some "txt".

(** [ReportView.generateFilename]; [now] is the UTC clock reading behind
    [new Date().toISOString()], of which only the part before ['T'] is kept. *)
Definition generateFilename (now : Moment.DateTime)
  (reportType dateRange format : string) : option string :=
  let timestamp := Moment.formatDate (Moment.on now) in
  match getFileExtension format with
  | Some extension =>
      Some (reportType ++ "-report-" ++ dateRange ++ "-" ++ timestamp
              ++ "." ++ extension)%string
  | None => None
  end.

End ReportView.

(* ================================================================== *)
(** ** One template, two decorations *)
(* ================================================================== *)

(** The structure that the specification attributes to the text and
    markdown renderings: a single sequence of pieces in which the commit
    data are fixed and only the decoration slots depend on the format. *)
Module Template.

Inductive Marker : Type :=
| H1        (* report heading marker *)
| H2        (* commit heading marker *)
| Bold      (* bold marker, opening or closing *)
| Break     (* the extra blank line that ends a markdown paragraph *)
| Bullet    (* list bullet of a file line *)
| Tick      (* inline-code marker around a file name *)
| Rule.     (* the horizontal rule that closes a commit block *)

(** What a data-carrying piece holds. *)
Inductive Field : Type :=
| Range | Index | Message | Author | Time | Added | Deleted
| Analysis | Status | FileName | Changes.

Inductive Piece : Type :=
| Text (s : string)                (* fixed wording *)
| Data (f : Field) (s : string)    (* a value taken from the commits *)
| Mark (m : Marker).               (* a decoration slot *)

Definition markdownMarks (m : Marker) : string :=
  match m with
  | H1 => "# " | H2 => "## " | Bold => "**" | Break => LF
  | Bullet => "- " | Tick => "`" | Rule => "---"
  end.

Definition textMarks (m : Marker) : string :=
  match m with
  | Bullet => "  "
  | Rule => JsString.repeat "-" 50
  | _ => EmptyString
  end.

Definition fillPiece (marks : Marker -> string) (p : Piece) : string :=
  match p with Text s => s | Data _ s => s | Mark m => marks m end.

Fixpoint fill (marks : Marker -> string) (ps : list Piece) : string :=
  match ps with
  | [] => EmptyString
  | p :: rest => fillPiece marks p ++ fill marks rest
  end.

Definition sameField (f g : Field) : bool :=
  match f, g with
  | Range, Range | Index, Index | Message, Message | Author, Author
  | Time, Time | Added, Added | Deleted, Deleted | Analysis, Analysis
  | Status, Status | FileName, FileName | Changes, Changes => true
  | _, _ => false
  end.

(** The values of one field, in template order. *)
Fixpoint values (f : Field) (ps : list Piece) : list string :=
  match ps with
  | [] => []
  | Data g s :: rest => if sameField f g then s :: values f rest else values f rest
  | _ :: rest => values f rest
  end.

Section Pieces.
Variable formatTime : string -> string.

Definition headingPieces (dateRange : string) : list Piece :=
  [Mark H1; Text "Hey, on "; Data Range dateRange;
   Text (" you did these changes:" ++ LF ++ LF)].

Definition commitPieces (i : nat) (commit : Commit) : list Piece :=
  [Mark H2;
   Text "Commit "; Data Index (ofNat (i + 1)); Text ": ";
   Data Message (trim (message commit)); Text LF;
   Mark Break;
   Mark Bold; Text "Author:"; Mark Bold;
   Text " "; Data Author (name (author commit)); Text " | ";
   Mark Bold; Text "Time:"; Mark Bold;
   Text " "; Data Time (formatTime (date (author commit))); Text LF;
   Mark Break;
   Mark Bold; Text "Changes:"; Mark Bold;
   Text " +"; Data Added (ofZ (additions (stats commit))); Text " -";
   Data Deleted (ofZ (deletions (stats commit))); Text (" lines" ++ LF);
   Mark Break].

Definition filePieces (file : FileChange) : list Piece :=
  [Mark Bullet; Data Status (ReportService.getStatusEmoji (status file)); Text " ";
   Mark Tick; Data FileName (filename file); Mark Tick;
   Text " ("; Data Changes (ofZ (changes file)); Text (" changes)" ++ LF)].

Definition changedFilesPieces (commit : Commit) : list Piece :=
  match files commit with
  | [] => []
  | fs =>
      [Mark Bold; Text "Changed Files:"; Mark Bold; Text LF]
      ++ flat_map filePieces fs ++ [Text LF]
  end.

Definition analysisPieces (analysis : string) : list Piece :=
  [Mark Bold; Text "What you accomplished:"; Mark Bold;
   Text LF; Data Analysis analysis; Text LF; Mark Break].

Definition separatorPieces : list Piece := [Mark Rule; Text (LF ++ LF)].

Definition quickBlockPieces (i : nat) (data : CommitData) : list Piece :=
  let commit := newCommit data in
  commitPieces i commit ++ changedFilesPieces commit ++ separatorPieces.

Definition enhancedBlockPieces (aiAnalyzer : option (Commit -> string))
  (i : nat) (data : CommitData) : list Piece :=
  let commit := newCommit data in
  let analysis :=
    match aiAnalyzer with
    | Some analyze => analyze commit
    | None => Categorizer.generateBasicAnalysis commit
    end in
  commitPieces i commit ++ analysisPieces analysis
    ++ changedFilesPieces commit ++ separatorPieces.

(** Blocks of the commits, numbered from [i]. *)
Fixpoint blocksFrom (block : nat -> CommitData -> list Piece) (i : nat)
  (commits : list CommitData) : list Piece :=
  match commits with
  | [] => []
  | data :: rest => block i data ++ blocksFrom block (S i) rest
  end.

Definition reportPieces (block : nat -> CommitData -> list Piece)
  (commits : list CommitData) (dateRange : string) : list Piece :=
  match commits with
  | [] => [Text "No commits found for "; Data Range dateRange]
  | _ => headingPieces dateRange ++ blocksFrom block 0 commits
  end.

Definition quickTemplate (commits : list CommitData) (dateRange : string)
  : list Piece :=
  reportPieces quickBlockPieces commits dateRange.

Definition enhancedTemplate (aiAnalyzer : option (Commit -> string))
  (commits : list CommitData) (dateRange : string) : list Piece :=
  reportPieces (enhancedBlockPieces aiAnalyzer) commits dateRange.
End Pieces.

End Template.

(* ================================================================== *)
(** ** Concrete inputs used by the evaluations below *)
(* ================================================================== *)

Module Examples.

Definition jane : Person := mkPerson "Jane" "jane@example.com" "2025-01-15T14:30:25Z".

Definition detail (sha : string) : RawDetail :=
  mkRawDetail sha "Add login form" jane jane
    [mkRawFile "src/auth/login.js" added (Some 10%Z) None (Some 10%Z)]
    (mkStats 10 10 0).

(** Page 1 lists exactly two commits, page 2 one, later pages none. *)
Definition pages (p : Params) : option (list Summary) :=
  match q_page p with
  | 1 => Some [mkSummary "aaa"; mkSummary "bbb"]
  | 2 => Some [mkSummary "ccc"]
  | _ => Some []
  end.

(** The detail request for commit [bbb] is rejected. *)
Definition flakyDetail : Upstream :=
  mkUpstream
    (fun _ _ p => Ok (pages p))
    (fun _ _ sha =>
       if String.eqb sha "bbb" then Throw "Request failed with status code 500"
       else Ok (detail sha)).

(** The second list request is rejected. *)
Definition flakyListing : Upstream :=
  mkUpstream
    (fun _ _ p =>
       match q_page p with
       | 2 => Throw "Network Error"
       | _ => Ok (pages p)
       end)
    (fun _ _ sha => Ok (detail sha)).

(** Every request succeeds; the listing depends on the page number only. *)
Definition steady : Upstream :=
  mkUpstream (fun _ _ p => Ok (pages p)) (fun _ _ sha => Ok (detail sha)).

Definition twoPerPage : GitHubService.Options :=
  GitHubService.mkOptions (Some 2) (Some "main") None None None.

(** An upstream that rejects every list request and reports the [until]
    parameter it received. *)
Definition untilProbe : Upstream :=
  mkUpstream
    (fun _ _ p => Throw (orElse (q_until p) "absent"))
    (fun _ _ sha => Ok (detail sha)).

(** An upstream holding one commit, authored on 2025-01-15, whose list
    endpoint returns the commits dated from [since] (inclusive) up to
    [until] (exclusive); ISO time stamps compare as text. *)
Definition inWindow (p : Params) (d : RawDetail) : bool :=
  let stamp := date (rd_author d) in
  match q_since p, q_until p with
  | Some s, Some u => String.leb s stamp && String.ltb stamp u
  | _, _ => true
  end.

Definition oneCommitStore : Upstream :=
  mkUpstream
    (fun _ _ p =>
       match q_page p with
       | 1 => Ok (Some (map (fun d => mkSummary (rd_sha d))
                            (filter (inWindow p) [detail "aaa"])))
       | _ => Ok (Some [])
       end)
    (fun _ _ sha => Ok (detail sha)).

(** Commits by distinct authors, each touching its own file. *)
Definition commitBy (who file : string) : Commit :=
  mkCommit who "work" (mkPerson who "" "2025-01-15T10:00:00Z")
           (mkPerson who "" "2025-01-15T10:00:00Z")
           [mkFile file modified 1 0 1] (mkStats 1 1 0).

Definition sixAuthors : list Commit :=
  map (fun w => commitBy w (w ++ ".js")) ["ann"; "bob"; "cy"; "dee"; "eve"; "fay"].

Definition elevenFiles : list Commit :=
  map (fun f => commitBy "ann" f)
      ["a.js"; "b.js"; "c.js"; "d.js"; "e.js"; "f.js"; "g.js"; "h.js";
       "i.js"; "j.js"; "k.js"].


Definition morning : Moment.DateTime :=
  Moment.mkDateTime (Moment.mkDate 2025 1 15) 10 30 0.


Definition loginCommit : Commit :=
  mkCommit "abc123" "add auth" jane jane
           [mkFile "src/auth/login.js" added 10 0 10] (mkStats 10 10 0).

Definition jsxCommit : Commit :=
  mkCommit "def456" "tidy" jane jane
           [mkFile "App.jsx" modified 3 1 4] (mkStats 4 3 1).

End Examples.

(* ================================================================== *)
(** ** Commit: the remaining methods *)
(* ================================================================== *)

Module CommitModel.

(** [Commit.toJSON]: the six fields as stored. *)
Definition toJSON (c : Commit) : CommitData := dataOf c.

Definition sameStatus (a b : FileStatus) : bool :=
  match a, b with
  | added, added | modified, modified | removed, removed | renamed, renamed
  | copied, copied | changed, changed | unchanged, unchanged => true
  | _, _ => false
  end.

(** [Commit.getFilesByStatus] *)
Definition getFilesByStatus (c : Commit) (s : FileStatus) : list FileChange :=
  filter (fun file => sameStatus (status file) s) (files c).

(** [Commit.getTotalFileChanges] *)
Definition getTotalFileChanges (c : Commit) : Z :=
  fold_left (fun total file => (total + changes file)%Z) (files c) 0%Z.

(** The [files] block of [Commit.getSummary]. *)
Record FileCounts : Type :=
  mkFileCounts { n_total : nat; n_added : nat; n_modified : nat;
                 n_removed : nat; n_renamed : nat }.

Definition getSummaryFiles (c : Commit) : FileCounts :=
  mkFileCounts (List.length (files c))
               (List.length (getFilesByStatus c added))
               (List.length (getFilesByStatus c modified))
               (List.length (getFilesByStatus c removed))
               (List.length (getFilesByStatus c renamed)).

End CommitModel.

(* ================================================================== *)
(** ** ReportService.getReportStatistics and Report.calculateSummary *)
(* ================================================================== *)

Module Totals.

Record Totals : Type :=
  mkTotals { t_commits : Z; t_additions : Z; t_deletions : Z;
             t_net : Z; t_average : Z }.

(** [ReportService.getReportStatistics] *)
Definition getReportStatistics (commits : list Commit) : Totals :=
  match commits with
  | [] => mkTotals 0 0 0 0 0
  | _ =>
      let totalCommits := Z.of_nat (List.length commits) in
      let totalAdditions := Aggregation.sumOf (fun c => additions (stats c)) commits in
      let totalDeletions := Aggregation.sumOf (fun c => deletions (stats c)) commits in
      let netChanges := (totalAdditions - totalDeletions)%Z in
      let averageChangesPerCommit :=
        Aggregation.roundDiv (totalAdditions + totalDeletions) totalCommits in
      mkTotals totalCommits totalAdditions totalDeletions netChanges
               averageChangesPerCommit
  end.

(** [Report.calculateSummary]: the four summary fields it assigns. *)
Record Summary4 : Type :=
  mkSummary4 { s_commits : Z; s_additions : Z; s_deletions : Z; s_net : Z }.

Definition calculateSummary (commits : list Commit) : Summary4 :=
  let totalAdditions := Aggregation.sumOf (fun c => additions (stats c)) commits in
  let totalDeletions := Aggregation.sumOf (fun c => deletions (stats c)) commits in
  mkSummary4 (Z.of_nat (List.length commits)) totalAdditions totalDeletions
             (totalAdditions - totalDeletions)%Z.

End Totals.

(* ================================================================== *)
(** ** AIAnalysisService: the pluggable analyzer *)
(* ================================================================== *)

Module AIAnalysisService.

(** The chat-completion call with the fixed system message: from the user
    content to [response.choices[0].message.content], or a failure (a
    rejected request or a response without that field). *)
Definition Client : Type := string -> Result string.

Definition statusText (s : FileStatus) : string :=
  match s with
  | added => "added" | modified => "modified" | removed => "removed"
  | renamed => "renamed" | copied => "copied" | changed => "changed"
  | unchanged => "unchanged"
  end.

Fixpoint contextFiles (filesChanged : list FileChange) (context : string) : string :=
  match filesChanged with
  | [] => context
  | file :: rest =>
      contextFiles rest
        (context ++ "- " ++ filename file ++ " (" ++ statusText (status file)
           ++ ", +" ++ ofZ (file_additions file) ++ " -"
           ++ ofZ (file_deletions file) ++ ")" ++ LF)
  end.

(** [prepareContext] *)
Definition prepareContext (commit : Commit) : string :=
  let context :=
    contextFiles (files commit)
      ("Commit Message: " ++ message commit ++ LF ++ LF ++ "Files Changed:" ++ LF) in
  context
    ++ LF ++ "Total Changes: +" ++ ofZ (additions (stats commit)) ++ " -"
    ++ ofZ (deletions (stats commit)) ++ " lines" ++ LF ++ LF
    ++ "Please analyze this commit and provide:" ++ LF
    ++ "1. What features or functionality were added/modified/removed" ++ LF
    ++ "2. What specific changes were made (e.g., "
    ++ String (ascii_of_nat 34) "Added user authentication"
    ++ String (ascii_of_nat 34) ", "
    ++ String (ascii_of_nat 34) "Updated API integration"
    ++ String (ascii_of_nat 34) ", "
    ++ String (ascii_of_nat 34) "Fixed UI design"
    ++ String (ascii_of_nat 34) ")" ++ LF
    ++ "3. What the developer accomplished in this commit" ++ LF
    ++ "4. Any technical improvements or bug fixes" ++ LF ++ LF
    ++ "Provide a clear, concise analysis in bullet points focusing on the actual functionality and purpose of the changes.".

(** [analyzeCommit]; [openai] is [None] when no API key was configured.
    A failed call is logged with [console.error]. *)
Definition analyzeCommit (openai : option Client) (commit : Commit)
  (log : list string) : string * list string :=
  match openai with
  | None => (Categorizer.generateBasicAnalysis commit, log)
  | Some create =>
      match create (prepareContext commit) with
      | Ok content => (trim content, log)
      | Throw m =>
          (Categorizer.generateBasicAnalysis commit,
           log ++ [("AI analysis failed: " ++ m)%string])
      end
  end.

(** [analyzeCommits]: the [analyses] array of [{commit, analysis}]. *)
Fixpoint analyzeLoop (openai : option Client) (commits : list Commit)
  (analyses : list (Commit * string)) (log : list string)
  : list (Commit * string) * list string :=
  match commits with
  | [] => (analyses, log)
  | commit :: rest =>
      let '(analysis, log') := analyzeCommit openai commit log in
      analyzeLoop openai rest (analyses ++ [(commit, analysis)]) log'
  end.

Definition analyzeCommits (openai : option Client) (commits : list Commit)
  (log : list string) : list (Commit * string) * list string :=
  analyzeLoop openai commits [] log.

(** [isAvailable] *)
Definition isAvailable (openai : option Client) : bool :=
  match openai with Some _ => true | None => false end.

End AIAnalysisService.

(* ================================================================== *)
(** ** Repository model *)
(* ================================================================== *)

Module RepositoryModel.

(** The fields of a [Repository] instance. *)
Record Repository : Type :=
  mkRepository { repo_id : option Z; repo_name : string; repo_fullName : string;
                 repo_owner : string; repo_description : string;
                 repo_private : bool; repo_htmlUrl : string;
                 repo_defaultBranch : string; repo_updatedAt : string;
                 repo_cloneUrl : string; repo_sshUrl : string }.

(** [part || fallback] for an array element that may be missing or empty. *)
Definition partOr (part : option string) (fallback : string) : string :=
  match part with
  | None => fallback
  | Some EmptyString => fallback
  | Some s => s
  end.

(** [Repository.getOwnerAndRepo] *)
Definition getOwnerAndRepo (r : Repository) : RepoInfo :=
  let parts := split "/" (repo_fullName r) in
  mkRepoInfo (partOr (nth_error parts 0) (repo_owner r))
             (partOr (nth_error parts 1) (repo_name r)).

Record Urls : Type := mkUrls { https : string; ssh : string; api : string }.

(** [Repository.getUrls] *)
Definition getUrls (r : Repository) : Urls :=
  let i := getOwnerAndRepo r in
  mkUrls ("https://github.com/" ++ owner i ++ "/" ++ repo i)
         ("git@github.com:" ++ owner i ++ "/" ++ repo i ++ ".git")
         ("https://api.github.com/repos/" ++ owner i ++ "/" ++ repo i).

(** [Repository.getDisplayName] *)
Definition getDisplayName (r : Repository) : string :=
  match repo_fullName r with
  | EmptyString => repo_owner r ++ "/" ++ repo_name r
  | full => full
  end.

End RepositoryModel.

(* ================================================================== *)
(** ** Controllers *)
(* ================================================================== *)

Module RepositoryController.

(** [validateRepositoryUrl] *)
Definition validateRepositoryUrl (repoUrl : string) : bool :=
  negb (isThrow (extractRepoInfo repoUrl)).

End RepositoryController.

Module CommitController.

(** The shape shared by [getCommitsForDate], [getCommitsForDateRange] and
    [getAllCommits]: resolve the reference, call the service, wrap every
    commit with [new Commit]; whatever is thrown is rethrown with the
    method's own prefix. *)
Definition viaService (prefix repoUrl : string)
  (service : string -> string -> option (Result (list Commit)))
  : option (Result (list Commit)) :=
  match extractRepoInfo repoUrl with
  | Throw m => Some (Throw (prefix ++ m))
  | Ok info =>
      match service (owner info) (repo info) with
      | None => None
      | Some (Throw m) => Some (Throw (prefix ++ m))
      | Some (Ok commits) =>
          Some (Ok (map (fun commitData => newCommit (dataOf commitData)) commits))
      end
  end.

(** [CommitController.getCommitsForDate] *)
Definition getCommitsForDate (fuel : nat) (up : Upstream)
  (repoUrl date branch : string) : option (Result (list Commit)) :=
  viaService "Failed to get commits for date: " repoUrl
    (fun owner repo =>
       GitHubService.getCommitsForDate fuel up owner repo date branch None).

(** [CommitController.getCommitsForDateRange]: the method takes four
    arguments, no author filter reaches the service. *)
Definition getCommitsForDateRange (fuel : nat) (up : Upstream)
  (repoUrl fromDate toDate branch : string) : option (Result (list Commit)) :=
  viaService "Failed to get commits for date range: " repoUrl
    (fun owner repo =>
       GitHubService.getCommitsForDateRange fuel up owner repo fromDate toDate
         branch None).

(** [CommitController.getAllCommits] *)
Definition getAllCommits (fuel : nat) (up : Upstream)
  (repoUrl branch : string) : option (Result (list Commit)) :=
  viaService "Failed to get all commits: " repoUrl
    (fun owner repo =>
       GitHubService.getCommits fuel up owner repo
         (GitHubService.mkOptions None (Some branch) None None None)).

(** [CommitController.filterCommitsByDate] (the stand-alone reporter has
    the same method).  [localDate] stands for
    [moment(stamp).format('YYYY-MM-DD')], the calendar date of a time
    stamp in the time zone of the running process. *)
Definition filterCommitsByDate (localDate : string -> string)
  (commits : list Commit) (targetDate : string) : list Commit :=
  filter (fun commit =>
            let commitDate := localDate (date (author commit)) in
            String.eqb commitDate targetDate)
         commits.

(** [CommitController.validateCommit] *)
Definition validateCommit (commitData : CommitData) : bool :=
  isValid (newCommit commitData).

End CommitController.

Module ReportController.

(** [filterCommitsByAuthor]: the author or the committer name contains
    the filter, letter case ignored.  [lower] stands for the engine's
    [String.prototype.toLowerCase], which folds every cased letter and not
    only those of the ASCII range; nothing is assumed of it. *)
Definition filterCommitsByAuthor (lower : string -> string)
  (commits : list Commit) (who : string) : list Commit :=
  filter (fun commit =>
            let authorName := name (author commit) in
            let committerName := name (committer commit) in
            includes (lower authorName) (lower who)
            || includes (lower committerName) (lower who))
         commits.

(** [moment(s, 'YYYY-MM-DD', true).isValid()] *)
Definition strictValid (s : string) : bool :=
  match Moment.parseDate s with Some _ => true | None => false end.

Definition dateAfter (a b : Moment.Date) : bool :=
  ((Moment.year b <? Moment.year a)
   || ((Moment.year a =? Moment.year b)
       && ((Moment.month b <? Moment.month a)
           || ((Moment.month a =? Moment.month b)
               && (Moment.day b <? Moment.day a)))))%nat.

(** [moment(a).isAfter(moment(b))]; comparisons with an invalid moment
    are false. *)
Definition isAfter (a b : string) : bool :=
  match Moment.parseDate a, Moment.parseDate b with
  | Some x, Some y => dateAfter x y
  | _, _ => false
  end.

Record Summary : Type :=
  mkSummary { totalCommits : Z; totalAdditions : Z; totalDeletions : Z;
              netChanges : Z; dateRange : string; author : string }.

Record ReportData : Type :=
  mkReportData { report : string; filename : string; summary : Summary }.

(** [ReportController.generateQuickReport].  [now] is the clock reading
    used for the file name, [formatTime] the time-of-day formatting of the
    Commit model, [lower] the engine's case folding used by the author
    filter. *)
Definition generateQuickReport (fuel : nat) (up : Upstream)
  (now : Moment.DateTime) (formatTime lower : string -> string)
  (repoUrl fromDate toDate branch format : string) (who : option string)
  : option (Result ReportData) :=
  let fail (m : string) : option (Result ReportData) :=
    Some (Throw ("Failed to generate quick report: " ++ m)) in
  if negb (RepositoryController.validateRepositoryUrl repoUrl)
  then fail "Invalid repository URL"
  else if negb (strictValid fromDate) || negb (strictValid toDate)
  then fail "Invalid date format. Use YYYY-MM-DD"
  else if isAfter fromDate toDate
  then fail "From date cannot be after to date"
  else
    match CommitController.getCommitsForDateRange fuel up repoUrl fromDate toDate branch with
    | None => None
    | Some (Throw m) => fail m
    | Some (Ok fetchedCommits) =>
        let commits :=
          match GitHubService.truthy who with
          | Some a => filterCommitsByAuthor lower fetchedCommits a
          | None => fetchedCommits
          end in
        let authorLabel := orElse (GitHubService.truthy who) "All contributors" in
        let range := (fromDate ++ " to " ++ toDate)%string in
        match commits with
        | [] =>
            let authorText : string :=
              match GitHubService.truthy who with
              | Some a => (" by " ++ a)%string
              | None => EmptyString
              end in
            let authorTag : string :=
              match GitHubService.truthy who with
              | Some a => ("-" ++ a)%string
              | None => EmptyString
              end in
            Some (Ok (mkReportData
                        ("No commits found for the date range " ++ range ++ authorText)
                        ("no-commits-" ++ fromDate ++ "-to-" ++ toDate ++ authorTag
                           ++ ".txt")
                        (mkSummary 0 0 0 0 range authorLabel)))
        | _ =>
            let label : string :=
              if String.eqb fromDate toDate then fromDate else range in
            let text :=
              ReportService.generateQuickReport formatTime (map dataOf commits)
                                                label format in
            let file := ReportService.generateFilename now "quick" label format in
            let statistics := Totals.getReportStatistics commits in
            Some (Ok (mkReportData text file
                        (mkSummary (Totals.t_commits statistics)
                                   (Totals.t_additions statistics)
                                   (Totals.t_deletions statistics)
                                   (Totals.t_net statistics)
                                   range authorLabel)))
        end
    end.

End ReportController.

(* ================================================================== *)
(** ** Vocabulary for the statements *)
(* ================================================================== *)

(** The commits of a listed page whose detail request succeeds, in listing
    order, and the log lines for those whose request fails. *)
Definition fetched (up : Upstream) (owner repo : string) (page : list Summary)
  : list Commit :=
  flat_map (fun s => match getCommit up owner repo (s_sha s) with
                     | Ok d => [normalize d]
                     | Throw _ => []
                     end) page.

Definition complaints (up : Upstream) (owner repo : string) (page : list Summary)
  : list string :=
  flat_map (fun s => match getCommit up owner repo (s_sha s) with
                     | Ok _ => []
                     | Throw m =>
                         [("Error fetching commit details for " ++ s_sha s
                             ++ ": " ++ m)%string]
                     end) page.

(** Number of listed commits whose detail request fails. *)
Definition failures (up : Upstream) (owner repo : string) (page : list Summary)
  : nat :=
  List.length (filter (fun s => isThrow (getCommit up owner repo (s_sha s))) page).

(** Owner and repository names as they occur in well-formed references:
    no ['/'] and no white space. *)
Definition plainChar (c : ascii) : bool := negb (Ascii.eqb c "/") && negb (isSpace c).

Fixpoint plain (s : string) : bool :=
  match s with
  | EmptyString => true
  | String c s' => plainChar c && plain s'
  end.

(** Strings without white space, on which [trim] has nothing to remove. *)
Fixpoint spaceless (s : string) : Prop :=
  match s with
  | EmptyString => True
  | String c s' => isSpace c = false /\ spaceless s'
  end.

(** The commit titles and the changed-file names of a commit list, in
    input order. *)
Definition titlesOf (commits : list CommitData) : list string :=
  map (fun data => trim (message (newCommit data))) commits.

Definition fileNamesOf (commits : list CommitData) : list string :=
  flat_map (fun data => map filename (files (newCommit data))) commits.

(** The two formats that share the template, each with its decoration. *)
Inductive Decorates : string -> (Template.Marker -> string) -> Prop :=
| decorates_text : Decorates "text" Template.textMarks
| decorates_markdown : Decorates "markdown" Template.markdownMarks.

(** Consecutive list requests, from page [start] on, each answered with the
    corresponding page of [pages].  [ask n] is the response to the request
    for page [n]. *)
Fixpoint served (ask : nat -> Result (option (list Summary))) (start : nat)
  (pages : list (list Summary)) : Prop :=
  match pages with
  | [] => True
  | page :: rest => ask start = Ok (Some page) /\ served ask (S start) rest
  end.

(** The commit built from some successful detail response of [up]. *)
Definition fromUpstream (up : Upstream) (owner repo : string) (c : Commit) : Prop :=
  exists sha d, getCommit up owner repo sha = Ok d /\ c = normalize d.

(** Sum of an integer measure over a list. *)
Definition sumZ {A : Type} (f : A -> Z) (l : list A) : Z :=
  fold_right (fun x acc => (f x + acc)%Z) 0%Z l.

(** The commits whose author name becomes a key of the contributor table,
    and the changed files whose name becomes a key of the file table. *)
Definition counted (commits : list Commit) : list Commit :=
  filter (fun c => negb (JsObject.inherited (name (author c)))) commits.

Definition countedFiles (commits : list Commit) : list FileChange :=
  filter (fun f => negb (JsObject.inherited (filename f)))
         (flat_map files commits).

(** The counted commits of one author name, and the record the
    contributor table holds for that name: the e-mail address of the
    first of them, their number and their added and deleted lines. *)
Definition authoredBy (who : string) (commits : list Commit) : list Commit :=
  filter (fun c => String.eqb (name (author c)) who) (counted commits).

Definition contributorFor (who : string) (commits : list Commit)
  : option Aggregation.Contributor :=
  match authoredBy who commits with
  | [] => None
  | (first :: _) as mine =>
      Some (Aggregation.mkContributor who (email (author first))
              (Z.of_nat (List.length mine))
              (sumZ (fun c => additions (stats c)) mine)
              (sumZ (fun c => deletions (stats c)) mine))
  end.

(** The counted changes of one file name, and the record the file table
    holds for that name. *)
Definition changesTo (path : string) (commits : list Commit) : list FileChange :=
  filter (fun f => String.eqb (filename f) path) (countedFiles commits).

Definition fileStatFor (path : string) (commits : list Commit)
  : option Aggregation.FileStat :=
  match changesTo path commits with
  | [] => None
  | mine =>
      Some (Aggregation.mkFileStat path (sumZ changes mine)
              (sumZ file_additions mine) (sumZ file_deletions mine)
              (Z.of_nat (List.length mine)))
  end.

(** An upstream whose list endpoint returns nothing for an empty window,
    that is when [since] and [until] are the same instant. *)
Definition emptyWindow (up : Upstream) (owner repo : string) : Prop :=
  forall (p : Params) (instant : string),
    q_since p = Some instant -> q_until p = Some instant ->
    listCommits up owner repo p = Ok (Some []).

(** Files with a status that [getSummary] does not count. *)
Definition otherStatus (f : FileChange) : bool :=
  match status f with
  | copied | changed | unchanged => true
  | _ => false
  end.

(** The seven topic conditions of the heuristic categorizer, in source
    order, and its two extension buckets. *)
Definition topicMatches (commit : Commit) : list bool :=
  let commitMessage := toLowerCase (message commit) in
  let files := files commit in
  [Categorizer.someFile files "auth" || includes commitMessage "auth";
   Categorizer.someFile files "api" || includes commitMessage "api";
   existsb (fun f => includes (toLowerCase (filename f)) "ui"
                     || includes (toLowerCase (filename f)) "css"
                     || includes (toLowerCase (filename f)) "jsx") files;
   Categorizer.someFile files "test";
   Categorizer.someFile files "readme";
   Categorizer.someFile files "env";
   Categorizer.someFile files "package"].

Definition backendFiles (commit : Commit) : list FileChange :=
  filter (Categorizer.hasExtension Categorizer.backendExtensions) (files commit).

Definition frontendFiles (commit : Commit) : list FileChange :=
  filter (Categorizer.hasExtension Categorizer.frontendExtensions) (files commit).

Definition nonEmptyList {A : Type} (l : list A) : bool := (0 <? List.length l)%nat.

(** A line of the analysis is a block heading or a detail line. *)
Definition bulletLine (line : string) : bool :=
  String.prefix "* " line || String.prefix "  - " line.

(** The lower-cased file names of a commit, in order. *)
Definition lowerNames (commit : Commit) : list string :=
  map (fun f => toLowerCase (filename f)) (files commit).

(** What the analyzer answers for one commit, given the outcome of the
    call. *)
Definition analysisFor (create : AIAnalysisService.Client) (commit : Commit) : string :=
  match create (AIAnalysisService.prepareContext commit) with
  | Ok content => trim content
  | Throw _ => Categorizer.generateBasicAnalysis commit
  end.

Definition analyzerComplaints (create : AIAnalysisService.Client)
  (commits : list Commit) : list string :=
  flat_map (fun commit =>
              match create (AIAnalysisService.prepareContext commit) with
              | Ok _ => []
              | Throw m => [("AI analysis failed: " ++ m)%string]
              end) commits.

(** Decoration of every format other than [markdown] and [text]: the
    text decoration with the short rule. *)
Definition otherMarks (m : Template.Marker) : string :=
  match m with
  | Template.Bullet => "  "
  | Template.Rule => "---"
  | _ => EmptyString
  end.

(** Further concrete inputs. *)
Module MoreExamples.

(** [loginCommit] written in capitals. *)
Definition shoutedLogin : Commit :=
  mkCommit "abc123" "ADD AUTH" Examples.jane Examples.jane
           [mkFile "SRC/AUTH/LOGIN.JS" added 10 0 10] (mkStats 10 10 0).

(** A client whose every call is rejected. *)
Definition offline : AIAnalysisService.Client := fun _ => Throw "timeout".

(** A repository record as built from an API response. *)
Definition vscode : RepositoryModel.Repository :=
  RepositoryModel.mkRepository (Some 41881900%Z) "vscode" "microsoft/vscode"
    "microsoft" "Visual Studio Code" false "https://github.com/microsoft/vscode"
    "main" "2025-01-15T14:30:25Z" "https://github.com/microsoft/vscode.git"
    "git@github.com:microsoft/vscode.git".

(** The calendar date of a UTC time stamp ([...Z]) in a process running
    in UTC: its first ten characters. *)
Definition utcDate (stamp : string) : string := substring 0 10 stamp.

(** A page of one hundred listed commits, named [1] to [100]. *)
Definition hundred : list Summary :=
  map (fun n => mkSummary (NilZero.string_of_uint (Nat.to_uint n))) (seq 1 100).

(** An upstream with more than a page of history: the first list request
    returns a full page, the second is rejected, and so is the detail
    request for commit [7]. *)
Definition busy : Upstream :=
  mkUpstream
    (fun _ _ p =>
       match q_page p with
       | 1 => Ok (Some hundred)
       | _ => Throw "Network Error"
       end)
    (fun _ _ sha =>
       if String.eqb sha "7" then Throw "Request failed with status code 500"
       else Ok (Examples.detail sha)).

(** Three commits: two by the same author, two touching the same file. *)
Definition shared : list Commit :=
  [Examples.commitBy "ann" "a.js"; Examples.commitBy "bob" "a.js";
   Examples.commitBy "ann" "b.js"].

(** A commit authored by one person and committed by another. *)
Definition relayed : Commit :=
  mkCommit "fff000" "Apply patch" (mkPerson "Ada Lovelace" "ada@example.com" "2025-01-15T10:00:00Z")
           (mkPerson "web-flow" "noreply@github.com" "2025-01-15T10:05:00Z")
           [] (mkStats 0 0 0).

End MoreExamples.

(* ================================================================== *)
(** * Properties *)
(* ================================================================== *)

(** ** Strings *)

Lemma append_assoc (a b c : string) : ((a ++ b) ++ c = a ++ (b ++ c))%string.
Proof. induction a as [|x a IH]; simpl; [reflexivity | now rewrite IH]. Qed.

Lemma append_nil_r (a : string) : (a ++ "")%string = a.
Proof. induction a as [|x a IH]; simpl; [reflexivity | now rewrite IH]. Qed.

Lemma prefix_nil (s : string) : String.prefix "" s = true.
Proof. now destruct s. Qed.

(** Removing a pattern found at the very start leaves what follows it. *)
Lemma replace_at_start (s pat : string) :
  String.prefix pat s = true ->
  replace s pat "" = skip (String.length pat) s.
Proof.
  intros H. destruct s; cbn [replace]; rewrite H; reflexivity.
Qed.

(** ** Repository references *)

Lemma repoParts_remainingPath (url : string) :
  repoParts url = option_map segments (remainingPath url).
Proof.
  unfold repoParts, remainingPath, segments, startsWith.
  destruct (String.prefix httpsPrefix url) eqn:Hh.
  - simpl. now rewrite (replace_at_start _ _ Hh).
  - destruct (String.prefix sshPrefix url) eqn:Hs; simpl; [|reflexivity].
    now rewrite (replace_at_start _ _ Hs).
Qed.

Lemma remainingPath_none (url : string) :
  remainingPath url = None <->
  (startsWith url httpsPrefix = false /\ startsWith url sshPrefix = false).
Proof.
  unfold remainingPath.
  destruct (startsWith url httpsPrefix); [|destruct (startsWith url sshPrefix)];
    split; intros H; try discriminate; try (destruct H; discriminate); auto.
Qed.

(** What [extractRepoInfo] returns, read off the remaining path. *)
Lemma extractRepoInfo_cases (url : string) :
  match remainingPath url with
  | None => extractRepoInfo url = Throw "Invalid GitHub repository URL format"
  | Some path =>
      match segments path with
      | [o; r] => extractRepoInfo url = Ok (mkRepoInfo o (replace r ".git" ""))
      | _ => extractRepoInfo url =
             Throw "Invalid GitHub repository URL. Expected format: owner/repo"
      end
  end.
Proof.
  unfold extractRepoInfo. rewrite repoParts_remainingPath.
  destruct (remainingPath url) as [path|]; simpl; [|reflexivity].
  destruct (segments path) as [|o [|r [|x l]]]; reflexivity.
Qed.

(** C8. [extractRepoInfo] resolves ["https://github.com/acme/widgets.git"]
    to owner [acme] and repository [widgets], throws on ["not-a-url"], and
    in general throws exactly when the reference starts with neither the
    HTTPS nor the SSH GitHub prefix or the path left after the prefix does
    not split into exactly two segments; in every other case it returns
    the two segments (the repository with its [.git] removed). *)
Theorem C8_extractRepoInfo_resolution :
  extractRepoInfo "https://github.com/acme/widgets.git"
    = Ok (mkRepoInfo "acme" "widgets")
  /\ extractRepoInfo "not-a-url" = Throw "Invalid GitHub repository URL format"
  /\ (forall url,
        isThrow (extractRepoInfo url) = true <->
        ((startsWith url httpsPrefix = false /\ startsWith url sshPrefix = false)
         \/ exists path, remainingPath url = Some path
                         /\ List.length (segments path) <> 2))
  /\ (forall url,
        match remainingPath url with
        | Some path =>
            match segments path with
            | [o; r] => extractRepoInfo url = Ok (mkRepoInfo o (replace r ".git" ""))
            | _ => isThrow (extractRepoInfo url) = true
            end
        | None => isThrow (extractRepoInfo url) = true
        end).
Proof.
  split; [reflexivity|]. split; [reflexivity|]. split.
  - intros url. pose proof (extractRepoInfo_cases url) as H.
    pose proof (remainingPath_none url) as Hnone.
    destruct (remainingPath url) as [path|] eqn:Hr.
    + destruct (segments path) as [|o [|r [|x l]]] eqn:Hseg;
        rewrite H; simpl; split; intros Hx; try reflexivity;
        try (right; exists path; split; [reflexivity|]; rewrite Hseg; simpl; lia).
      destruct Hx as [Hx|[path' [Hp Hl]]].
      * apply Hnone in Hx. discriminate.
      * injection Hp as <-. rewrite Hseg in Hl. simpl in Hl. lia.
    + rewrite H. simpl. split; intros _; [left; now apply Hnone | reflexivity].
  - intros url. pose proof (extractRepoInfo_cases url) as H.
    destruct (remainingPath url) as [path|]; [|now rewrite H].
    destruct (segments path) as [|o [|r [|x l]]]; rewrite H; reflexivity.
Qed.

(** *** Well-formed HTTPS references are accepted *)

Lemma prefix_app_same (p s : string) : String.prefix p (p ++ s) = true.
Proof.
  induction p as [|c p IH]; simpl; [apply prefix_nil|].
  destruct (ascii_dec c c); [assumption | contradiction].
Qed.

Lemma skip_app (p s : string) : skip (String.length p) (p ++ s) = s.
Proof. induction p as [|c p IH]; simpl; [reflexivity | assumption]. Qed.

Lemma split_plain (s : string) : plain s = true -> split "/" s = [s].
Proof.
  induction s as [|c s IH]; simpl; intros H; [reflexivity|].
  apply andb_prop in H. destruct H as [Hc Hs]. unfold plainChar in Hc.
  apply andb_prop in Hc. destruct Hc as [Hc _].
  apply negb_true_iff in Hc. rewrite Hc, (IH Hs). reflexivity.
Qed.

Lemma split_owner_repo (o r : string) :
  plain o = true -> plain r = true -> split "/" (o ++ "/" ++ r) = [o; r].
Proof.
  intros Ho Hr. induction o as [|c o IH]; simpl.
  - now rewrite (split_plain r Hr).
  - simpl in Ho. apply andb_prop in Ho. destruct Ho as [Hc Ho].
    unfold plainChar in Hc. apply andb_prop in Hc. destruct Hc as [Hc _].
    apply negb_true_iff in Hc. rewrite Hc.
    change (split "/" (o ++ String "/" r)) with (split "/" (o ++ "/" ++ r)).
    now rewrite (IH Ho).
Qed.

(** Nothing is trimmed from a string without white space. *)
Lemma trim_spaceless (s : string) : spaceless s -> trim s = s.
Proof.
  intros H. unfold trim.
  assert (Hs : trimStart s = s) by (destruct s as [|c s]; simpl; [|destruct H as [-> _]]; reflexivity).
  rewrite Hs. clear Hs. induction s as [|c s IH]; simpl; [reflexivity|].
  destruct H as [Hc Hs]. rewrite (IH Hs), Hc. now destruct s.
Qed.

Lemma plain_spaceless (s : string) : plain s = true -> spaceless s.
Proof.
  induction s as [|c s IH]; simpl; intros H; [exact I|].
  apply andb_prop in H. destruct H as [Hc Hs]. unfold plainChar in Hc.
  apply andb_prop in Hc. destruct Hc as [_ Hc]. apply negb_true_iff in Hc. now split; [|apply IH].
Qed.

Lemma spaceless_app (a b : string) : spaceless a -> spaceless b -> spaceless (a ++ b).
Proof. induction a as [|c a IH]; simpl; intros Ha Hb; [assumption|]. destruct Ha. now split; [|apply IH]. Qed.

(** Every reference [https://github.com/{owner}/{repo}] whose owner and
    repository contain no ['/'] and no white space resolves to that owner
    and to the repository name without its first [.git]. *)
Lemma extractRepoInfo_https (o r : string) :
  plain o = true -> plain r = true ->
  extractRepoInfo (httpsPrefix ++ o ++ "/" ++ r)
  = Ok (mkRepoInfo o (replace r ".git" "")).
Proof.
  intros Ho Hr.
  pose proof (extractRepoInfo_cases (httpsPrefix ++ o ++ "/" ++ r)) as H.
  unfold remainingPath, startsWith in H.
  rewrite prefix_app_same, skip_app in H.
  rewrite trim_spaceless in H.
  - unfold segments in H. now rewrite (split_owner_repo o r Ho Hr) in H.
  - apply spaceless_app; [now apply plain_spaceless|].
    simpl. split; [reflexivity | now apply plain_spaceless].
Qed.

(** The reference forms exercised by the repository's test script. *)
Lemma extractRepoInfo_tested_forms :
  extractRepoInfo "https://github.com/microsoft/vscode" = Ok (mkRepoInfo "microsoft" "vscode")
  /\ extractRepoInfo "https://github.com/microsoft/vscode.git" = Ok (mkRepoInfo "microsoft" "vscode")
  /\ extractRepoInfo "git@github.com:microsoft/vscode.git" = Ok (mkRepoInfo "microsoft" "vscode")
  /\ extractRepoInfo "git@github.com:microsoft/vscode" = Ok (mkRepoInfo "microsoft" "vscode")
  /\ isThrow (extractRepoInfo "https://github.com/microsoft/vscode/") = true
  /\ isThrow (extractRepoInfo "https://github.com/microsoft/vscode/tree/main") = true.
Proof. repeat split; reflexivity. Qed.

(** ** Retrieval: GitHubService *)

Section Retrieval.
Variable up : Upstream.
Variables owner repo : string.

(** A rejected detail request makes the detail loop throw, whatever has
    been accumulated. *)
Lemma detailLoop_rejected (page : list Summary) (commits : list Commit)
  (s : Summary) (m : string) :
  In s page ->
  getCommit up owner repo (s_sha s) = Throw m ->
  isThrow (GitHubService.detailLoop up owner repo page commits) = true.
Proof.
  revert commits. induction page as [|c rest IH]; intros commits Hin Hm.
  - destruct Hin.
  - simpl. destruct Hin as [->|Hin].
    + unfold GitHubService.getCommitDetails. rewrite Hm. reflexivity.
    + destruct (GitHubService.getCommitDetails up owner repo (s_sha c));
        [now apply IH | reflexivity].
Qed.

(** In [GitHubService.getCommits] one rejected detail request on a listed
    page is fatal: the call throws and returns no commit. *)
Lemma getCommitsFrom_detail_rejected (fuel : nat)
  (options : GitHubService.Options) (n : nat) (commits : list Commit)
  (page : list Summary) (s : Summary) (m : string) :
  listCommits up owner repo (GitHubService.paramsOf options n) = Ok (Some page) ->
  In s page ->
  getCommit up owner repo (s_sha s) = Throw m ->
  exists msg,
    GitHubService.getCommitsFrom (S fuel) up owner repo options n commits
      = Some (Throw msg).
Proof.
  intros Hl Hin Hm. simpl. rewrite Hl.
  destruct page as [|c rest]; [destruct Hin|].
  pose proof (detailLoop_rejected (c :: rest) commits s m Hin Hm) as Ht.
  destruct (GitHubService.detailLoop up owner repo (c :: rest) commits);
    [discriminate | eauto].
Qed.

(** In [GitHubService.getCommits] a rejected list request is fatal too. *)
Lemma getCommitsFrom_listing_rejected (fuel : nat)
  (options : GitHubService.Options) (n : nat) (commits : list Commit) (m : string) :
  listCommits up owner repo (GitHubService.paramsOf options n) = Throw m ->
  GitHubService.getCommitsFrom (S fuel) up owner repo options n commits
    = Some (Throw ("Error fetching commits: " ++ m)).
Proof. intros Hl. simpl. now rewrite Hl. Qed.

(** ** Retrieval: the stand-alone reporter *)

Lemma fetched_complaints_length (page : list Summary) :
  (List.length (fetched up owner repo page)
   + List.length (complaints up owner repo page))%nat = List.length page.
Proof.
  induction page as [|c rest IH]; [reflexivity|].
  unfold fetched, complaints in *. cbn [flat_map]. rewrite !length_app.
  destruct (getCommit up owner repo (s_sha c)); cbn [List.length]; lia.
Qed.

Lemma complaints_failures (page : list Summary) :
  List.length (complaints up owner repo page) = failures up owner repo page.
Proof.
  induction page as [|c rest IH]; [reflexivity|].
  unfold complaints, failures in *. cbn [flat_map filter]. rewrite length_app, IH.
  destruct (getCommit up owner repo (s_sha c)); reflexivity.
Qed.

(** The reporter's detail loop keeps the commits whose detail request
    succeeds, in listing order, and logs one line per rejected request. *)
Lemma reporter_detailLoop (page : list Summary) (commits : list Commit)
  (log : EnhancedReporter.Log) :
  EnhancedReporter.detailLoop up owner repo page commits log
    = (commits ++ fetched up owner repo page,
       log ++ complaints up owner repo page).
Proof.
  revert commits log. induction page as [|c rest IH]; intros commits log.
  - simpl. now rewrite !app_nil_r.
  - simpl. unfold EnhancedReporter.getCommitDetails, fetched, complaints in *.
    simpl. destruct (getCommit up owner repo (s_sha c)); rewrite IH;
      simpl; now rewrite <- !app_assoc.
Qed.

(** In the reporter, a full page is followed by the request for the next
    page, with the fetched commits appended and the failures logged; with
    exactly one rejected detail request the page contributes
    [perPage - 1] commits. *)
Lemma reporter_full_page_continues (fuel : nat)
  (sinceDate untilDate : option string) (branch : string) (n : nat)
  (commits : list Commit) (log : EnhancedReporter.Log) (page : list Summary) :
  listCommits up owner repo
    (EnhancedReporter.paramsOf sinceDate untilDate branch n) = Ok (Some page) ->
  List.length page = EnhancedReporter.perPage ->
  EnhancedReporter.getCommitsFrom (S fuel) up owner repo sinceDate untilDate
      branch n commits log
    = EnhancedReporter.getCommitsFrom fuel up owner repo sinceDate untilDate
        branch (S n) (commits ++ fetched up owner repo page)
        (log ++ complaints up owner repo page)
  /\ (failures up owner repo page = 1%nat ->
      List.length (fetched up owner repo page) = (EnhancedReporter.perPage - 1)%nat).
Proof.
  intros Hl Hlen. split.
  - cbn [EnhancedReporter.getCommitsFrom]. rewrite Hl.
    destruct page as [|c rest]; [discriminate|].
    rewrite reporter_detailLoop, Hlen, Nat.ltb_irrefl. reflexivity.
  - intros Hf. pose proof (fetched_complaints_length page) as Hc.
    rewrite complaints_failures, Hf, Hlen in Hc. lia.
Qed.

(** In the reporter, a rejected list request ends the pagination with the
    commits accumulated so far and one more log line. *)
Lemma reporter_listing_rejected (fuel : nat)
  (sinceDate untilDate : option string) (branch : string) (n : nat)
  (commits : list Commit) (log : EnhancedReporter.Log) (m : string) :
  listCommits up owner repo
    (EnhancedReporter.paramsOf sinceDate untilDate branch n) = Throw m ->
  EnhancedReporter.getCommitsFrom (S fuel) up owner repo sinceDate untilDate
      branch n commits log
    = Some (commits, log ++ [("Error fetching commits: " ++ m)%string]).
Proof. intros Hl. simpl. now rewrite Hl. Qed.

End Retrieval.

(** C1. Evaluation of [GitHubService.getCommits] where the specification
    expects a partial result.  With pages of two commits, page 1 lists exactly two
    commits and the detail request for the second is rejected: the call
    throws instead of returning the other commits and going on to page 2.
    When instead the second list request is rejected, the call throws
    instead of returning the two commits already fetched. *)
Theorem C1_getCommits_failures_are_fatal :
  GitHubService.getCommits 5 Examples.flakyDetail "acme" "widgets"
      Examples.twoPerPage
    = Some (Throw ("Error fetching commits: Error fetching commit details for bbb: "
                   ++ "Request failed with status code 500"))
  /\ GitHubService.getCommits 5 Examples.flakyListing "acme" "widgets"
      Examples.twoPerPage
    = Some (Throw "Error fetching commits: Network Error").
Proof. split; reflexivity. Qed.

(** The same upstream behaviour in the stand-alone reporter's loop (pages
    of two are not available there, so the page is short and the loop
    ends): the failing commit is dropped and logged. *)
Lemma reporter_drops_and_logs :
  EnhancedReporter.getCommits 5 Examples.flakyDetail "acme" "widgets" None None "main"
    = Some ([normalize (Examples.detail "aaa")],
            ["Error fetching commit details for bbb: Request failed with status code 500"]).
Proof. reflexivity. Qed.

(** ** Date windows *)

(** Every list request of a date-range retrieval carries the caller's
    [toDate] under [until], and [fromDate] under [since]. *)
Lemma rangeOptions_params (fromDate toDate branch : string)
  (author : option string) (page : nat) :
  q_until (GitHubService.paramsOf
             (GitHubService.rangeOptions fromDate toDate branch author) page)
    = Some toDate
  /\ q_since (GitHubService.paramsOf
                (GitHubService.rangeOptions fromDate toDate branch author) page)
    = Some fromDate.
Proof. split; reflexivity. Qed.

(** The single-date retrieval is the range retrieval ending on the next day. *)
Lemma getCommitsForDate_as_range (fuel : nat) (up : Upstream)
  (owner repo date branch : string) (author : option string) :
  GitHubService.getCommitsForDate fuel up owner repo date branch author
    = GitHubService.getCommitsForDateRange fuel up owner repo date
        (Moment.nextDay date) branch author.
Proof. reflexivity. Qed.

(** Neither retrieval filters on the client: two option sets with the
    same page size give the same outcome when the upstream answers their
    list requests alike, so the retrievals differ only through what the
    upstream returns for the window they send. *)
Lemma getCommitsFrom_same_answers (fuel : nat) (up : Upstream)
  (owner repo : string) (o1 o2 : GitHubService.Options) :
  GitHubService.perPageOf o1 = GitHubService.perPageOf o2 ->
  (forall page, listCommits up owner repo (GitHubService.paramsOf o1 page)
                = listCommits up owner repo (GitHubService.paramsOf o2 page)) ->
  forall page commits,
    GitHubService.getCommitsFrom fuel up owner repo o1 page commits
    = GitHubService.getCommitsFrom fuel up owner repo o2 page commits.
Proof.
  intros Hp Hl. induction fuel as [|fuel IH]; intros page commits; [reflexivity|].
  cbn [GitHubService.getCommitsFrom]. rewrite Hl, Hp.
  destruct (listCommits up owner repo (GitHubService.paramsOf o2 page))
    as [[[|c rest]|]|m]; try reflexivity.
  destruct (GitHubService.detailLoop up owner repo (c :: rest) commits);
    [|reflexivity].
  destruct (_ <? _)%nat; [reflexivity | apply IH].
Qed.

Lemma empty_window_oneCommitStore (owner repo : string) :
  emptyWindow Examples.oneCommitStore owner repo.
Proof.
  intros p instant Hs Hu. cbn [listCommits Examples.oneCommitStore].
  destruct (q_page p) as [|[|n]]; try reflexivity.
  cbn [filter]. unfold Examples.inWindow. rewrite Hs, Hu.
  set (stamp := date (rd_author (Examples.detail "aaa"))).
  unfold String.leb, String.ltb. rewrite (String.compare_antisym stamp instant).
  now destruct (String.compare instant stamp).
Qed.

(** C6. The date-range retrieval on the degenerate range (date, date)
    and the single-date retrieval on that date do not return the same
    commits.  The range request carries [since = until = date], so from an
    upstream that lists nothing for an empty window it returns no commit,
    for every date, branch, author filter and page budget;
    [Examples.oneCommitStore] is such an upstream, and from it the
    single-date retrieval on 2025-01-15 returns the commit of that day,
    which [filterCommitsByDate] assigns to 2025-01-15 as well. *)
Theorem C6_degenerate_range_misses_single_date (fuel : nat) :
  (forall (up : Upstream) (owner repo date branch : string)
          (author : option string),
      emptyWindow up owner repo ->
      GitHubService.getCommitsForDateRange (S fuel) up owner repo date date
        branch author
      = Some (Ok []))
  /\ (forall owner repo, emptyWindow Examples.oneCommitStore owner repo)
  /\ GitHubService.getCommitsForDate (S fuel) Examples.oneCommitStore "acme"
       "widgets" "2025-01-15" "main" None
     = Some (Ok [normalize (Examples.detail "aaa")])
  /\ CommitController.filterCommitsByDate MoreExamples.utcDate
       [normalize (Examples.detail "aaa")] "2025-01-15"
     = [normalize (Examples.detail "aaa")]
  /\ GitHubService.getCommitsForDateRange (S fuel) Examples.oneCommitStore "acme"
       "widgets" "2025-01-15" "2025-01-15" "main" None
     <> GitHubService.getCommitsForDate (S fuel) Examples.oneCommitStore "acme"
          "widgets" "2025-01-15" "main" None.
Proof.
  assert (H1 : forall (up : Upstream) (owner repo date branch : string)
                      (author : option string),
             emptyWindow up owner repo ->
             GitHubService.getCommitsForDateRange (S fuel) up owner repo date date
               branch author
             = Some (Ok [])).
  { intros up owner repo date branch author H.
    unfold GitHubService.getCommitsForDateRange, GitHubService.getCommits.
    cbn [GitHubService.getCommitsFrom].
    now rewrite (H _ date) by reflexivity. }
  assert (H3 : GitHubService.getCommitsForDate (S fuel) Examples.oneCommitStore
                 "acme" "widgets" "2025-01-15" "main" None
               = Some (Ok [normalize (Examples.detail "aaa")])) by reflexivity.
  split; [exact H1|]. split; [exact empty_window_oneCommitStore|].
  split; [exact H3|]. split; [reflexivity|].
  rewrite H3, (H1 _ _ _ _ _ _ (empty_window_oneCommitStore "acme" "widgets")).
  discriminate.
Qed.

(** C2. Evaluation of [getCommitsForDateRange] against an upstream that
    reports the [until] parameter it receives: for the range 2025-01-15 to
    2025-01-15 the request carries [until = 2025-01-15], the to-date
    itself and not the day after; the single-date path
    [getCommitsForDate] carries [until = 2025-01-16]. *)
Theorem C2_range_until_is_toDate_itself :
  GitHubService.getCommitsForDateRange 1 Examples.untilProbe "acme" "widgets"
      "2025-01-15" "2025-01-15" "main" None
    = Some (Throw "Error fetching commits: 2025-01-15")
  /\ GitHubService.getCommitsForDate 1 Examples.untilProbe "acme" "widgets"
      "2025-01-15" "main" None
    = Some (Throw "Error fetching commits: 2025-01-16")
  /\ Moment.nextDay "2025-01-15" = "2025-01-16".
Proof. repeat split; reflexivity. Qed.

(** Against an upstream that holds one commit authored on 2025-01-15 and
    honours the [since]/[until] window (end exclusive), the responses do
    differ: the range retrieval on (2025-01-15, 2025-01-15) returns no
    commit, the single-date retrieval on 2025-01-15 returns the commit. *)
Lemma degenerate_range_misses_the_day :
  GitHubService.getCommitsForDateRange 3 Examples.oneCommitStore "acme" "widgets"
      "2025-01-15" "2025-01-15" "main" None
    = Some (Ok [])
  /\ GitHubService.getCommitsForDate 3 Examples.oneCommitStore "acme" "widgets"
      "2025-01-15" "main" None
    = Some (Ok [normalize (Examples.detail "aaa")]).
Proof. split; reflexivity. Qed.

(** ** The Commit constructor *)



(** ** Sorting *)

Section SortFacts.
Context {A : Type}.
Variable key : A -> Z.

Lemma insertDesc_perm (x : A) (l : list A) :
  Permutation (insertDesc key x l) (x :: l).
Proof.
  induction l as [|y l IH]; simpl; [reflexivity|].
  destruct (compareDesc key x y <=? 0)%Z; [reflexivity|].
  rewrite IH. apply perm_swap.
Qed.

Lemma sortDesc_perm (l : list A) : Permutation (sortDesc key l) l.
Proof.
  induction l as [|x l IH]; simpl; [reflexivity|].
  rewrite insertDesc_perm. now constructor.
Qed.

Lemma insertDesc_sorted (x : A) (l : list A) :
  descending key l -> descending key (insertDesc key x l).
Proof.
  unfold descending. induction l as [|y l IH]; intros Hs; simpl.
  - repeat constructor.
  - inversion Hs as [|? ? Hl Hy]; subst.
    destruct (compareDesc key x y <=? 0)%Z eqn:Hc; unfold compareDesc in Hc.
    + apply Z.leb_le in Hc. constructor; [assumption|].
      constructor; [lia|].
      eapply Forall_impl; [|exact Hy]. simpl. intros b Hb. lia.
    + apply Z.leb_gt in Hc. constructor; [now apply IH|].
      eapply Permutation_Forall; [symmetry; apply insertDesc_perm|].
      constructor; [lia | assumption].
Qed.

Lemma sortDesc_sorted (l : list A) : descending key (sortDesc key l).
Proof.
  induction l as [|x l IH]; simpl; [constructor | now apply insertDesc_sorted].
Qed.

Lemma Forall_firstn_keep (P : A -> Prop) (n : nat) (l : list A) :
  Forall P l -> Forall P (firstn n l).
Proof.
  revert l. induction n as [|n IH]; intros [|x l] H; simpl; try constructor;
    inversion H; subst; auto.
Qed.

Lemma descending_firstn (n : nat) (l : list A) :
  descending key l -> descending key (firstn n l).
Proof.
  unfold descending. revert l.
  induction n as [|n IH]; intros [|x l] H; simpl; try constructor;
    inversion H; subst; auto using Forall_firstn_keep.
Qed.
End SortFacts.

(** ** Aggregation *)

(** C3, counterexample.  Six commits by six authors produce six
    contributor entries, of which the aggregate keeps five; eleven files
    produce eleven entries, of which the aggregate keeps ten. *)
Lemma C3_aggregate_is_truncated :
  List.length (JsObject.values (Aggregation.contributorsOf Examples.sixAuthors)) = 6%nat
  /\ List.length (Aggregation.topContributors
                    (Aggregation.getCommitStatistics Examples.sixAuthors)) = 5%nat
  /\ List.length (JsObject.values (Aggregation.fileStatsOf Examples.elevenFiles)) = 11%nat
  /\ List.length (Aggregation.fileStatistics
                    (Aggregation.getCommitStatistics Examples.elevenFiles)) = 10%nat.
Proof. repeat split; vm_compute; reflexivity. Qed.

(** C3, as the code has it.  [getCommitStatistics] returns [topContributors] in
    descending order of commit count cut to the first 5 entries, and
    [fileStatistics] in descending order of total changes cut to the first
    10 entries; both are prefixes of the full rankings, which
    [Report.getTopContributors] (with its [limit]) and the unbounded
    [Report.getFileStatistics] compute; the latter lists every file entry
    exactly once.  The cut to 10 that [ReportView.formatCommitStatistics]
    applies when rendering finds nothing left to remove. *)
Theorem C3_rankings_descending_and_cut :
  forall commits : list Commit,
    let agg := Aggregation.getCommitStatistics commits in
    descending Aggregation.c_commits (Aggregation.topContributors agg)
    /\ (List.length (Aggregation.topContributors agg) <= 5)%nat
    /\ Aggregation.topContributors agg = Aggregation.getTopContributors commits 5
    /\ descending Aggregation.fs_changes (Aggregation.fileStatistics agg)
    /\ (List.length (Aggregation.fileStatistics agg) <= 10)%nat
    /\ Aggregation.fileStatistics agg
       = firstn 10 (Aggregation.getFileStatistics commits)
    /\ descending Aggregation.fs_changes (Aggregation.getFileStatistics commits)
    /\ Permutation (Aggregation.getFileStatistics commits)
                   (JsObject.values (Aggregation.fileStatsOf commits))
    /\ Aggregation.displayedFiles agg = Aggregation.fileStatistics agg.
Proof.
  intros commits agg.
  assert (Ht : Aggregation.topContributors agg
               = Aggregation.getTopContributors commits 5)
    by (subst agg; destruct commits; reflexivity).
  assert (Hf : Aggregation.fileStatistics agg
               = firstn 10 (Aggregation.getFileStatistics commits))
    by (subst agg; destruct commits; reflexivity).
  unfold Aggregation.displayedFiles.
  rewrite Ht, Hf. unfold Aggregation.getTopContributors, Aggregation.getFileStatistics.
  rewrite firstn_firstn. repeat split.
  - apply descending_firstn, sortDesc_sorted.
  - apply firstn_le_length.
  - apply descending_firstn, sortDesc_sorted.
  - apply firstn_le_length.
  - apply sortDesc_sorted.
  - apply sortDesc_perm.
Qed.

(** ** Substrings and case folding *)

Lemma prefix_cons (a b : ascii) (p s : string) :
  String.prefix (String a p) (String b s) = true <-> a = b /\ String.prefix p s = true.
Proof.
  simpl. destruct (ascii_dec a b) as [->|Hne]; split; intros H.
  - now split.
  - now destruct H.
  - discriminate.
  - destruct H as [H _]. contradiction.
Qed.

Lemma prefix_includes (s p : string) :
  String.prefix p s = true -> includes s p = true.
Proof. intros H. destruct s; cbn [includes]; now rewrite H. Qed.

Lemma includes_cons (c : ascii) (s p : string) :
  includes s p = true -> includes (String c s) p = true.
Proof.
  intros H. cbn [includes]. now destruct (String.prefix p (String c s)).
Qed.

Lemma prefix_app_l (p q s : string) :
  String.prefix (p ++ q) s = true -> String.prefix p s = true.
Proof.
  revert s. induction p as [|a p IH]; intros s H; [apply prefix_nil|].
  destruct s as [|b s]; [discriminate|].
  change ((String a p ++ q)%string) with (String a (p ++ q)) in H.
  apply prefix_cons in H. destruct H as [-> H].
  apply prefix_cons. split; [reflexivity | now apply IH].
Qed.

(** A string that contains [p ++ q] contains [p]. *)
Lemma includes_app_l (s p q : string) :
  includes s (p ++ q) = true -> includes s p = true.
Proof.
  induction s as [|c s IH]; cbn [includes]; intros H.
  - destruct (String.prefix (p ++ q) "") eqn:Hp; [|discriminate].
    now rewrite (prefix_app_l _ _ _ Hp).
  - destruct (String.prefix (p ++ q) (String c s)) eqn:Hp.
    + now rewrite (prefix_app_l _ _ _ Hp).
    + destruct (String.prefix p (String c s)); [reflexivity | now apply IH].
Qed.

(** A string that contains [c p] contains [p]. *)
Lemma includes_tail (s : string) (c : ascii) (p : string) :
  includes s (String c p) = true -> includes s p = true.
Proof.
  induction s as [|a s IH]; cbn [includes]; intros H.
  - discriminate.
  - destruct (String.prefix (String c p) (String a s)) eqn:Hp.
    + apply prefix_cons in Hp. destruct Hp as [_ Hp].
      destruct (String.prefix p (String a s)); [reflexivity|].
      now apply prefix_includes.
    + destruct (String.prefix p (String a s)); [reflexivity | now apply IH].
Qed.

Lemma prefix_lower (p s : string) :
  String.prefix p s = true ->
  String.prefix (toLowerCase p) (toLowerCase s) = true.
Proof.
  revert s. induction p as [|a p IH]; intros s H; [apply prefix_nil|].
  destruct s as [|b s]; [discriminate|].
  apply prefix_cons in H. destruct H as [-> H].
  cbn [toLowerCase]. apply prefix_cons. split; [reflexivity | now apply IH].
Qed.

(** Case folding preserves containment. *)
Lemma includes_lower (s p : string) :
  includes s p = true -> includes (toLowerCase s) (toLowerCase p) = true.
Proof.
  induction s as [|c s IH]; cbn [includes]; intros H.
  - destruct (String.prefix p "") eqn:Hp; [|discriminate].
    apply prefix_includes. now apply (prefix_lower p "").
  - destruct (String.prefix p (String c s)) eqn:Hp.
    + apply prefix_includes. now apply (prefix_lower p (String c s)).
    + cbn [toLowerCase]. apply includes_cons. now apply IH.
Qed.

(** ** Lists *)

Lemma filter_none {A : Type} (p : A -> bool) (l : list A) :
  (forall x, In x l -> p x = false) -> filter p l = [].
Proof.
  induction l as [|x l IH]; intros H; simpl; [reflexivity|].
  rewrite (H x (or_introl eq_refl)). apply IH. intros y Hy. apply H. now right.
Qed.

Lemma filter_some {A : Type} (p : A -> bool) (l : list A) (x : A) :
  In x l -> p x = true -> (0 <? List.length (filter p l))%nat = true.
Proof.
  intros Hin Hp. apply Nat.ltb_lt.
  assert (Hf : In x (filter p l)) by (apply filter_In; now split).
  destruct (filter p l); [destruct Hf | simpl; lia].
Qed.

Lemma existsb_some {A : Type} (p : A -> bool) (l : list A) (x : A) :
  In x l -> p x = true -> existsb p l = true.
Proof. intros Hin Hp. apply existsb_exists. now exists x. Qed.

(** ** The heuristic categorizer *)

(** Case analysis on the topic conditions that the hypotheses leave open. *)
Ltac split_topics :=
  repeat match goal with
         | |- context [Categorizer.pushIf ?b _] =>
             lazymatch b with
             | true => fail
             | false => fail
             | _ => destruct b
             end
         end.

Lemma login_is_backend_file (f : FileChange) :
  filename f = "src/auth/login.js" ->
  Categorizer.hasExtension Categorizer.backendExtensions f = true.
Proof. intros H. unfold Categorizer.hasExtension. rewrite H. reflexivity. Qed.

(** C7. For a commit with message ["add auth"] that touches
    ["src/auth/login.js"] and no file with a frontend extension, the
    heuristic analysis contains the authentication block and the
    backend-only block, and contains neither the heading of the
    frontend-only block nor that of the full-stack block (whichever other
    topic blocks the remaining files bring in). *)
Theorem C7_add_auth_login_js :
  forall c : Commit,
    message c = "add auth" ->
    In "src/auth/login.js" (map filename (files c)) ->
    (forall f, In f (files c) ->
               Categorizer.hasExtension Categorizer.frontendExtensions f = false) ->
    let out := Categorizer.generateBasicAnalysis c in
    includes out (Categorizer.blockText Categorizer.authBlock) = true
    /\ includes out (Categorizer.blockText Categorizer.backendBlock) = true
    /\ includes out "* Frontend development changes" = false
    /\ includes out "* Full-stack development changes" = false.
Proof.
  intros c Hmsg Hin Hfront out. subst out.
  apply in_map_iff in Hin. destruct Hin as [f [Hname Hf]].
  unfold Categorizer.generateBasicAnalysis, Categorizer.analysisLines.
  rewrite Hmsg.
  rewrite (filter_none _ _ Hfront).
  unfold Categorizer.stackBlock.
  rewrite (filter_some _ _ f Hf (login_is_backend_file f Hname)).
  replace (includes (toLowerCase "add auth") "auth") with true by reflexivity.
  rewrite orb_true_r.
  split_topics; vm_compute; repeat split; reflexivity.
Qed.

Lemma C7_add_auth_login_js_witness :
  includes (Categorizer.generateBasicAnalysis Examples.loginCommit)
           (Categorizer.blockText Categorizer.authBlock) = true
  /\ includes (Categorizer.generateBasicAnalysis Examples.loginCommit)
              (Categorizer.blockText Categorizer.backendBlock) = true
  /\ includes (Categorizer.generateBasicAnalysis Examples.loginCommit)
              "* Frontend development changes" = false
  /\ includes (Categorizer.generateBasicAnalysis Examples.loginCommit)
              "* Full-stack development changes" = false.
Proof.
  apply (C7_add_auth_login_js Examples.loginCommit).
  - reflexivity.
  - simpl. left. reflexivity.
  - intros f [<-|[]]. reflexivity.
Defined.

Lemma jsx_in_both_buckets (f : FileChange) :
  includes (filename f) ".jsx" = true ->
  Categorizer.hasExtension Categorizer.backendExtensions f = true
  /\ Categorizer.hasExtension Categorizer.frontendExtensions f = true
  /\ includes (toLowerCase (filename f)) "jsx" = true.
Proof.
  intros H. apply includes_lower in H.
  change (toLowerCase ".jsx") with ".jsx" in H.
  unfold Categorizer.hasExtension, Categorizer.backendExtensions,
    Categorizer.frontendExtensions. cbn [existsb].
  rewrite H. rewrite (includes_app_l _ ".js" "x" H).
  rewrite (includes_tail _ _ _ H). repeat split.
Qed.

Lemma filter_all {A : Type} (p : A -> bool) (l : list A) :
  (forall x, In x l -> p x = true) -> filter p l = l.
Proof.
  induction l as [|x l IH]; intros H; simpl; [reflexivity|].
  rewrite (H x (or_introl eq_refl)). f_equal. apply IH. intros y Hy. apply H. now right.
Qed.

(** C10. For a commit with at least one changed file, all of whose file
    names contain [.jsx], the extension pass puts every file in the
    backend bucket (the lower-cased name contains [.js]) and in the
    frontend bucket, so the analysis contains the full-stack block and
    does not contain the heading of the frontend-only block. *)
Theorem C10_jsx_commit_reported_full_stack :
  forall c : Commit,
    files c <> [] ->
    (forall f, In f (files c) -> includes (filename f) ".jsx" = true) ->
    let out := Categorizer.generateBasicAnalysis c in
    filter (Categorizer.hasExtension Categorizer.backendExtensions) (files c) = files c
    /\ filter (Categorizer.hasExtension Categorizer.frontendExtensions) (files c) = files c
    /\ includes out (Categorizer.blockText Categorizer.fullStackBlock) = true
    /\ includes out "* Frontend development changes" = false.
Proof.
  intros c Hne Hjsx out. subst out.
  assert (Hb : filter (Categorizer.hasExtension Categorizer.backendExtensions) (files c)
               = files c)
    by (apply filter_all; intros f Hf; now apply jsx_in_both_buckets, Hjsx).
  assert (Hf : filter (Categorizer.hasExtension Categorizer.frontendExtensions) (files c)
               = files c)
    by (apply filter_all; intros f Hf; now apply jsx_in_both_buckets, Hjsx).
  split; [exact Hb|]. split; [exact Hf|].
  unfold Categorizer.generateBasicAnalysis, Categorizer.analysisLines.
  rewrite Hb, Hf. unfold Categorizer.stackBlock.
  destruct (files c) as [|f0 rest] eqn:Hfiles; [contradiction|].
  assert (Hui : existsb (fun f => includes (toLowerCase (filename f)) "ui"
                                  || includes (toLowerCase (filename f)) "css"
                                  || includes (toLowerCase (filename f)) "jsx")
                        (f0 :: rest) = true).
  { apply (existsb_some _ _ f0); [now left|].
    destruct (jsx_in_both_buckets f0 (Hjsx f0 (or_introl eq_refl))) as [_ [_ ->]].
    apply orb_true_r. }
  rewrite Hui. cbn [List.length Nat.ltb Nat.leb andb].
  split_topics; vm_compute; split; reflexivity.
Qed.

Lemma C10_jsx_commit_reported_full_stack_witness :
  filter (Categorizer.hasExtension Categorizer.backendExtensions)
         (files Examples.jsxCommit) = files Examples.jsxCommit
  /\ filter (Categorizer.hasExtension Categorizer.frontendExtensions)
            (files Examples.jsxCommit) = files Examples.jsxCommit
  /\ includes (Categorizer.generateBasicAnalysis Examples.jsxCommit)
              (Categorizer.blockText Categorizer.fullStackBlock) = true
  /\ includes (Categorizer.generateBasicAnalysis Examples.jsxCommit)
              "* Frontend development changes" = false.
Proof.
  apply (C10_jsx_commit_reported_full_stack Examples.jsxCommit).
  - discriminate.
  - intros f [<-|[]]. reflexivity.
Defined.

(** ** Text and markdown rendering *)

Lemma fill_app (marks : Template.Marker -> string) (ps qs : list Template.Piece) :
  Template.fill marks (ps ++ qs)
  = (Template.fill marks ps ++ Template.fill marks qs)%string.
Proof.
  induction ps as [|p ps IH]; simpl; [reflexivity|].
  now rewrite IH, append_assoc.
Qed.

(** Brings both sides of an equation between renderings to a right-nested
    concatenation. *)
Ltac flatten_text :=
  repeat (progress (rewrite ?append_assoc;
                    cbn [String.append Template.fill Template.fillPiece
                         Template.textMarks Template.markdownMarks])).

Section TwoDecorations.
Variable formatTime : string -> string.
Variable format : string.
Variable marks : Template.Marker -> string.
Hypothesis deco : Decorates format marks.

Lemma heading_filled (dateRange : string) :
  ReportService.heading dateRange format
  = Template.fill marks (Template.headingPieces dateRange).
Proof.
  destruct deco; unfold ReportService.heading, Template.headingPieces;
    cbn [ReportService.isMarkdown String.eqb Ascii.eqb Bool.eqb];
    flatten_text; reflexivity.
Qed.

Lemma commitLines_filled (i : nat) (commit : Commit) :
  ReportService.commitLines formatTime format i commit
  = Template.fill marks (Template.commitPieces formatTime i commit).
Proof.
  destruct deco; unfold ReportService.commitLines, Template.commitPieces;
    cbn [ReportService.isMarkdown String.eqb Ascii.eqb Bool.eqb];
    flatten_text; reflexivity.
Qed.

Lemma fileLines_filled (fs : list FileChange) :
  ReportService.fileLines format fs
  = Template.fill marks (flat_map Template.filePieces fs).
Proof.
  induction fs as [|f fs IH]; [reflexivity|].
  cbn [ReportService.fileLines flat_map]. rewrite fill_app, IH. f_equal.
  destruct deco; unfold ReportService.fileLine, Template.filePieces;
    cbn [ReportService.isMarkdown String.eqb Ascii.eqb Bool.eqb];
    flatten_text; reflexivity.
Qed.

Lemma changedFiles_filled (commit : Commit) :
  ReportService.changedFiles format commit
  = Template.fill marks (Template.changedFilesPieces commit).
Proof.
  unfold ReportService.changedFiles, Template.changedFilesPieces.
  destruct (files commit) as [|f fs]; [reflexivity|].
  rewrite !fill_app, <- fileLines_filled.
  destruct deco; cbn [ReportService.isMarkdown String.eqb Ascii.eqb Bool.eqb];
    flatten_text; reflexivity.
Qed.

Lemma separator_filled :
  ReportService.separator format = Template.fill marks Template.separatorPieces.
Proof.
  destruct deco; unfold ReportService.separator, Template.separatorPieces;
    cbn [ReportService.isText String.eqb Ascii.eqb Bool.eqb];
    flatten_text; reflexivity.
Qed.

Lemma analysisPart_filled (analysis : string) :
  ReportService.analysisPart format analysis
  = Template.fill marks (Template.analysisPieces analysis).
Proof.
  destruct deco; unfold ReportService.analysisPart, Template.analysisPieces;
    cbn [ReportService.isMarkdown String.eqb Ascii.eqb Bool.eqb];
    flatten_text; reflexivity.
Qed.

Lemma quickBlock_filled (i : nat) (data : CommitData) :
  ReportService.quickBlock formatTime format i data
  = Template.fill marks (Template.quickBlockPieces formatTime i data).
Proof.
  unfold ReportService.quickBlock, Template.quickBlockPieces.
  now rewrite !fill_app, commitLines_filled, changedFiles_filled, separator_filled.
Qed.

Lemma enhancedBlock_filled (aiAnalyzer : option (Commit -> string))
  (i : nat) (data : CommitData) :
  ReportService.enhancedBlock formatTime aiAnalyzer format i data
  = Template.fill marks (Template.enhancedBlockPieces formatTime aiAnalyzer i data).
Proof.
  unfold ReportService.enhancedBlock, Template.enhancedBlockPieces.
  now rewrite !fill_app, commitLines_filled, analysisPart_filled,
    changedFiles_filled, separator_filled.
Qed.

Lemma quickLoop_filled (commits : list CommitData) (i : nat) (report : string) :
  ReportService.quickLoop formatTime format i commits report
  = (report ++ Template.fill marks
                 (Template.blocksFrom (Template.quickBlockPieces formatTime) i commits))%string.
Proof.
  revert i report. induction commits as [|d rest IH]; intros i report.
  - simpl. now rewrite append_nil_r.
  - cbn [ReportService.quickLoop Template.blocksFrom].
    now rewrite IH, fill_app, quickBlock_filled, append_assoc.
Qed.

Lemma enhancedLoop_filled (aiAnalyzer : option (Commit -> string))
  (commits : list CommitData) (i : nat) (report : string) :
  ReportService.enhancedLoop formatTime aiAnalyzer format i commits report
  = (report ++ Template.fill marks
                 (Template.blocksFrom
                    (Template.enhancedBlockPieces formatTime aiAnalyzer) i commits))%string.
Proof.
  revert i report. induction commits as [|d rest IH]; intros i report.
  - simpl. now rewrite append_nil_r.
  - cbn [ReportService.enhancedLoop Template.blocksFrom].
    now rewrite IH, fill_app, enhancedBlock_filled, append_assoc.
Qed.

Lemma generateQuickReport_filled (commits : list CommitData) (dateRange : string) :
  ReportService.generateQuickReport formatTime commits dateRange format
  = Template.fill marks (Template.quickTemplate formatTime commits dateRange).
Proof.
  unfold ReportService.generateQuickReport, Template.quickTemplate,
    Template.reportPieces.
  destruct commits as [|d rest].
  - simpl. now rewrite append_nil_r.
  - now rewrite quickLoop_filled, fill_app, heading_filled.
Qed.

Lemma generateEnhancedReport_filled (aiAnalyzer : option (Commit -> string))
  (commits : list CommitData) (dateRange : string) :
  ReportService.generateEnhancedReport formatTime commits dateRange format aiAnalyzer
  = Template.fill marks
      (Template.enhancedTemplate formatTime aiAnalyzer commits dateRange).
Proof.
  unfold ReportService.generateEnhancedReport, Template.enhancedTemplate,
    Template.reportPieces.
  destruct commits as [|d rest].
  - simpl. now rewrite append_nil_r.
  - now rewrite enhancedLoop_filled, fill_app, heading_filled.
Qed.

End TwoDecorations.

(** *** What the template enumerates *)

Lemma values_app (f : Template.Field) (ps qs : list Template.Piece) :
  Template.values f (ps ++ qs) = Template.values f ps ++ Template.values f qs.
Proof.
  induction ps as [|p ps IH]; [reflexivity|].
  destruct p as [s|g s|m]; simpl; rewrite ?IH; [reflexivity| |reflexivity].
  now destruct (Template.sameField f g).
Qed.

Lemma fileNames_of_files (fs : list FileChange) :
  Template.values Template.FileName (flat_map Template.filePieces fs)
  = map filename fs.
Proof. induction fs as [|f fs IH]; simpl; [reflexivity | now rewrite IH]. Qed.

Lemma titles_of_files (fs : list FileChange) :
  Template.values Template.Message (flat_map Template.filePieces fs) = [].
Proof. induction fs as [|f fs IH]; simpl; [reflexivity | assumption]. Qed.

Lemma fileNames_of_changedFiles (commit : Commit) :
  Template.values Template.FileName (Template.changedFilesPieces commit)
  = map filename (files commit).
Proof.
  unfold Template.changedFilesPieces. destruct (files commit) as [|f fs] eqn:E;
    [reflexivity|].
  rewrite !values_app, fileNames_of_files. simpl. now rewrite app_nil_r.
Qed.

Lemma titles_of_changedFiles (commit : Commit) :
  Template.values Template.Message (Template.changedFilesPieces commit) = [].
Proof.
  unfold Template.changedFilesPieces. destruct (files commit) as [|f fs];
    [reflexivity|].
  rewrite !values_app, titles_of_files. reflexivity.
Qed.

(** In both templates the commit titles, and the file names commit by
    commit, occur exactly in input order. *)
Lemma blocks_enumerate (formatTime : string -> string)
  (aiAnalyzer : option (Commit -> string)) (commits : list CommitData) (i : nat) :
  Template.values Template.Message
    (Template.blocksFrom (Template.quickBlockPieces formatTime) i commits)
    = titlesOf commits
  /\ Template.values Template.FileName
       (Template.blocksFrom (Template.quickBlockPieces formatTime) i commits)
     = fileNamesOf commits
  /\ Template.values Template.Message
       (Template.blocksFrom (Template.enhancedBlockPieces formatTime aiAnalyzer) i commits)
     = titlesOf commits
  /\ Template.values Template.FileName
       (Template.blocksFrom (Template.enhancedBlockPieces formatTime aiAnalyzer) i commits)
     = fileNamesOf commits.
Proof.
  revert i. induction commits as [|d rest IH]; intros i; [repeat split|].
  destruct (IH (S i)) as (Q1 & Q2 & E1 & E2).
  unfold titlesOf, fileNamesOf in *.
  cbn [Template.blocksFrom map flat_map].
  rewrite !values_app, Q1, Q2, E1, E2.
  unfold Template.quickBlockPieces, Template.enhancedBlockPieces.
  rewrite !values_app, !fileNames_of_changedFiles, !titles_of_changedFiles.
  simpl. rewrite !app_nil_r. repeat split.
Qed.

Lemma templates_enumerate (formatTime : string -> string)
  (aiAnalyzer : option (Commit -> string)) (commits : list CommitData)
  (dateRange : string) :
  Template.values Template.Message
    (Template.quickTemplate formatTime commits dateRange) = titlesOf commits
  /\ Template.values Template.FileName
       (Template.quickTemplate formatTime commits dateRange) = fileNamesOf commits
  /\ Template.values Template.Message
       (Template.enhancedTemplate formatTime aiAnalyzer commits dateRange)
     = titlesOf commits
  /\ Template.values Template.FileName
       (Template.enhancedTemplate formatTime aiAnalyzer commits dateRange)
     = fileNamesOf commits.
Proof.
  unfold Template.quickTemplate, Template.enhancedTemplate, Template.reportPieces.
  destruct commits as [|d rest]; [repeat split|].
  rewrite !values_app.
  destruct (blocks_enumerate formatTime aiAnalyzer (d :: rest) 0) as (Q1 & Q2 & E1 & E2).
  rewrite Q1, Q2, E1, E2. repeat split.
Qed.

(** C4. For every commit list and date-range label, the text rendering
    and the markdown rendering (quick and enhanced) are fillings of one and
    the same template, whose data pieces list the commit titles in input
    order and, commit by commit, the file names in the order of each
    commit's file list.  The two renderings differ only in what the
    decoration slots (heading markers, bold markers, paragraph break,
    bullet, code ticks, rule) expand to. *)
Theorem C4_text_and_markdown_fill_one_template :
  forall (formatTime : string -> string) (commits : list CommitData)
         (dateRange : string) (aiAnalyzer : option (Commit -> string)),
    let quick := Template.quickTemplate formatTime commits dateRange in
    let enhanced := Template.enhancedTemplate formatTime aiAnalyzer commits dateRange in
    ReportService.generateQuickReport formatTime commits dateRange "text"
      = Template.fill Template.textMarks quick
    /\ ReportService.generateQuickReport formatTime commits dateRange "markdown"
      = Template.fill Template.markdownMarks quick
    /\ ReportService.generateEnhancedReport formatTime commits dateRange "text" aiAnalyzer
      = Template.fill Template.textMarks enhanced
    /\ ReportService.generateEnhancedReport formatTime commits dateRange "markdown" aiAnalyzer
      = Template.fill Template.markdownMarks enhanced
    /\ Template.values Template.Message quick = titlesOf commits
    /\ Template.values Template.FileName quick = fileNamesOf commits
    /\ Template.values Template.Message enhanced = titlesOf commits
    /\ Template.values Template.FileName enhanced = fileNamesOf commits.
Proof.
  intros formatTime commits dateRange aiAnalyzer quick enhanced.
  split; [apply generateQuickReport_filled, decorates_text|].
  split; [apply generateQuickReport_filled, decorates_markdown|].
  split; [apply generateEnhancedReport_filled, decorates_text|].
  split; [apply generateEnhancedReport_filled, decorates_markdown|].
  apply templates_enumerate.
Qed.

(** ** File names *)













(* ================================================================== *)
(** * Further properties of the code *)
(* ================================================================== *)

(** ** Pagination in GitHubService.getCommits *)

Section Pagination.
Variable up : Upstream.
Variables owner repo : string.

Lemma perPageOf_positive (options : GitHubService.Options) :
  0 < GitHubService.perPageOf options.
Proof.
  unfold GitHubService.perPageOf.
  destruct (GitHubService.per_page options) as [[|n]|]; lia.
Qed.

Lemma failures_cons (c : Summary) (rest : list Summary) :
  failures up owner repo (c :: rest) = 0 ->
  (exists d, getCommit up owner repo (s_sha c) = Ok d)
  /\ failures up owner repo rest = 0.
Proof.
  unfold failures. cbn [filter].
  destruct (getCommit up owner repo (s_sha c)) as [d|m]; simpl; intros H.
  - split; [now exists d | assumption].
  - discriminate.
Qed.

(** When no detail request fails, the service's detail loop appends the
    commits of the page in listing order. *)
Lemma detailLoop_all_fetched (page : list Summary) (commits : list Commit) :
  failures up owner repo page = 0 ->
  GitHubService.detailLoop up owner repo page commits
  = Ok (commits ++ fetched up owner repo page).
Proof.
  revert commits. induction page as [|c rest IH]; intros commits H.
  - simpl. now rewrite app_nil_r.
  - apply failures_cons in H. destruct H as [[d Hd] Hrest].
    cbn [GitHubService.detailLoop]. unfold GitHubService.getCommitDetails.
    rewrite Hd, (IH _ Hrest). unfold fetched. cbn [flat_map]. rewrite Hd.
    now rewrite <- app_assoc.
Qed.

Lemma detailLoop_outcome (page : list Summary) (commits : list Commit) :
  match GitHubService.detailLoop up owner repo page commits with
  | Ok cs => exists more, cs = commits ++ more
                          /\ Forall (fromUpstream up owner repo) more
  | Throw m => String.prefix "Error fetching commit details for " m = true
  end.
Proof.
  revert commits. induction page as [|c rest IH]; intros commits.
  - simpl. exists []. now rewrite app_nil_r.
  - cbn [GitHubService.detailLoop]. unfold GitHubService.getCommitDetails.
    destruct (getCommit up owner repo (s_sha c)) as [d|m] eqn:Hd.
    + specialize (IH (commits ++ [normalize d])).
      destruct (GitHubService.detailLoop up owner repo rest (commits ++ [normalize d]));
        [|assumption].
      destruct IH as [more [-> Hmore]]. exists (normalize d :: more).
      split; [now rewrite <- app_assoc|].
      constructor; [now exists (s_sha c), d | assumption].
    + apply prefix_app_same.
Qed.

(** Skipping over full pages without failures: the loop requests the next
    page with every commit of the pages appended in listing order. *)
Lemma getCommitsFrom_full_pages (options : GitHubService.Options)
  (pages : list (list Summary)) :
  forall (fuel start : nat) (commits : list Commit),
    served (fun n => listCommits up owner repo (GitHubService.paramsOf options n))
           start pages ->
    Forall (fun page => List.length page = GitHubService.perPageOf options) pages ->
    Forall (fun page => failures up owner repo page = 0) pages ->
    GitHubService.getCommitsFrom (List.length pages + fuel) up owner repo options
        start commits
    = GitHubService.getCommitsFrom fuel up owner repo options
        (start + List.length pages)
        (commits ++ flat_map (fetched up owner repo) pages).
Proof.
  induction pages as [|page rest IH]; intros fuel start commits Hs Hfull Hok.
  - simpl. now rewrite Nat.add_0_r, app_nil_r.
  - destruct Hs as [Hpage Hs].
    inversion Hfull as [|? ? Hlen Hfull']; subst.
    inversion Hok as [|? ? Hno Hok']; subst.
    cbn [List.length Nat.add GitHubService.getCommitsFrom]. rewrite Hpage.
    pose proof (perPageOf_positive options) as Hpos.
    destruct page as [|c page']; [simpl in Hlen; lia|].
    rewrite (detailLoop_all_fetched _ _ Hno), Hlen, Nat.ltb_irrefl.
    rewrite (IH fuel (S start) _ Hs Hfull' Hok').
    cbn [flat_map]. rewrite <- app_assoc. f_equal. lia.
Qed.

(** X1. [GitHubService.getCommits] over any number of full pages followed
    by a short (possibly empty) page, with every detail request answered:
    the call returns, in listing order, the commits of all these pages and
    nothing else; one list request per page suffices. *)
Theorem getCommits_collects_every_page (options : GitHubService.Options)
  (pages : list (list Summary)) (last : list Summary) (fuel : nat) :
  served (fun n => listCommits up owner repo (GitHubService.paramsOf options n))
         1 (pages ++ [last]) ->
  Forall (fun page => List.length page = GitHubService.perPageOf options) pages ->
  List.length last < GitHubService.perPageOf options ->
  Forall (fun page => failures up owner repo page = 0) (pages ++ [last]) ->
  GitHubService.getCommits (S (List.length pages) + fuel) up owner repo options
  = Some (Ok (flat_map (fetched up owner repo) (pages ++ [last]))).
Proof.
  intros Hs Hfull Hshort Hok. unfold GitHubService.getCommits.
  apply Forall_app in Hok. destruct Hok as [Hok Hlast].
  inversion Hlast as [|? ? Hno _]; subst.
  assert (Hs' : served (fun n => listCommits up owner repo
                                   (GitHubService.paramsOf options n)) 1 pages
                /\ listCommits up owner repo
                     (GitHubService.paramsOf options (1 + List.length pages))
                   = Ok (Some last)).
  { clear -Hs. generalize dependent 1. induction pages as [|p ps IH]; intros n Hs.
    - simpl in *. rewrite Nat.add_0_r. now destruct Hs.
    - destruct Hs as [Hp Hs]. destruct (IH _ Hs) as [H1 H2].
      split; [now split|]. cbn [List.length].
      replace (n + S (List.length ps)) with (S n + List.length ps) by lia.
      exact H2. }
  destruct Hs' as [Hpages Hlastpage].
  replace (S (List.length pages) + fuel) with (List.length pages + S fuel) by lia.
  rewrite (getCommitsFrom_full_pages options pages (S fuel) 1 [] Hpages Hfull Hok).
  cbn [GitHubService.getCommitsFrom]. rewrite Hlastpage.
  rewrite flat_map_app. cbn [flat_map app]. rewrite app_nil_r.
  destruct last as [|c rest]; [now rewrite app_nil_r|].
  rewrite (detailLoop_all_fetched _ _ Hno).
  apply Nat.ltb_lt in Hshort. now rewrite Hshort.
Qed.

(** X2. Whatever the upstream does, an exception of [getCommits] carries
    the prefix of the listing loop, and a returned list extends the
    accumulator by commits built from successful detail responses only. *)
Theorem getCommitsFrom_outcome (options : GitHubService.Options) (fuel : nat) :
  forall (page : nat) (commits : list Commit) (r : Result (list Commit)),
    GitHubService.getCommitsFrom fuel up owner repo options page commits = Some r ->
    match r with
    | Ok cs => exists more, cs = commits ++ more
                            /\ Forall (fromUpstream up owner repo) more
    | Throw m => String.prefix "Error fetching commits: " m = true
    end.
Proof.
  induction fuel as [|fuel IH]; intros page commits r H; [discriminate|].
  cbn [GitHubService.getCommitsFrom] in H.
  destruct (listCommits up owner repo (GitHubService.paramsOf options page))
    as [[[|c rest]|]|m].
  - injection H as <-. exists []. now rewrite app_nil_r.
  - pose proof (detailLoop_outcome (c :: rest) commits) as Hd.
    destruct (GitHubService.detailLoop up owner repo (c :: rest) commits) as [cs|m].
    + destruct Hd as [more [-> Hmore]].
      destruct (_ <? _)%nat.
      * injection H as <-. now exists more.
      * apply IH in H. destruct r as [cs|m]; [|assumption].
        destruct H as [more' [-> Hmore']]. exists (more ++ more').
        split; [now rewrite app_assoc | now apply Forall_app].
    + injection H as <-. exact (prefix_app_same "Error fetching commits: " m).
  - injection H as <-. exists []. now rewrite app_nil_r.
  - injection H as <-. exact (prefix_app_same "Error fetching commits: " m).
Qed.

End Pagination.

Lemma getCommits_collects_every_page_witness :
  GitHubService.getCommits 2 Examples.steady "acme" "widgets" Examples.twoPerPage
  = Some (Ok [normalize (Examples.detail "aaa"); normalize (Examples.detail "bbb");
              normalize (Examples.detail "ccc")]).
Proof.
  apply (getCommits_collects_every_page Examples.steady "acme" "widgets"
           Examples.twoPerPage
           [[mkSummary "aaa"; mkSummary "bbb"]] [mkSummary "ccc"] 0).
  - simpl. repeat split; reflexivity.
  - repeat constructor.
  - apply Nat.ltb_lt. reflexivity.
  - repeat constructor.
Defined.

Lemma getCommitsFrom_outcome_witness :
  String.prefix "Error fetching commits: "
    "Error fetching commits: Error fetching commit details for bbb: Request failed with status code 500"
  = true.
Proof.
  exact (getCommitsFrom_outcome Examples.flakyDetail "acme" "widgets"
           Examples.twoPerPage 5 1 [] (Throw _) eq_refl).
Defined.

(** ** Pagination in the stand-alone reporter *)

Lemma served_app (ask : nat -> Result (option (list Summary)))
  (pages : list (list Summary)) (last : list Summary) :
  forall start,
    served ask start (pages ++ [last]) ->
    served ask start pages /\ ask (start + List.length pages) = Ok (Some last).
Proof.
  induction pages as [|p ps IH]; intros start Hs.
  - simpl in *. rewrite Nat.add_0_r. now destruct Hs.
  - destruct Hs as [Hp Hs]. destruct (IH _ Hs) as [H1 H2].
    split; [now split|]. cbn [List.length].
    replace (start + S (List.length ps)) with (S start + List.length ps) by lia.
    exact H2.
Qed.

Lemma fetched_complaints_pages (up : Upstream) (owner repo : string)
  (pages : list (list Summary)) :
  List.length (flat_map (fetched up owner repo) pages)
  + List.length (flat_map (complaints up owner repo) pages)
  = List.length (concat pages).
Proof.
  induction pages as [|p ps IH]; [reflexivity|].
  cbn [flat_map concat]. rewrite !length_app.
  pose proof (fetched_complaints_length up owner repo p). lia.
Qed.

Section ReporterPagination.
Variable up : Upstream.
Variables owner repo : string.
Variables sinceDate untilDate : option string.
Variable branch : string.

(** The reporter's list request for page [n]. *)
Let ask (n : nat) : Result (option (list Summary)) :=
  listCommits up owner repo (EnhancedReporter.paramsOf sinceDate untilDate branch n).

Lemma reporter_full_pages (pages : list (list Summary)) :
  forall (fuel start : nat) (commits : list Commit) (log : EnhancedReporter.Log),
    served ask start pages ->
    Forall (fun page => List.length page = EnhancedReporter.perPage) pages ->
    EnhancedReporter.getCommitsFrom (List.length pages + fuel) up owner repo
        sinceDate untilDate branch start commits log
    = EnhancedReporter.getCommitsFrom fuel up owner repo sinceDate untilDate branch
        (start + List.length pages)
        (commits ++ flat_map (fetched up owner repo) pages)
        (log ++ flat_map (complaints up owner repo) pages).
Proof.
  induction pages as [|page rest IH]; intros fuel start commits log Hs Hfull.
  - simpl. now rewrite Nat.add_0_r, !app_nil_r.
  - destruct Hs as [Hpage Hs].
    inversion Hfull as [|? ? Hlen Hfull']; subst.
    cbn [List.length Nat.add].
    destruct (reporter_full_page_continues up owner repo
                (List.length rest + fuel) sinceDate untilDate branch start
                commits log page Hpage Hlen) as [-> _].
    rewrite (IH fuel (S start) _ _ Hs Hfull').
    cbn [flat_map]. rewrite <- !app_assoc. f_equal. lia.
Qed.

(** X3. Partial results in the stand-alone reporter: after any number of
    full pages, a rejected list request ends the retrieval with every
    commit fetched so far, in listing order; the log holds one line per
    rejected detail request, in order, and the listing error last. *)
Theorem reporter_keeps_what_was_fetched (pages : list (list Summary))
  (m : string) (fuel : nat) :
  served ask 1 pages ->
  Forall (fun page => List.length page = EnhancedReporter.perPage) pages ->
  ask (1 + List.length pages) = Throw m ->
  EnhancedReporter.getCommits (S (List.length pages) + fuel) up owner repo
      sinceDate untilDate branch
  = Some (flat_map (fetched up owner repo) pages,
          flat_map (complaints up owner repo) pages
            ++ [("Error fetching commits: " ++ m)%string]).
Proof.
  intros Hs Hfull Hm. unfold EnhancedReporter.getCommits.
  replace (S (List.length pages) + fuel) with (List.length pages + S fuel) by lia.
  rewrite (reporter_full_pages pages (S fuel) 1 [] [] Hs Hfull).
  now rewrite (reporter_listing_rejected up owner repo fuel _ _ _ _ _ _ m Hm).
Qed.

(** X4. The reporter over any number of full pages followed by a short
    page: it returns the commits whose detail request succeeded, in
    listing order, and logs one line for each that failed; the number of
    returned commits plus the number of log lines is the number of listed
    commits. *)
Theorem reporter_collects_every_page (pages : list (list Summary))
  (last : list Summary) (fuel : nat) :
  served ask 1 (pages ++ [last]) ->
  Forall (fun page => List.length page = EnhancedReporter.perPage) pages ->
  List.length last < EnhancedReporter.perPage ->
  exists commits log,
    EnhancedReporter.getCommits (S (List.length pages) + fuel) up owner repo
        sinceDate untilDate branch = Some (commits, log)
    /\ commits = flat_map (fetched up owner repo) (pages ++ [last])
    /\ log = flat_map (complaints up owner repo) (pages ++ [last])
    /\ List.length commits + List.length log
       = List.length (concat (pages ++ [last])).
Proof.
  intros Hs Hfull Hshort.
  exists (flat_map (fetched up owner repo) (pages ++ [last])),
         (flat_map (complaints up owner repo) (pages ++ [last])).
  split; [|split; [reflexivity|split; [reflexivity|]]].
  - apply served_app in Hs. destruct Hs as [Hs Hlast].
    unfold EnhancedReporter.getCommits.
    replace (S (List.length pages) + fuel) with (List.length pages + S fuel) by lia.
    rewrite (reporter_full_pages pages (S fuel) 1 [] [] Hs Hfull).
    cbn [EnhancedReporter.getCommitsFrom]. fold (ask (1 + List.length pages)).
    rewrite Hlast, !flat_map_app. cbn [flat_map app]. rewrite !app_nil_r.
    destruct last as [|c rest].
    + unfold fetched, complaints. simpl. now rewrite !app_nil_r.
    + rewrite reporter_detailLoop. apply Nat.ltb_lt in Hshort. now rewrite Hshort.
  - apply fetched_complaints_pages.
Qed.

End ReporterPagination.

Lemma reporter_keeps_what_was_fetched_witness :
  exists commits,
    EnhancedReporter.getCommits 2 MoreExamples.busy "acme" "widgets" None None "main"
    = Some (commits,
            ["Error fetching commit details for 7: Request failed with status code 500";
             "Error fetching commits: Network Error"])
    /\ List.length commits = 99
    /\ map sha commits
       = map s_sha (filter (fun s => negb (String.eqb (s_sha s) "7"))
                           MoreExamples.hundred).
Proof.
  exists (flat_map (fetched MoreExamples.busy "acme" "widgets") [MoreExamples.hundred]).
  split; [|split; reflexivity].
  apply (reporter_keeps_what_was_fetched MoreExamples.busy "acme" "widgets"
           None None "main" [MoreExamples.hundred] "Network Error" 0).
  - simpl. split; [reflexivity | exact I].
  - repeat constructor.
  - reflexivity.
Defined.

Lemma reporter_collects_every_page_witness :
  exists commits log,
    EnhancedReporter.getCommits 1 Examples.flakyDetail "acme" "widgets" None None "main"
      = Some (commits, log)
    /\ commits = [normalize (Examples.detail "aaa")]
    /\ log = ["Error fetching commit details for bbb: Request failed with status code 500"]
    /\ List.length commits + List.length log = 2.
Proof.
  apply (reporter_collects_every_page Examples.flakyDetail "acme" "widgets"
           None None "main" [] [mkSummary "aaa"; mkSummary "bbb"] 0).
  - simpl. split; [reflexivity | exact I].
  - constructor.
  - apply Nat.ltb_lt. reflexivity.
Defined.

(** ** The Commit model *)

(** X5. [toJSON] and the constructor are inverse to each other on commit
    objects: rebuilding a commit from its JSON form gives the same commit,
    and normalising any input twice changes nothing more. *)
Theorem commit_json_round_trip :
  (forall c : Commit, newCommit (CommitModel.toJSON c) = c)
  /\ (forall data : CommitData,
        newCommit (CommitModel.toJSON (newCommit data)) = newCommit data).
Proof.
  assert (H : forall c : Commit, newCommit (CommitModel.toJSON c) = c)
    by (intros [s m [an ae ad] [cn ce cd] fs [t a d]]; reflexivity).
  split; [exact H | intros data; apply H].
Qed.

(** X6. In [getSummary] the four per-status counts never exceed the file
    total: they add up to the total minus the files whose status is none
    of added, modified, removed, renamed. *)
Theorem summary_counts_partition (c : Commit) :
  let n := CommitModel.getSummaryFiles c in
  (CommitModel.n_added n + CommitModel.n_modified n + CommitModel.n_removed n
   + CommitModel.n_renamed n + List.length (filter otherStatus (files c))
   = CommitModel.n_total n)%nat.
Proof.
  unfold CommitModel.getSummaryFiles, CommitModel.getFilesByStatus, otherStatus.
  cbn [CommitModel.n_added CommitModel.n_modified CommitModel.n_removed
       CommitModel.n_renamed CommitModel.n_total].
  induction (files c) as [|f fs IH]; [reflexivity|].
  cbn [filter List.length]. destruct (status f); cbn [CommitModel.sameStatus List.length]; lia.
Qed.

(** ** Totals *)

Lemma sumOf_shift (f : Commit -> Z) (commits : list Commit) (z : Z) :
  fold_left (fun sum commit => (sum + f commit)%Z) commits z
  = (z + Aggregation.sumOf f commits)%Z.
Proof.
  unfold Aggregation.sumOf. revert z.
  induction commits as [|c cs IH]; intros z; simpl; [lia|].
  rewrite (IH (z + f c)%Z), (IH (f c)). lia.
Qed.

Lemma sumOf_cons (f : Commit -> Z) (c : Commit) (cs : list Commit) :
  Aggregation.sumOf f (c :: cs) = (f c + Aggregation.sumOf f cs)%Z.
Proof. unfold Aggregation.sumOf at 1. simpl. now rewrite sumOf_shift. Qed.

Lemma sumOf_minus (f g : Commit -> Z) (commits : list Commit) :
  Aggregation.sumOf (fun c => (f c - g c)%Z) commits
  = (Aggregation.sumOf f commits - Aggregation.sumOf g commits)%Z.
Proof.
  induction commits as [|c cs IH]; [reflexivity|].
  rewrite !sumOf_cons, IH. lia.
Qed.

(** X7. The three totals computations agree: [getCommitStatistics],
    [getReportStatistics] and [calculateSummary] report the same commit
    count, additions, deletions and net change for every commit list, and
    the net change is the sum of the commits' own net changes. *)
Theorem totals_agree (commits : list Commit) :
  let agg := Aggregation.getCommitStatistics commits in
  let rep := Totals.getReportStatistics commits in
  let sum := Totals.calculateSummary commits in
  Aggregation.totalCommits agg = Z.of_nat (List.length commits)
  /\ (Aggregation.totalCommits agg, Aggregation.totalAdditions agg,
      Aggregation.totalDeletions agg, Aggregation.netChanges agg)
     = (Totals.s_commits sum, Totals.s_additions sum,
        Totals.s_deletions sum, Totals.s_net sum)
  /\ (Totals.t_commits rep, Totals.t_additions rep, Totals.t_deletions rep,
      Totals.t_net rep, Totals.t_average rep)
     = (Aggregation.totalCommits agg, Aggregation.totalAdditions agg,
        Aggregation.totalDeletions agg, Aggregation.netChanges agg,
        Aggregation.averageChangesPerCommit agg)
  /\ Aggregation.netChanges agg = Aggregation.sumOf getNetChanges commits.
Proof.
  intros agg rep sum.
  assert (Hnet : Aggregation.netChanges agg = Aggregation.sumOf getNetChanges commits).
  { unfold getNetChanges. rewrite sumOf_minus.
    subst agg. destruct commits; reflexivity. }
  repeat split; try assumption; subst agg rep sum; destruct commits; reflexivity.
Qed.

(** X8. The reported average is the total number of changed lines divided
    by the number of commits, rounded to the nearest integer (halves
    upwards): twice the total differs from twice the average times the
    commit count by at most the commit count. *)
Theorem average_is_rounded (commits : list Commit) :
  commits <> [] ->
  let agg := Aggregation.getCommitStatistics commits in
  let n := Aggregation.totalCommits agg in
  let lines := (Aggregation.totalAdditions agg + Aggregation.totalDeletions agg)%Z in
  (2 * n * Aggregation.averageChangesPerCommit agg - n <= 2 * lines
   < 2 * n * Aggregation.averageChangesPerCommit agg + n)%Z.
Proof.
  intros Hne agg n lines.
  destruct commits as [|c cs]; [contradiction|].
  subst agg n lines.
  cbn [Aggregation.getCommitStatistics Aggregation.totalCommits
       Aggregation.totalAdditions Aggregation.totalDeletions
       Aggregation.averageChangesPerCommit].
  set (n := Z.of_nat (List.length (c :: cs))).
  set (a := (Aggregation.sumOf (fun c0 => additions (stats c0)) (c :: cs)
             + Aggregation.sumOf (fun c0 => deletions (stats c0)) (c :: cs))%Z).
  assert (Hn : (0 < n)%Z) by (subst n; simpl; lia).
  unfold Aggregation.roundDiv.
  pose proof (Z.div_mod (2 * a + n) (2 * n) ltac:(lia)) as Hdm.
  pose proof (Z.mod_pos_bound (2 * a + n) (2 * n) ltac:(lia)) as Hb.
  nia.
Qed.

Lemma average_is_rounded_witness :
  (2 * 6 * 1 - 6 <= 2 * (6 + 0) < 2 * 6 * 1 + 6)%Z.
Proof.
  exact (average_is_rounded Examples.sixAuthors ltac:(discriminate)).
Defined.

(** ** Tables *)

Section TableFacts.
Context {V : Type}.

Lemma lookup_none_keys (k : string) (t : JsObject.Table V) :
  JsObject.lookup k t = None -> ~ In k (map fst t).
Proof.
  induction t as [|[k' v] t IH]; simpl; intros H; [tauto|].
  destruct (String.eqb k k') eqn:E; [discriminate|].
  apply String.eqb_neq in E. intros [Hk|Hk]; [congruence | now apply IH].
Qed.

Lemma update_keys (k : string) (f : V -> V) (t : JsObject.Table V) :
  map fst (JsObject.update k f t) = map fst t.
Proof.
  induction t as [|[k' v] t IH]; simpl; [reflexivity|].
  destruct (String.eqb k k'); simpl; [reflexivity | now rewrite IH].
Qed.

Lemma upsert_keys_distinct (k : string) (fresh : V) (bump : V -> V)
  (t : JsObject.Table V) :
  NoDup (map fst t) -> NoDup (map fst (JsObject.upsert k fresh bump t)).
Proof.
  intros H. unfold JsObject.upsert.
  destruct (JsObject.inherited k); [assumption|].
  destruct (JsObject.lookup k t) eqn:E.
  - now rewrite update_keys.
  - rewrite map_app. simpl. apply NoDup_app; [assumption | repeat constructor; tauto |].
    intros x Hx [<-|[]]. now apply (lookup_none_keys _ _ E).
Qed.

Lemma update_entries (P : string * V -> Prop) (k : string) (f : V -> V)
  (t : JsObject.Table V) :
  (forall k' v, P (k', v) -> P (k', f v)) ->
  Forall P t -> Forall P (JsObject.update k f t).
Proof.
  intros Hf. induction t as [|[k' v] t IH]; simpl; intros H; [constructor|].
  inversion H; subst.
  destruct (String.eqb k k'); constructor; auto.
Qed.

Lemma upsert_entries (P : string * V -> Prop) (k : string) (fresh : V)
  (bump : V -> V) (t : JsObject.Table V) :
  (forall k' v, P (k', v) -> P (k', bump v)) ->
  (JsObject.inherited k = false -> P (k, bump fresh)) ->
  Forall P t -> Forall P (JsObject.upsert k fresh bump t).
Proof.
  intros Hb Hf H. unfold JsObject.upsert.
  destruct (JsObject.inherited k); [assumption|].
  destruct (JsObject.lookup k t).
  - now apply update_entries.
  - apply Forall_app. split; [assumption | repeat constructor; now apply Hf].
Qed.

Lemma sumZ_app {A : Type} (f : A -> Z) (l l' : list A) :
  sumZ f (l ++ l') = (sumZ f l + sumZ f l')%Z.
Proof. induction l as [|x l IH]; simpl; [reflexivity | rewrite IH; lia]. Qed.

Lemma sumZ_perm {A : Type} (f : A -> Z) (l l' : list A) :
  Permutation l l' -> sumZ f l = sumZ f l'.
Proof. induction 1; simpl; lia. Qed.

Lemma update_sum (m : V -> Z) (d : Z) (k : string) (bump : V -> V)
  (t : JsObject.Table V) (v : V) :
  (forall x, m (bump x) = (m x + d)%Z) ->
  JsObject.lookup k t = Some v ->
  sumZ m (map snd (JsObject.update k bump t)) = (sumZ m (map snd t) + d)%Z.
Proof.
  intros Hb. induction t as [|[k' w] t IH]; simpl; intros H; [discriminate|].
  destruct (String.eqb k k'); simpl.
  - rewrite Hb. lia.
  - rewrite (IH H). lia.
Qed.

(** What one [if (!t[k]) t[k] = fresh; bump(t[k])] step adds to the sum of
    a counter over the table. *)
Lemma upsert_sum (m : V -> Z) (d : Z) (k : string) (fresh : V) (bump : V -> V)
  (t : JsObject.Table V) :
  (forall x, m (bump x) = (m x + d)%Z) -> m fresh = 0%Z ->
  sumZ m (map snd (JsObject.upsert k fresh bump t))
  = (sumZ m (map snd t) + (if JsObject.inherited k then 0 else d))%Z.
Proof.
  intros Hb Hf. unfold JsObject.upsert.
  destruct (JsObject.inherited k); [lia|].
  destruct (JsObject.lookup k t) eqn:E.
  - now apply (update_sum m d k bump t v).
  - rewrite map_app, sumZ_app. simpl. rewrite Hb, Hf. lia.
Qed.

Lemma insertIndex_perm (n : N) (v : V) (l : list (N * V)) :
  Permutation (JsObject.insertIndex n v l) ((n, v) :: l).
Proof.
  induction l as [|[m w] l IH]; simpl; [reflexivity|].
  destruct (n <=? m)%N; [reflexivity|]. rewrite IH. apply perm_swap.
Qed.

(** [Object.values] lists every own property exactly once. *)
Lemma values_perm (t : JsObject.Table V) :
  Permutation (JsObject.values t) (map snd t).
Proof.
  unfold JsObject.values. induction t as [|[k v] t IH]; simpl; [reflexivity|].
  destruct (JsObject.arrayIndex k).
  - rewrite (Permutation_map snd (insertIndex_perm _ _ _)). simpl. now constructor.
  - rewrite <- Permutation_middle. now constructor.
Qed.

Lemma lookup_update (k' k : string) (f : V -> V) (t : JsObject.Table V) :
  JsObject.lookup k' (JsObject.update k f t)
  = if String.eqb k' k then option_map f (JsObject.lookup k t)
    else JsObject.lookup k' t.
Proof.
  induction t as [|[k0 v] t IH]; simpl.
  - now destruct (String.eqb k' k).
  - destruct (String.eqb k k0) eqn:E.
    + apply String.eqb_eq in E. subst k0. simpl.
      now destruct (String.eqb k' k).
    + simpl. rewrite IH.
      destruct (String.eqb k' k) eqn:E1; destruct (String.eqb k' k0) eqn:E2;
        try reflexivity.
      apply String.eqb_eq in E1, E2. subst. now rewrite String.eqb_refl in E.
Qed.

Lemma lookup_snoc (k' k : string) (v : V) (t : JsObject.Table V) :
  JsObject.lookup k' (t ++ [(k, v)])
  = match JsObject.lookup k' t with
    | Some x => Some x
    | None => if String.eqb k' k then Some v else None
    end.
Proof.
  induction t as [|[k0 w] t IH]; simpl; [reflexivity|].
  now destruct (String.eqb k' k0).
Qed.

(** Reading a table after one [if (!t[k]) t[k] = fresh; bump(t[k])] step. *)
Lemma lookup_upsert (k' k : string) (fresh : V) (bump : V -> V)
  (t : JsObject.Table V) :
  JsObject.lookup k' (JsObject.upsert k fresh bump t)
  = if JsObject.inherited k then JsObject.lookup k' t
    else if String.eqb k' k
         then Some (bump (match JsObject.lookup k t with
                          | Some v => v
                          | None => fresh
                          end))
         else JsObject.lookup k' t.
Proof.
  unfold JsObject.upsert. destruct (JsObject.inherited k); [reflexivity|].
  destruct (JsObject.lookup k t) eqn:E.
  - rewrite lookup_update, E. now destruct (String.eqb k' k).
  - rewrite lookup_snoc. destruct (String.eqb k' k) eqn:E'.
    + apply String.eqb_eq in E'. subst k'. now rewrite E.
    + now destruct (JsObject.lookup k' t).
Qed.

Lemma lookup_In (k : string) (v : V) (t : JsObject.Table V) :
  JsObject.lookup k t = Some v -> In (k, v) t.
Proof.
  induction t as [|[k0 w] t IH]; simpl; [discriminate|].
  destruct (String.eqb k k0) eqn:E; intros H.
  - apply String.eqb_eq in E. left. congruence.
  - right. now apply IH.
Qed.

Lemma In_lookup (k : string) (v : V) (t : JsObject.Table V) :
  NoDup (map fst t) -> In (k, v) t -> JsObject.lookup k t = Some v.
Proof.
  induction t as [|[k0 w] t IH]; simpl; intros Hnd Hin; [contradiction|].
  inversion Hnd as [|? ? Hnot Hnd']; subst.
  destruct Hin as [Heq|Hin].
  - injection Heq as -> ->. now rewrite String.eqb_refl.
  - destruct (String.eqb k k0) eqn:E; [|now apply IH].
    apply String.eqb_eq in E. subst k0. elim Hnot.
    now apply (in_map fst _ _ Hin).
Qed.

(** The values of a table are what its keys read. *)
Lemma values_lookup (e : V) (t : JsObject.Table V) :
  NoDup (map fst t) ->
  (In e (map snd t) <-> exists k, JsObject.lookup k t = Some e).
Proof.
  intros Hnd. split.
  - intros H. apply in_map_iff in H. destruct H as [[k v] [<- Hin]].
    exists k. now apply In_lookup.
  - intros [k H]. apply lookup_In in H. now apply (in_map snd _ _ H).
Qed.
End TableFacts.

(** ** Contributor and file tables *)

Lemma countCommit_sums (t : JsObject.Table Aggregation.Contributor) (c : Commit) :
  let w (d : Z) := if JsObject.inherited (name (author c)) then 0%Z else d in
  sumZ Aggregation.c_commits (map snd (Aggregation.countCommit t c))
  = (sumZ Aggregation.c_commits (map snd t) + w 1)%Z
  /\ sumZ Aggregation.c_additions (map snd (Aggregation.countCommit t c))
     = (sumZ Aggregation.c_additions (map snd t) + w (additions (stats c)))%Z
  /\ sumZ Aggregation.c_deletions (map snd (Aggregation.countCommit t c))
     = (sumZ Aggregation.c_deletions (map snd t) + w (deletions (stats c)))%Z.
Proof.
  unfold Aggregation.countCommit. cbn zeta.
  rewrite (upsert_sum Aggregation.c_commits 1) by (intros; reflexivity).
  rewrite (upsert_sum Aggregation.c_additions (additions (stats c)))
    by (intros; reflexivity).
  rewrite (upsert_sum Aggregation.c_deletions (deletions (stats c)))
    by (intros; reflexivity).
  repeat split.
Qed.

(** What the contributor table satisfies after any number of commits. *)
Lemma contributors_invariant (commits : list Commit) :
  forall t : JsObject.Table Aggregation.Contributor,
    NoDup (map fst t) ->
    Forall (fun kv => Aggregation.c_name (snd kv) = fst kv
                      /\ (1 <= Aggregation.c_commits (snd kv))%Z) t ->
    let t' := fold_left Aggregation.countCommit commits t in
    NoDup (map fst t')
    /\ Forall (fun kv => Aggregation.c_name (snd kv) = fst kv
                         /\ (1 <= Aggregation.c_commits (snd kv))%Z) t'
    /\ sumZ Aggregation.c_commits (map snd t')
       = (sumZ Aggregation.c_commits (map snd t)
          + Z.of_nat (List.length (counted commits)))%Z
    /\ sumZ Aggregation.c_additions (map snd t')
       = (sumZ Aggregation.c_additions (map snd t)
          + Aggregation.sumOf (fun c => additions (stats c)) (counted commits))%Z
    /\ sumZ Aggregation.c_deletions (map snd t')
       = (sumZ Aggregation.c_deletions (map snd t)
          + Aggregation.sumOf (fun c => deletions (stats c)) (counted commits))%Z.
Proof.
  induction commits as [|c cs IH]; intros t Hnd Hall; cbn zeta.
  - simpl. unfold Aggregation.sumOf. simpl. repeat split; try assumption; lia.
  - cbn [fold_left].
    assert (Hnd' : NoDup (map fst (Aggregation.countCommit t c)))
      by (now apply upsert_keys_distinct).
    assert (Hall' : Forall (fun kv => Aggregation.c_name (snd kv) = fst kv
                                      /\ (1 <= Aggregation.c_commits (snd kv))%Z)
                           (Aggregation.countCommit t c)).
    { apply upsert_entries; [| |assumption].
      - intros k' v [H1 H2]. simpl in *. split; [assumption | lia].
      - intros _. simpl. split; [reflexivity | lia]. }
    destruct (IH _ Hnd' Hall') as (I1 & I2 & I3 & I4 & I5).
    destruct (countCommit_sums t c) as (S1 & S2 & S3).
    rewrite S1 in I3. rewrite S2 in I4. rewrite S3 in I5.
    repeat split; try assumption; unfold counted in *; cbn [filter];
      destruct (JsObject.inherited (name (author c))); cbn [negb];
      rewrite ?sumOf_cons; cbn [List.length]; lia.
Qed.

(** What the contributor table holds under each name. *)
Lemma contributors_lookup (commits : list Commit) :
  forall who,
    JsObject.lookup who (Aggregation.contributorsOf commits)
    = contributorFor who commits.
Proof.
  induction commits as [|c cs IH] using rev_ind; intros who; [reflexivity|].
  unfold Aggregation.contributorsOf. rewrite fold_left_app. cbn [fold_left].
  fold (Aggregation.contributorsOf cs).
  unfold Aggregation.countCommit. cbn zeta. rewrite lookup_upsert, !IH.
  unfold contributorFor, authoredBy, counted. rewrite !filter_app. cbn [filter].
  destruct (JsObject.inherited (name (author c))); cbn [negb filter];
    [now rewrite !app_nil_r|].
  destruct (String.eqb who (name (author c))) eqn:E.
  - apply String.eqb_eq in E. subst who. rewrite String.eqb_refl.
    destruct (filter _ (filter _ cs)) as [|first rest].
    + cbn. f_equal. f_equal; lia.
    + cbn [app Aggregation.c_name Aggregation.c_email Aggregation.c_commits
           Aggregation.c_additions Aggregation.c_deletions].
      rewrite !app_comm_cons, !sumZ_app, length_app.
      cbn [List.length sumZ fold_right]. f_equal. f_equal; lia.
  - rewrite String.eqb_sym, E. now rewrite !app_nil_r.
Qed.

(** X9. The contributor ranking has exactly one entry per distinct author
    name (names inherited from [Object.prototype] get none): its entries
    are the records [contributorFor who] of the names [who] with a counted
    commit, each holding that name, the e-mail address of the name's first
    commit, and the number, added lines and deleted lines of the name's
    commits.  Every entry counts at least one commit, and the entries
    together account for every counted commit exactly once. *)
Theorem contributors_account_for_commits (commits : list Commit) :
  let all := Aggregation.getTopContributors commits (List.length commits) in
  Permutation all (JsObject.values (Aggregation.contributorsOf commits))
  /\ (forall e, In e all <-> exists who, contributorFor who commits = Some e)
  /\ (forall c, In c (counted commits) ->
                exists e, In e all /\ Aggregation.c_name e = name (author c)
                          /\ Aggregation.c_commits e
                             = Z.of_nat (List.length
                                           (authoredBy (name (author c)) commits)))
  /\ NoDup (map Aggregation.c_name all)
  /\ Forall (fun c => (1 <= Aggregation.c_commits c)%Z) all
  /\ sumZ Aggregation.c_commits all = Z.of_nat (List.length (counted commits))
  /\ sumZ Aggregation.c_additions all
     = Aggregation.sumOf (fun c => additions (stats c)) (counted commits)
  /\ sumZ Aggregation.c_deletions all
     = Aggregation.sumOf (fun c => deletions (stats c)) (counted commits).
Proof.
  intros all.
  destruct (contributors_invariant commits [] (NoDup_nil _) (Forall_nil _))
    as (I1 & I2 & I3 & I4 & I5).
  fold (Aggregation.contributorsOf commits) in I1, I2, I3, I4, I5.
  set (t := Aggregation.contributorsOf commits) in *.
  assert (Hlen : (List.length (JsObject.values t) <= List.length commits)%nat).
  { rewrite (Permutation_length (values_perm t)), length_map.
    assert (H : (Z.of_nat (List.length t) <= sumZ Aggregation.c_commits (map snd t))%Z).
    { clear -I2. induction I2 as [|[k v] l [_ Hx] _ IH]; simpl in *; lia. }
    rewrite I3 in H. simpl in H.
    pose proof (filter_length_le
                  (fun c => negb (JsObject.inherited (name (author c)))) commits).
    unfold counted in H. lia. }
  assert (Hall : Permutation all (map snd t)).
  { subst all. unfold Aggregation.getTopContributors. fold t.
    rewrite firstn_all2
      by (rewrite (Permutation_length (sortDesc_perm _ _)); exact Hlen).
    rewrite sortDesc_perm. apply values_perm. }
  split; [now rewrite Hall, values_perm|].
  assert (Hentries : forall e,
             In e all <-> exists who, contributorFor who commits = Some e).
  { intros e. split.
    - intros H. apply (Permutation_in _ Hall) in H.
      apply (values_lookup e t I1) in H. destruct H as [who H].
      exists who. now rewrite <- contributors_lookup.
    - intros [who H]. apply (Permutation_in _ (Permutation_sym Hall)).
      apply (values_lookup e t I1). exists who. subst t.
      now rewrite contributors_lookup. }
  split; [exact Hentries|].
  split.
  { intros c Hc.
    assert (Hmine : In c (authoredBy (name (author c)) commits)).
    { unfold authoredBy. apply filter_In. split; [assumption | apply String.eqb_refl]. }
    destruct (contributorFor (name (author c)) commits) as [e|] eqn:He.
    - exists e. split; [apply Hentries; now exists (name (author c))|].
      unfold contributorFor in He.
      destruct (authoredBy (name (author c)) commits); [discriminate|].
      injection He as <-. split; reflexivity.
    - unfold contributorFor in He.
      destruct (authoredBy (name (author c)) commits); [contradiction | discriminate]. }
  split.
  { apply (Permutation_NoDup (l := map Aggregation.c_name (map snd t)));
      [symmetry; now apply Permutation_map|].
    replace (map Aggregation.c_name (map snd t)) with (map fst t); [assumption|].
    rewrite map_map. clear -I2.
    induction I2 as [|[k v] l [Hx _] _ IH]; simpl in *; [reflexivity | now rewrite IH, Hx]. }
  split.
  { eapply Permutation_Forall; [symmetry; exact Hall|].
    apply Forall_map. eapply Forall_impl; [|exact I2]. now intros kv [_ H]. }
  rewrite !(sumZ_perm _ _ _ Hall). simpl in I3, I4, I5. repeat split; lia.
Qed.

Lemma contributors_account_for_commits_witness :
  exists e,
    In e (Aggregation.getTopContributors MoreExamples.shared 3)
    /\ Aggregation.c_name e = "ann"
    /\ Aggregation.c_commits e = 2%Z.
Proof.
  exact (proj1 (proj2 (proj2 (contributors_account_for_commits MoreExamples.shared)))
           (Examples.commitBy "ann" "a.js") (or_introl eq_refl)).
Defined.

Lemma sumZ_cons {A : Type} (f : A -> Z) (x : A) (l : list A) :
  sumZ f (x :: l) = (f x + sumZ f l)%Z.
Proof. reflexivity. Qed.

Lemma fileStatsOf_flat (commits : list Commit) :
  forall t : JsObject.Table Aggregation.FileStat,
    fold_left (fun t commit => fold_left Aggregation.countFile (files commit) t)
              commits t
    = fold_left Aggregation.countFile (flat_map files commits) t.
Proof.
  induction commits as [|c cs IH]; intros t; [reflexivity|].
  cbn [fold_left flat_map]. now rewrite fold_left_app, IH.
Qed.

Lemma countFile_sums (t : JsObject.Table Aggregation.FileStat) (f : FileChange) :
  let w (d : Z) := if JsObject.inherited (filename f) then 0%Z else d in
  sumZ Aggregation.fs_commits (map snd (Aggregation.countFile t f))
  = (sumZ Aggregation.fs_commits (map snd t) + w 1)%Z
  /\ sumZ Aggregation.fs_changes (map snd (Aggregation.countFile t f))
     = (sumZ Aggregation.fs_changes (map snd t) + w (changes f))%Z
  /\ sumZ Aggregation.fs_additions (map snd (Aggregation.countFile t f))
     = (sumZ Aggregation.fs_additions (map snd t) + w (file_additions f))%Z
  /\ sumZ Aggregation.fs_deletions (map snd (Aggregation.countFile t f))
     = (sumZ Aggregation.fs_deletions (map snd t) + w (file_deletions f))%Z.
Proof.
  unfold Aggregation.countFile. cbn zeta.
  rewrite (upsert_sum Aggregation.fs_commits 1) by (intros; reflexivity).
  rewrite (upsert_sum Aggregation.fs_changes (changes f)) by (intros; reflexivity).
  rewrite (upsert_sum Aggregation.fs_additions (file_additions f))
    by (intros; reflexivity).
  rewrite (upsert_sum Aggregation.fs_deletions (file_deletions f))
    by (intros; reflexivity).
  repeat split.
Qed.

Lemma files_invariant (fs : list FileChange) :
  forall t : JsObject.Table Aggregation.FileStat,
    NoDup (map fst t) ->
    Forall (fun kv => Aggregation.fs_filename (snd kv) = fst kv) t ->
    let keep := filter (fun f => negb (JsObject.inherited (filename f))) fs in
    let t' := fold_left Aggregation.countFile fs t in
    NoDup (map fst t')
    /\ Forall (fun kv => Aggregation.fs_filename (snd kv) = fst kv) t'
    /\ sumZ Aggregation.fs_commits (map snd t')
       = (sumZ Aggregation.fs_commits (map snd t) + Z.of_nat (List.length keep))%Z
    /\ sumZ Aggregation.fs_changes (map snd t')
       = (sumZ Aggregation.fs_changes (map snd t) + sumZ changes keep)%Z
    /\ sumZ Aggregation.fs_additions (map snd t')
       = (sumZ Aggregation.fs_additions (map snd t) + sumZ file_additions keep)%Z
    /\ sumZ Aggregation.fs_deletions (map snd t')
       = (sumZ Aggregation.fs_deletions (map snd t) + sumZ file_deletions keep)%Z.
Proof.
  induction fs as [|f fs IH]; intros t Hnd Hall; cbn zeta.
  - simpl. repeat split; try assumption; lia.
  - cbn [fold_left].
    assert (Hnd' : NoDup (map fst (Aggregation.countFile t f)))
      by (now apply upsert_keys_distinct).
    assert (Hall' : Forall (fun kv => Aggregation.fs_filename (snd kv) = fst kv)
                           (Aggregation.countFile t f)).
    { apply upsert_entries; [| |assumption].
      - intros k' v H. exact H.
      - intros _. reflexivity. }
    destruct (IH _ Hnd' Hall') as (I1 & I2 & I3 & I4 & I5 & I6).
    destruct (countFile_sums t f) as (S1 & S2 & S3 & S4).
    rewrite S1 in I3. rewrite S2 in I4. rewrite S3 in I5. rewrite S4 in I6.
    repeat split; try assumption; cbn [filter];
      destruct (JsObject.inherited (filename f)); cbn [negb List.length];
      rewrite ?sumZ_cons; lia.
Qed.

(** What the file table holds under each name. *)
Lemma files_lookup (fs : list FileChange) :
  forall path,
    JsObject.lookup path (fold_left Aggregation.countFile fs [])
    = match filter (fun f => String.eqb (filename f) path)
                   (filter (fun f => negb (JsObject.inherited (filename f))) fs) with
      | [] => None
      | mine =>
          Some (Aggregation.mkFileStat path (sumZ changes mine)
                  (sumZ file_additions mine) (sumZ file_deletions mine)
                  (Z.of_nat (List.length mine)))
      end.
Proof.
  induction fs as [|f fs IH] using rev_ind; intros path; [reflexivity|].
  rewrite fold_left_app. cbn [fold_left].
  unfold Aggregation.countFile. rewrite lookup_upsert, !IH.
  rewrite !filter_app. cbn [filter].
  destruct (JsObject.inherited (filename f)); cbn [negb filter];
    [now rewrite !app_nil_r|].
  destruct (String.eqb path (filename f)) eqn:E.
  - apply String.eqb_eq in E. subst path. rewrite String.eqb_refl.
    destruct (filter _ (filter _ fs)) as [|first rest].
    + cbn. f_equal. f_equal; lia.
    + cbn [app Aggregation.fs_filename Aggregation.fs_changes
           Aggregation.fs_additions Aggregation.fs_deletions Aggregation.fs_commits].
      rewrite !app_comm_cons, !sumZ_app, length_app.
      cbn [List.length sumZ fold_right]. f_equal. f_equal; lia.
  - rewrite String.eqb_sym, E. now rewrite !app_nil_r.
Qed.

(** X10. [Report.getFileStatistics] has exactly one entry per distinct
    file name (names inherited from [Object.prototype] get none): its
    entries are the records [fileStatFor path] of the names [path] with a
    counted change, each holding that name and the number, changes,
    additions and deletions of the changes to that file.  Over all
    entries the counters add up to the totals over the commits. *)
Theorem file_statistics_account_for_files (commits : list Commit) :
  let all := Aggregation.getFileStatistics commits in
  (forall e, In e all <-> exists path, fileStatFor path commits = Some e)
  /\ (forall f, In f (countedFiles commits) ->
                exists e, In e all /\ Aggregation.fs_filename e = filename f
                          /\ Aggregation.fs_commits e
                             = Z.of_nat (List.length (changesTo (filename f) commits))
                          /\ Aggregation.fs_changes e
                             = sumZ changes (changesTo (filename f) commits))
  /\ NoDup (map Aggregation.fs_filename all)
  /\ sumZ Aggregation.fs_commits all
     = Z.of_nat (List.length (countedFiles commits))
  /\ sumZ Aggregation.fs_changes all = sumZ changes (countedFiles commits)
  /\ sumZ Aggregation.fs_additions all = sumZ file_additions (countedFiles commits)
  /\ sumZ Aggregation.fs_deletions all = sumZ file_deletions (countedFiles commits).
Proof.
  intros all.
  destruct (files_invariant (flat_map files commits) [] (NoDup_nil _) (Forall_nil _))
    as (I1 & I2 & I3 & I4 & I5 & I6).
  rewrite <- (fileStatsOf_flat commits []) in I1, I2, I3, I4, I5, I6.
  fold (Aggregation.fileStatsOf commits) in I1, I2, I3, I4, I5, I6.
  fold (countedFiles commits) in I3, I4, I5, I6.
  set (t := Aggregation.fileStatsOf commits) in *.
  assert (Hall : Permutation all (map snd t)).
  { subst all. unfold Aggregation.getFileStatistics. fold t.
    rewrite sortDesc_perm. apply values_perm. }
  assert (Hlookup : forall path, JsObject.lookup path t = fileStatFor path commits).
  { intros path. subst t. unfold Aggregation.fileStatsOf.
    rewrite (fileStatsOf_flat commits []). apply files_lookup. }
  assert (Hentries : forall e,
             In e all <-> exists path, fileStatFor path commits = Some e).
  { intros e. split.
    - intros H. apply (Permutation_in _ Hall) in H.
      apply (values_lookup e t I1) in H. destruct H as [path H].
      exists path. now rewrite <- Hlookup.
    - intros [path H]. apply (Permutation_in _ (Permutation_sym Hall)).
      apply (values_lookup e t I1). exists path. now rewrite Hlookup. }
  split; [exact Hentries|].
  split.
  { intros f Hf.
    assert (Hmine : In f (changesTo (filename f) commits)).
    { unfold changesTo. apply filter_In. split; [assumption | apply String.eqb_refl]. }
    destruct (fileStatFor (filename f) commits) as [e|] eqn:He.
    - exists e. split; [apply Hentries; now exists (filename f)|].
      unfold fileStatFor in He.
      destruct (changesTo (filename f) commits); [discriminate|].
      injection He as <-. repeat split.
    - unfold fileStatFor in He.
      destruct (changesTo (filename f) commits); [contradiction | discriminate]. }
  split.
  { apply (Permutation_NoDup (l := map Aggregation.fs_filename (map snd t)));
      [symmetry; now apply Permutation_map|].
    replace (map Aggregation.fs_filename (map snd t)) with (map fst t); [assumption|].
    rewrite map_map. clear -I2.
    induction I2 as [|[k v] l Hx _ IH]; simpl in *; [reflexivity | now rewrite IH, Hx]. }
  rewrite !(sumZ_perm _ _ _ Hall). simpl in I3, I4, I5, I6. repeat split; lia.
Qed.

Lemma file_statistics_account_for_files_witness :
  exists e,
    In e (Aggregation.getFileStatistics MoreExamples.shared)
    /\ Aggregation.fs_filename e = "a.js"
    /\ Aggregation.fs_commits e = 2%Z
    /\ Aggregation.fs_changes e = 2%Z.
Proof.
  exact (proj1 (proj2 (file_statistics_account_for_files MoreExamples.shared))
           (mkFile "a.js" modified 1 0 1) (or_introl eq_refl)).
Defined.

(** ** Ranking order *)

Section Ranking.
Context {A : Type}.
Variable key : A -> Z.

Lemma insertDesc_same_key (k : Z) (x : A) (l : list A) :
  filter (fun y => (key y =? k)%Z) (insertDesc key x l)
  = filter (fun y => (key y =? k)%Z) (x :: l).
Proof.
  induction l as [|y l IH]; [reflexivity|].
  cbn [insertDesc]. unfold compareDesc.
  destruct (key y - key x <=? 0)%Z eqn:E; [reflexivity|].
  apply Z.leb_gt in E. cbn [filter] in *. rewrite IH.
  destruct (key x =? k)%Z eqn:Ex; [|reflexivity].
  apply Z.eqb_eq in Ex.
  assert (Hy : (key y =? k)%Z = false) by (apply Z.eqb_neq; lia).
  now rewrite Hy.
Qed.

(** X11. The ranking sort is stable: entries with the same count keep the
    order in which [Object.values] lists them. *)
Theorem sortDesc_stable (k : Z) (l : list A) :
  filter (fun y => (key y =? k)%Z) (sortDesc key l)
  = filter (fun y => (key y =? k)%Z) l.
Proof.
  induction l as [|x l IH]; [reflexivity|].
  cbn [sortDesc fold_right]. fold (sortDesc key l).
  rewrite insertDesc_same_key. cbn [filter]. now rewrite IH.
Qed.

(** The first entry of a ranking has the largest count. *)
Lemma sortDesc_head_max (l : list A) (top : A) :
  hd_error (sortDesc key l) = Some top ->
  forall x, In x l -> (key x <= key top)%Z.
Proof.
  intros Hhd x Hx.
  pose proof (sortDesc_sorted key l) as Hs.
  apply (Permutation_in _ (Permutation_sym (sortDesc_perm key l))) in Hx.
  destruct (sortDesc key l) as [|y s]; [discriminate|].
  injection Hhd as ->. inversion Hs as [|? ? _ Hall]; subst.
  destruct Hx as [->|Hx]; [lia|].
  rewrite Forall_forall in Hall. now apply Hall.
Qed.
End Ranking.

(** X12. The first entry of [topContributors] has the largest commit count
    of all contributors, and the first entry of [fileStatistics] the
    largest number of changes of all files, whatever was cut off. *)
Theorem aggregate_leaders (commits : list Commit) :
  let agg := Aggregation.getCommitStatistics commits in
  (forall top, hd_error (Aggregation.topContributors agg) = Some top ->
     forall c, In c (JsObject.values (Aggregation.contributorsOf commits)) ->
               (Aggregation.c_commits c <= Aggregation.c_commits top)%Z)
  /\ (forall top, hd_error (Aggregation.fileStatistics agg) = Some top ->
        forall f, In f (JsObject.values (Aggregation.fileStatsOf commits)) ->
                  (Aggregation.fs_changes f <= Aggregation.fs_changes top)%Z)
  /\ (JsObject.values (Aggregation.contributorsOf commits) <> [] ->
      Aggregation.topContributors agg <> [])
  /\ (JsObject.values (Aggregation.fileStatsOf commits) <> [] ->
      Aggregation.fileStatistics agg <> []).
Proof.
  intros agg.
  assert (Hhd : forall (B : Type) (n : nat) (l : list B),
             hd_error (firstn (S n) l) = hd_error l) by (intros B n [|x l]; reflexivity).
  assert (Hne : forall (B : Type) (k : B -> Z) (n : nat) (l : list B),
             l <> [] -> firstn (S n) (sortDesc k l) <> []).
  { intros B k n l Hl E. apply Hl.
    pose proof (Permutation_length (sortDesc_perm k l)) as Hlen.
    destruct (sortDesc k l); [destruct l; [reflexivity | discriminate] | discriminate]. }
  destruct commits as [|c0 cs].
  - subst agg. simpl. repeat split; try discriminate; intros H; now elim H.
  - subst agg. cbn [Aggregation.getCommitStatistics Aggregation.topContributors
                    Aggregation.fileStatistics].
    repeat split.
    + intros top Htop. rewrite Hhd in Htop. now apply sortDesc_head_max.
    + intros top Htop. rewrite Hhd in Htop. now apply sortDesc_head_max.
    + apply Hne.
    + apply Hne.
Qed.

(** ** The heuristic categorizer, in general *)

(** Case analysis on every condition of the categorizer. *)
Ltac split_conditions :=
  repeat match goal with
         | |- context [Categorizer.pushIf ?b _] =>
             lazymatch b with
             | true => fail
             | false => fail
             | _ => destruct b
             end
         | |- context [(0 <? List.length ?l)%nat] => destruct (0 <? List.length l)%nat
         end.

(** X13. The heuristic analysis is never empty: it starts with a block
    heading, and each of its lines is a heading or a detail line. *)
Theorem analysis_is_bulleted (c : Commit) :
  String.prefix "* " (Categorizer.generateBasicAnalysis c) = true
  /\ (3 <= List.length (Categorizer.analysisLines c))%nat
  /\ forallb bulletLine (Categorizer.analysisLines c) = true.
Proof.
  unfold Categorizer.generateBasicAnalysis, Categorizer.analysisLines,
    Categorizer.stackBlock.
  split_conditions; vm_compute; repeat split; lia.
Qed.

(** X14. Which summary block the analysis carries is decided by the two
    extension buckets alone, and the three are mutually exclusive; the
    generic block appears exactly when no topic matched and both buckets
    are empty. *)
Theorem stack_block_by_buckets (c : Commit) :
  let out := Categorizer.generateBasicAnalysis c in
  let b := nonEmptyList (backendFiles c) in
  let f := nonEmptyList (frontendFiles c) in
  includes out "* Full-stack development changes" = b && f
  /\ includes out "* Backend functionality updates" = b && negb f
  /\ includes out "* Frontend development changes" = negb b && f
  /\ includes out "* General code changes and improvements"
     = negb (existsb (fun m => m) (topicMatches c)) && negb b && negb f.
Proof.
  unfold Categorizer.generateBasicAnalysis, Categorizer.analysisLines,
    Categorizer.stackBlock, topicMatches, backendFiles, frontendFiles, nonEmptyList.
  cbn zeta. cbn [existsb].
  split_conditions; vm_compute; repeat split.
Qed.

Lemma existsb_lower_names (p : string -> bool) (fs : list FileChange) :
  existsb (fun f => p (toLowerCase (filename f))) fs
  = existsb p (map (fun f => toLowerCase (filename f)) fs).
Proof. induction fs as [|f fs IH]; simpl; [reflexivity | now rewrite IH]. Qed.

Lemma filter_lower_names (p : string -> bool) (fs : list FileChange) :
  List.length (filter (fun f => p (toLowerCase (filename f))) fs)
  = List.length (filter p (map (fun f => toLowerCase (filename f)) fs)).
Proof.
  induction fs as [|f fs IH]; simpl; [reflexivity|].
  destruct (p (toLowerCase (filename f))); simpl; now rewrite IH.
Qed.

(** X15. Matching is case-insensitive: two commits whose messages and
    file names agree up to letter case get the same analysis. *)
Theorem analysis_ignores_case (c1 c2 : Commit) :
  toLowerCase (message c1) = toLowerCase (message c2) ->
  lowerNames c1 = lowerNames c2 ->
  Categorizer.generateBasicAnalysis c1 = Categorizer.generateBasicAnalysis c2.
Proof.
  unfold lowerNames. intros Hm Hn.
  assert (Hsome : forall p,
             existsb (fun f => p (toLowerCase (filename f))) (files c1)
             = existsb (fun f => p (toLowerCase (filename f))) (files c2))
    by (intros p; now rewrite !existsb_lower_names, Hn).
  assert (Hlen : forall p,
             List.length (filter (fun f => p (toLowerCase (filename f))) (files c1))
             = List.length (filter (fun f => p (toLowerCase (filename f))) (files c2)))
    by (intros p; now rewrite !filter_lower_names, Hn).
  unfold Categorizer.generateBasicAnalysis, Categorizer.analysisLines,
    Categorizer.stackBlock, Categorizer.someFile.
  rewrite Hm.
  rewrite (Hsome (fun n => includes n "auth")), (Hsome (fun n => includes n "api")),
    (Hsome (fun n => includes n "ui" || includes n "css" || includes n "jsx")),
    (Hsome (fun n => includes n "test")), (Hsome (fun n => includes n "readme")),
    (Hsome (fun n => includes n "env")), (Hsome (fun n => includes n "package")).
  unfold Categorizer.hasExtension.
  rewrite (Hlen (fun n => existsb (fun ext => includes n ext)
                                  Categorizer.backendExtensions)),
    (Hlen (fun n => existsb (fun ext => includes n ext)
                            Categorizer.frontendExtensions)).
  reflexivity.
Qed.

Lemma analysis_ignores_case_witness :
  Categorizer.generateBasicAnalysis MoreExamples.shoutedLogin
  = Categorizer.generateBasicAnalysis Examples.loginCommit.
Proof.
  apply analysis_ignores_case; reflexivity.
Defined.

(** ** The pluggable analyzer *)

Lemma analyzeLoop_spec (create : AIAnalysisService.Client) (commits : list Commit) :
  forall (analyses : list (Commit * string)) (log : list string),
    AIAnalysisService.analyzeLoop (Some create) commits analyses log
    = (analyses ++ map (fun c => (c, analysisFor create c)) commits,
       log ++ analyzerComplaints create commits).
Proof.
  induction commits as [|c cs IH]; intros analyses log.
  - simpl. now rewrite !app_nil_r.
  - cbn [AIAnalysisService.analyzeLoop AIAnalysisService.analyzeCommit].
    unfold analysisFor, analyzerComplaints in *. cbn [map flat_map].
    destruct (create (AIAnalysisService.prepareContext c));
      rewrite IH, <- !app_assoc; reflexivity.
Qed.

Lemma analyzeLoop_without_client (commits : list Commit) :
  forall (analyses : list (Commit * string)) (log : list string),
    AIAnalysisService.analyzeLoop None commits analyses log
    = (analyses ++ map (fun c => (c, Categorizer.generateBasicAnalysis c)) commits,
       log).
Proof.
  induction commits as [|c cs IH]; intros analyses log.
  - simpl. now rewrite app_nil_r.
  - cbn [AIAnalysisService.analyzeLoop AIAnalysisService.analyzeCommit].
    rewrite IH, <- app_assoc. reflexivity.
Qed.

(** X16. [analyzeCommits] never fails and returns exactly one analysis per
    commit, in input order.  Without a client every analysis is the
    heuristic one and nothing is logged; with a client, each rejected call
    costs one log line and yields the heuristic analysis for that commit,
    each successful call yields the trimmed response. *)
Theorem analyzeCommits_degrades_per_commit (commits : list Commit)
  (log : list string) :
  AIAnalysisService.analyzeCommits None commits log
    = (map (fun c => (c, Categorizer.generateBasicAnalysis c)) commits, log)
  /\ forall create : AIAnalysisService.Client,
       AIAnalysisService.analyzeCommits (Some create) commits log
       = (map (fun c => (c, analysisFor create c)) commits,
          log ++ analyzerComplaints create commits)
       /\ map fst (fst (AIAnalysisService.analyzeCommits (Some create) commits log))
          = commits
       /\ (forall c, In c commits ->
             isThrow (create (AIAnalysisService.prepareContext c)) = true ->
             analysisFor create c = Categorizer.generateBasicAnalysis c).
Proof.
  unfold AIAnalysisService.analyzeCommits. split.
  - now rewrite analyzeLoop_without_client.
  - intros create. rewrite analyzeLoop_spec. cbn [app fst].
    split; [reflexivity|]. split.
    + rewrite map_map. cbn [fst]. apply map_id.
    + intros c _ H. unfold analysisFor.
      now destruct (create (AIAnalysisService.prepareContext c)).
Qed.

Lemma analyzeCommits_offline :
  AIAnalysisService.analyzeCommits (Some MoreExamples.offline)
    [Examples.loginCommit] []
  = ([(Examples.loginCommit, Categorizer.generateBasicAnalysis Examples.loginCommit)],
     ["AI analysis failed: timeout"]).
Proof.
  exact (proj1 (proj2 (analyzeCommits_degrades_per_commit [Examples.loginCommit] [])
                  MoreExamples.offline)).
Defined.

(** ** Rendering in the other formats *)

Ltac flatten_other :=
  repeat (progress (rewrite ?append_assoc;
                    cbn [String.append Template.fill Template.fillPiece otherMarks])).

Section OtherFormats.
Variable formatTime : string -> string.
Variable format : string.
Hypothesis notMarkdown : format <> "markdown".
Hypothesis notText : format <> "text".

Lemma other_isMarkdown : ReportService.isMarkdown format = false.
Proof. now apply String.eqb_neq. Qed.

Lemma other_isText : ReportService.isText format = false.
Proof. now apply String.eqb_neq. Qed.

Lemma other_fileLines (fs : list FileChange) :
  ReportService.fileLines format fs
  = Template.fill otherMarks (flat_map Template.filePieces fs).
Proof.
  induction fs as [|f fs IH]; [reflexivity|].
  cbn [ReportService.fileLines flat_map]. rewrite fill_app, IH. f_equal.
  unfold ReportService.fileLine, Template.filePieces. rewrite other_isMarkdown.
  flatten_other; reflexivity.
Qed.

Lemma other_quickBlock (i : nat) (data : CommitData) :
  ReportService.quickBlock formatTime format i data
  = Template.fill otherMarks (Template.quickBlockPieces formatTime i data).
Proof.
  unfold ReportService.quickBlock, Template.quickBlockPieces,
    ReportService.commitLines, ReportService.changedFiles, ReportService.separator,
    Template.commitPieces, Template.changedFilesPieces, Template.separatorPieces.
  rewrite other_isMarkdown, other_isText, !fill_app.
  destruct (files (newCommit data)) as [|f fs] eqn:E.
  - flatten_other; reflexivity.
  - rewrite !fill_app, <- other_fileLines. flatten_other; reflexivity.
Qed.

Lemma other_enhancedBlock (aiAnalyzer : option (Commit -> string))
  (i : nat) (data : CommitData) :
  ReportService.enhancedBlock formatTime aiAnalyzer format i data
  = Template.fill otherMarks (Template.enhancedBlockPieces formatTime aiAnalyzer i data).
Proof.
  unfold ReportService.enhancedBlock, Template.enhancedBlockPieces,
    ReportService.commitLines, ReportService.changedFiles, ReportService.separator,
    ReportService.analysisPart, Template.analysisPieces,
    Template.commitPieces, Template.changedFilesPieces, Template.separatorPieces.
  rewrite other_isMarkdown, other_isText, !fill_app.
  destruct (files (newCommit data)) as [|f fs] eqn:E.
  - flatten_other; reflexivity.
  - rewrite !fill_app, <- other_fileLines. flatten_other; reflexivity.
Qed.

Lemma other_quickLoop (commits : list CommitData) (i : nat) (report : string) :
  ReportService.quickLoop formatTime format i commits report
  = (report ++ Template.fill otherMarks
                 (Template.blocksFrom (Template.quickBlockPieces formatTime) i commits))%string.
Proof.
  revert i report. induction commits as [|d rest IH]; intros i report.
  - simpl. now rewrite append_nil_r.
  - cbn [ReportService.quickLoop Template.blocksFrom].
    now rewrite IH, fill_app, other_quickBlock, append_assoc.
Qed.

Lemma other_enhancedLoop (aiAnalyzer : option (Commit -> string))
  (commits : list CommitData) (i : nat) (report : string) :
  ReportService.enhancedLoop formatTime aiAnalyzer format i commits report
  = (report ++ Template.fill otherMarks
                 (Template.blocksFrom
                    (Template.enhancedBlockPieces formatTime aiAnalyzer) i commits))%string.
Proof.
  revert i report. induction commits as [|d rest IH]; intros i report.
  - simpl. now rewrite append_nil_r.
  - cbn [ReportService.enhancedLoop Template.blocksFrom].
    now rewrite IH, fill_app, other_enhancedBlock, append_assoc.
Qed.

(** X17. For every format name other than [markdown] and [text] (such as
    [html] or [json]) the report service does not render that format: it
    produces the text layout, without heading or bold markers, closed by
    the markdown rule [---] instead of the fifty dashes. *)
Theorem other_formats_render_as_text (commits : list CommitData)
  (dateRange : string) (aiAnalyzer : option (Commit -> string)) :
  ReportService.generateQuickReport formatTime commits dateRange format
    = Template.fill otherMarks (Template.quickTemplate formatTime commits dateRange)
  /\ ReportService.generateEnhancedReport formatTime commits dateRange format aiAnalyzer
    = Template.fill otherMarks
        (Template.enhancedTemplate formatTime aiAnalyzer commits dateRange).
Proof.
  unfold ReportService.generateQuickReport, ReportService.generateEnhancedReport,
    Template.quickTemplate, Template.enhancedTemplate, Template.reportPieces.
  destruct commits as [|d rest].
  - simpl. now rewrite append_nil_r.
  - rewrite other_quickLoop, other_enhancedLoop, !fill_app.
    unfold ReportService.heading, Template.headingPieces. rewrite other_isMarkdown.
    split; flatten_other; reflexivity.
Qed.

End OtherFormats.

Lemma other_formats_render_as_text_witness :
  ReportService.generateQuickReport (fun _ => "14:30:25")
      [dataOf Examples.loginCommit] "2025-01-15" "html"
    = Template.fill otherMarks
        (Template.quickTemplate (fun _ => "14:30:25")
           [dataOf Examples.loginCommit] "2025-01-15").
Proof.
  exact (proj1 (other_formats_render_as_text (fun _ => "14:30:25") "html"
                  ltac:(discriminate) ltac:(discriminate)
                  [dataOf Examples.loginCommit] "2025-01-15" None)).
Defined.

(** ** What a report lists *)

Lemma values_files_none (f : Template.Field) (fs : list FileChange) :
  Template.sameField f Template.Status = false ->
  Template.sameField f Template.FileName = false ->
  Template.sameField f Template.Changes = false ->
  Template.values f (flat_map Template.filePieces fs) = [].
Proof.
  intros H1 H2 H3. induction fs as [|x fs IH]; [reflexivity|].
  cbn [flat_map Template.filePieces app Template.values]. now rewrite H1, H2, H3.
Qed.

Lemma values_changedFiles_none (f : Template.Field) (c : Commit) :
  Template.sameField f Template.Status = false ->
  Template.sameField f Template.FileName = false ->
  Template.sameField f Template.Changes = false ->
  Template.values f (Template.changedFilesPieces c) = [].
Proof.
  intros H1 H2 H3. unfold Template.changedFilesPieces.
  destruct (files c) as [|x fs]; [reflexivity|].
  rewrite !values_app, (values_files_none f (x :: fs) H1 H2 H3). reflexivity.
Qed.

Lemma blocks_list_commits (formatTime : string -> string) (commits : list CommitData) :
  forall i,
    let T := Template.blocksFrom (Template.quickBlockPieces formatTime) i commits in
    Template.values Template.Index T
      = map ofNat (seq (i + 1) (List.length commits))
    /\ Template.values Template.Author T
       = map (fun d => name (author (newCommit d))) commits
    /\ Template.values Template.Added T
       = map (fun d => ofZ (additions (stats (newCommit d)))) commits
    /\ Template.values Template.Deleted T
       = map (fun d => ofZ (deletions (stats (newCommit d)))) commits.
Proof.
  induction commits as [|d rest IH]; intros i; [repeat split|].
  destruct (IH (S i)) as (I1 & I2 & I3 & I4). cbn zeta in *.
  cbn [Template.blocksFrom List.length seq map].
  rewrite !values_app, I1, I2, I3, I4.
  unfold Template.quickBlockPieces.
  rewrite !values_app, !values_changedFiles_none by reflexivity.
  replace (S i + 1) with (S (i + 1)) by lia.
  repeat split.
Qed.

(** X18. In the text and in the markdown quick report the commit blocks
    are numbered 1, 2, ... in input order, and the blocks carry, in that
    order, each commit's author name and its counts of added and deleted
    lines. *)
Theorem quick_report_lists_commits (formatTime : string -> string)
  (format : string) (marks : Template.Marker -> string)
  (commits : list CommitData) (dateRange : string) :
  Decorates format marks ->
  let T := Template.quickTemplate formatTime commits dateRange in
  ReportService.generateQuickReport formatTime commits dateRange format
    = Template.fill marks T
  /\ Template.values Template.Index T = map ofNat (seq 1 (List.length commits))
  /\ Template.values Template.Author T
     = map (fun d => name (author (newCommit d))) commits
  /\ Template.values Template.Added T
     = map (fun d => ofZ (additions (stats (newCommit d)))) commits
  /\ Template.values Template.Deleted T
     = map (fun d => ofZ (deletions (stats (newCommit d)))) commits.
Proof.
  intros Hd T. split; [now apply generateQuickReport_filled|].
  subst T. unfold Template.quickTemplate, Template.reportPieces.
  destruct commits as [|d rest]; [repeat split|].
  rewrite !values_app.
  destruct (blocks_list_commits formatTime (d :: rest) 0) as (I1 & I2 & I3 & I4).
  cbn zeta in *. rewrite I1, I2, I3, I4. repeat split.
Qed.

Lemma quick_report_lists_commits_witness :
  Template.values Template.Index
    (Template.quickTemplate (fun _ => "14:30:25")
       [dataOf Examples.loginCommit; dataOf Examples.jsxCommit] "2025-01-15")
  = ["1"; "2"].
Proof.
  exact (proj1 (proj2 (quick_report_lists_commits (fun _ => "14:30:25") "text"
                         Template.textMarks
                         [dataOf Examples.loginCommit; dataOf Examples.jsxCommit]
                         "2025-01-15" decorates_text))).
Defined.

(** ** Case folding *)

Lemma lowerChar_idempotent (c : ascii) : lowerChar (lowerChar c) = lowerChar c.
Proof. destruct c as [[] [] [] [] [] [] [] []]; reflexivity. Qed.

Lemma toLowerCase_idempotent (s : string) :
  toLowerCase (toLowerCase s) = toLowerCase s.
Proof.
  induction s as [|c s IH]; simpl; [reflexivity|].
  now rewrite lowerChar_idempotent, IH.
Qed.

(** ** File extensions *)

(** X19. [ReportView.getFileExtension] ignores letter case, and for every
    format name that is not a member inherited from [Object.prototype] it
    answers with one of [txt], [md], [html], [json]; names other than the
    four known formats get [txt]. *)
Theorem getFileExtension_total_and_case_blind (format : string) :
  ReportView.getFileExtension (toLowerCase format) = ReportView.getFileExtension format
  /\ (JsObject.inherited (toLowerCase format) = false ->
      exists ext, ReportView.getFileExtension format = Some ext
                  /\ In ext ["txt"; "md"; "html"; "json"])
  /\ (JsObject.inherited (toLowerCase format) = false ->
      ~ In (toLowerCase format) ["text"; "markdown"; "html"; "json"] ->
      ReportView.getFileExtension format = Some "txt").
Proof.
  unfold ReportView.getFileExtension. rewrite toLowerCase_idempotent.
  split; [reflexivity|]. split.
  - intros ->.
    destruct (String.eqb (toLowerCase format) "text"); [eexists; split; [reflexivity|simpl; tauto]|].
    destruct (String.eqb (toLowerCase format) "markdown"); [eexists; split; [reflexivity|simpl; tauto]|].
    destruct (String.eqb (toLowerCase format) "html"); [eexists; split; [reflexivity|simpl; tauto]|].
    destruct (String.eqb (toLowerCase format) "json"); eexists; split; try reflexivity; simpl; tauto.
  - intros -> Hnot.
    destruct (String.eqb (toLowerCase format) "text") eqn:E1;
      [apply String.eqb_eq in E1; rewrite E1 in Hnot; simpl in Hnot; tauto|].
    destruct (String.eqb (toLowerCase format) "markdown") eqn:E2;
      [apply String.eqb_eq in E2; rewrite E2 in Hnot; simpl in Hnot; tauto|].
    destruct (String.eqb (toLowerCase format) "html") eqn:E3;
      [apply String.eqb_eq in E3; rewrite E3 in Hnot; simpl in Hnot; tauto|].
    destruct (String.eqb (toLowerCase format) "json") eqn:E4;
      [apply String.eqb_eq in E4; rewrite E4 in Hnot; simpl in Hnot; tauto|].
    reflexivity.
Qed.

Lemma getFileExtension_total_and_case_blind_witness :
  ReportView.getFileExtension "PDF" = Some "txt"
  /\ ReportView.getFileExtension "markdown" = ReportView.getFileExtension "MarkDown".
Proof.
  split.
  - apply (proj2 (proj2 (getFileExtension_total_and_case_blind "PDF")));
      [reflexivity | simpl; intuition discriminate].
  - rewrite <- (proj1 (getFileExtension_total_and_case_blind "MarkDown")).
    reflexivity.
Defined.

(** ** Repository URLs *)

Lemma includes_false_prefix (s p : string) :
  includes s p = false -> String.prefix p s = false.
Proof.
  intros H. destruct (String.prefix p s) eqn:E; [|reflexivity].
  now rewrite (prefix_includes _ _ E) in H.
Qed.

Lemma includes_false_tail (c : ascii) (s p : string) :
  includes (String c s) p = false -> includes s p = false.
Proof.
  intros H. destruct (includes s p) eqn:E; [|reflexivity].
  now rewrite (includes_cons c _ _ E) in H.
Qed.

(** Nothing is replaced where the pattern does not occur. *)
Lemma replace_absent (s p rep : string) :
  includes s p = false -> replace s p rep = s.
Proof.
  induction s as [|c s IH]; intros H; cbn [replace];
    rewrite (includes_false_prefix _ _ H); [reflexivity|].
  now rewrite (IH (includes_false_tail _ _ _ H)).
Qed.

Lemma includes_app_r (a b p : string) :
  includes b p = true -> includes (a ++ b) p = true.
Proof.
  intros H. induction a as [|c a IH]; [assumption|].
  simpl. now apply includes_cons.
Qed.

(** An occurrence of [.git] at the start of [s ++ ".git"] lies in [s],
    unless [s] is empty. *)
Lemma git_not_straddling (s : string) :
  String.prefix ".git" (s ++ ".git") = true ->
  s = EmptyString \/ String.prefix ".git" s = true.
Proof.
  destruct s as [|a [|b [|c [|d s]]]]; [now left| | | |];
    intros H; right; cbn [String.prefix append] in H |- *;
    repeat match goal with
           | H : context [ascii_dec ?x ?y] |- _ =>
               destruct (ascii_dec x y); try discriminate; subst
           end; try discriminate; try contradiction.
  now destruct s.
Qed.

(** Removing [.git] from [s ++ ".git"] gives back [s] when [s] itself
    contains no [.git]. *)
Lemma replace_git_suffix (s : string) :
  includes s ".git" = false -> replace (s ++ ".git") ".git" "" = s.
Proof.
  induction s as [|c s IH]; intros H; [reflexivity|].
  change ((String c s ++ ".git")%string) with (String c (s ++ ".git")).
  cbn [replace].
  destruct (String.prefix ".git" (String c (s ++ ".git"))) eqn:E.
  - change (String c (s ++ ".git")) with ((String c s ++ ".git")%string) in E.
    apply git_not_straddling in E. destruct E as [E|E]; [discriminate|].
    now rewrite (includes_false_prefix _ _ H) in E.
  - now rewrite (IH (includes_false_tail _ _ _ H)).
Qed.

(** X20. The HTTPS and the SSH URL that [Repository.getUrls] builds are
    accepted by [extractRepoInfo] and resolve back to the owner and the
    repository they were built from, provided the two names contain no
    ['/'], no white space and no [.git]. *)
Theorem repository_urls_round_trip (r : RepositoryModel.Repository) :
  let i := RepositoryModel.getOwnerAndRepo r in
  plain (owner i) = true -> plain (repo i) = true ->
  includes (owner i ++ "/" ++ repo i) ".git" = false ->
  extractRepoInfo (RepositoryModel.https (RepositoryModel.getUrls r)) = Ok i
  /\ extractRepoInfo (RepositoryModel.ssh (RepositoryModel.getUrls r)) = Ok i.
Proof.
  intros i Ho Hr Hgit. unfold RepositoryModel.getUrls. fold i.
  cbn [RepositoryModel.https RepositoryModel.ssh].
  destruct i as [o n]. cbn [owner repo] in *.
  assert (Hn : includes n ".git" = false).
  { destruct (includes n ".git") eqn:E; [|reflexivity].
    pose proof (includes_app_r (o ++ "/") n ".git" E) as K.
    rewrite append_assoc in K.
    destruct (eq_true_false_abs _ K Hgit). }
  split.
  - change ("https://github.com/" ++ o ++ "/" ++ n)%string
      with (httpsPrefix ++ o ++ "/" ++ n)%string.
    rewrite (extractRepoInfo_https o n Ho Hr). now rewrite (replace_absent _ _ _ Hn).
  - pose proof (extractRepoInfo_cases ("git@github.com:" ++ o ++ "/" ++ n ++ ".git"))
      as H.
    unfold remainingPath, startsWith in H.
    change (String.prefix httpsPrefix ("git@github.com:" ++ o ++ "/" ++ n ++ ".git"))
      with false in H.
    change ("git@github.com:" ++ o ++ "/" ++ n ++ ".git")%string
      with (sshPrefix ++ (o ++ "/" ++ n ++ ".git"))%string in H.
    rewrite prefix_app_same, skip_app in H.
    replace (o ++ "/" ++ n ++ ".git")%string
      with ((o ++ "/" ++ n) ++ ".git")%string in H
      by (now rewrite !append_assoc).
    rewrite (replace_git_suffix _ Hgit) in H.
    unfold segments in H. rewrite (split_owner_repo o n Ho Hr) in H.
    rewrite (replace_absent _ _ _ Hn) in H.
    replace ((o ++ "/" ++ n) ++ ".git")%string
      with (o ++ "/" ++ n ++ ".git")%string in H
      by (now rewrite !append_assoc).
    exact H.
Qed.

Lemma repository_urls_round_trip_witness :
  extractRepoInfo "https://github.com/microsoft/vscode"
    = Ok (mkRepoInfo "microsoft" "vscode")
  /\ extractRepoInfo "git@github.com:microsoft/vscode.git"
    = Ok (mkRepoInfo "microsoft" "vscode").
Proof.
  exact (repository_urls_round_trip MoreExamples.vscode eq_refl eq_refl eq_refl).
Defined.

(** ** The controllers *)

Lemma newCommit_dataOf (c : Commit) : newCommit (dataOf c) = c.
Proof. destruct c as [s m [an ae ad] [cn ce cd] fs [t a d]]; reflexivity. Qed.

Lemma rewrap_commits (commits : list Commit) :
  map (fun commitData => newCommit (dataOf commitData)) commits = commits.
Proof.
  induction commits as [|c cs IH]; simpl; [reflexivity|].
  now rewrite newCommit_dataOf, IH.
Qed.

(** Wrapping the service's commits with [new Commit] changes nothing. *)
Lemma viaService_spec (prefix repoUrl : string)
  (service : string -> string -> option (Result (list Commit))) :
  CommitController.viaService prefix repoUrl service
  = match extractRepoInfo repoUrl with
    | Throw m => Some (Throw (prefix ++ m))
    | Ok info =>
        match service (owner info) (repo info) with
        | Some (Throw m) => Some (Throw (prefix ++ m))
        | other => other
        end
    end.
Proof.
  unfold CommitController.viaService.
  destruct (extractRepoInfo repoUrl) as [info|m]; [|reflexivity].
  destruct (service (owner info) (repo info)) as [[commits|m]|]; try reflexivity.
  now rewrite rewrap_commits.
Qed.

Lemma validateRepositoryUrl_false (repoUrl : string) :
  RepositoryController.validateRepositoryUrl repoUrl = false ->
  exists m, extractRepoInfo repoUrl = Throw m.
Proof.
  unfold RepositoryController.validateRepositoryUrl.
  destruct (extractRepoInfo repoUrl) as [info|m]; [discriminate | now exists m].
Qed.

Lemma validateRepositoryUrl_true (repoUrl : string) :
  RepositoryController.validateRepositoryUrl repoUrl = true ->
  exists info, extractRepoInfo repoUrl = Ok info.
Proof.
  unfold RepositoryController.validateRepositoryUrl.
  destruct (extractRepoInfo repoUrl) as [info|m]; [now exists info | discriminate].
Qed.

(** X21. [CommitController] adds to the service only the reference check
    and an error prefix.  A reference that [validateRepositoryUrl] rejects
    makes all three fetching methods fail with the resolver's message
    behind the method's prefix, whatever the upstream would answer and
    without any request; for an accepted reference the commit list of the
    service comes back unchanged. *)
Theorem controller_forwards_the_service (repoUrl : string) :
  (RepositoryController.validateRepositoryUrl repoUrl = false ->
   exists m,
     extractRepoInfo repoUrl = Throw m
     /\ forall fuel up fromDate toDate branch,
          CommitController.getCommitsForDate fuel up repoUrl fromDate branch
          = Some (Throw ("Failed to get commits for date: " ++ m))
          /\ CommitController.getCommitsForDateRange fuel up repoUrl fromDate
               toDate branch
             = Some (Throw ("Failed to get commits for date range: " ++ m))
          /\ CommitController.getAllCommits fuel up repoUrl branch
             = Some (Throw ("Failed to get all commits: " ++ m)))
  /\ (RepositoryController.validateRepositoryUrl repoUrl = true ->
      exists info,
        extractRepoInfo repoUrl = Ok info
        /\ forall fuel up fromDate toDate branch commits,
             (GitHubService.getCommitsForDate fuel up (owner info) (repo info)
                fromDate branch None = Some (Ok commits) ->
              CommitController.getCommitsForDate fuel up repoUrl fromDate branch
              = Some (Ok commits))
             /\ (GitHubService.getCommitsForDateRange fuel up (owner info)
                   (repo info) fromDate toDate branch None = Some (Ok commits) ->
                 CommitController.getCommitsForDateRange fuel up repoUrl fromDate
                   toDate branch
                 = Some (Ok commits))
             /\ (GitHubService.getCommits fuel up (owner info) (repo info)
                   (GitHubService.mkOptions None (Some branch) None None None)
                 = Some (Ok commits) ->
                 CommitController.getAllCommits fuel up repoUrl branch
                 = Some (Ok commits))).
Proof.
  split; intros Hv.
  - destruct (validateRepositoryUrl_false _ Hv) as [m Hm]. exists m.
    split; [assumption|]. intros fuel up fromDate toDate branch.
    unfold CommitController.getCommitsForDate,
      CommitController.getCommitsForDateRange, CommitController.getAllCommits.
    rewrite !viaService_spec, Hm. repeat split; reflexivity.
  - destruct (validateRepositoryUrl_true _ Hv) as [info Hi]. exists info.
    split; [assumption|]. intros fuel up fromDate toDate branch commits.
    unfold CommitController.getCommitsForDate,
      CommitController.getCommitsForDateRange, CommitController.getAllCommits.
    rewrite !viaService_spec, Hi. repeat split; intros ->; reflexivity.
Qed.

Lemma controller_forwards_the_service_witness :
  exists m,
    extractRepoInfo "https://gitlab.com/acme/widgets" = Throw m
    /\ forall fuel up fromDate toDate branch,
         CommitController.getCommitsForDate fuel up
           "https://gitlab.com/acme/widgets" fromDate branch
         = Some (Throw ("Failed to get commits for date: " ++ m))
         /\ CommitController.getCommitsForDateRange fuel up
              "https://gitlab.com/acme/widgets" fromDate toDate branch
            = Some (Throw ("Failed to get commits for date range: " ++ m))
         /\ CommitController.getAllCommits fuel up
              "https://gitlab.com/acme/widgets" branch
            = Some (Throw ("Failed to get all commits: " ++ m)).
Proof.
  exact (proj1 (controller_forwards_the_service "https://gitlab.com/acme/widgets")
           eq_refl).
Defined.

(** ** The author filter *)

Lemma prefix_refl (s : string) : String.prefix s s = true.
Proof.
  induction s as [|c s IH]; simpl; [reflexivity|].
  destruct (ascii_dec c c); [assumption | contradiction].
Qed.

Lemma includes_refl (s : string) : includes s s = true.
Proof. apply prefix_includes, prefix_refl. Qed.

Lemma includes_empty (s : string) : includes s "" = true.
Proof. apply prefix_includes. now destruct s. Qed.

(** X22. [filterCommitsByAuthor], for the engine's case folding [lower]
    whatever it maps.  Two filters that fold to the same text select the
    same commits, so the letter case of the filter is ignored; a filter
    that folds to the empty text keeps every commit; the result holds
    exactly the commits of the list whose folded author name or folded
    committer name contains the folded filter, every other commit is
    removed; and a commit is kept whenever the filter spells its author's
    or its committer's name up to case folding. *)
Theorem author_filter_finds_by_name (lower : string -> string)
  (commits : list Commit) (who : string) :
  (forall other, lower other = lower who ->
     ReportController.filterCommitsByAuthor lower commits other
     = ReportController.filterCommitsByAuthor lower commits who)
  /\ (lower who = EmptyString ->
      ReportController.filterCommitsByAuthor lower commits who = commits)
  /\ (forall c,
        In c (ReportController.filterCommitsByAuthor lower commits who)
        <-> In c commits
            /\ (includes (lower (name (author c))) (lower who) = true
                \/ includes (lower (name (committer c))) (lower who) = true))
  /\ (forall c,
        In c commits ->
        lower who = lower (name (author c))
        \/ lower who = lower (name (committer c)) ->
        In c (ReportController.filterCommitsByAuthor lower commits who)).
Proof.
  unfold ReportController.filterCommitsByAuthor. cbn zeta.
  split; [|split; [|split]].
  - intros other ->. reflexivity.
  - intros ->. induction commits as [|c cs IH]; [reflexivity|].
    cbn [filter]. rewrite includes_empty. cbn [orb]. now rewrite IH.
  - intros c. rewrite filter_In, orb_true_iff. reflexivity.
  - intros c Hin Hname. apply filter_In. split; [assumption|].
    destruct Hname as [-> | ->]; rewrite includes_refl;
      [reflexivity | apply orb_true_r].
Qed.

Lemma author_filter_finds_by_name_witness :
  In MoreExamples.relayed
     (ReportController.filterCommitsByAuthor toLowerCase
        [Examples.loginCommit; MoreExamples.relayed] "WEB-FLOW")
  /\ ~ In Examples.loginCommit
         (ReportController.filterCommitsByAuthor toLowerCase
            [Examples.loginCommit; MoreExamples.relayed] "WEB-FLOW").
Proof.
  destruct (author_filter_finds_by_name toLowerCase
              [Examples.loginCommit; MoreExamples.relayed] "WEB-FLOW")
    as (_ & _ & Hiff & Hkept).
  split.
  - apply Hkept; [simpl; tauto | right; reflexivity].
  - intros H. apply Hiff in H. destruct H as [_ [H | H]]; discriminate H.
Defined.

(** ** The quick report, end to end *)

(** X23. [ReportController.generateQuickReport] checks its inputs in a
    fixed order before anything is fetched: a rejected repository URL is
    reported first (even when the dates are wrong too), then a date that
    is not a calendar date in [YYYY-MM-DD] form, then a start date after
    the end date.  In each case the call fails with the same message for
    every upstream and without any request. *)
Theorem quick_report_rejections (fuel : nat) (up : Upstream)
  (now : Moment.DateTime) (formatTime lower : string -> string)
  (repoUrl fromDate toDate branch format : string) (who : option string) :
  let run := ReportController.generateQuickReport fuel up now formatTime lower
               repoUrl fromDate toDate branch format who in
  (RepositoryController.validateRepositoryUrl repoUrl = false ->
   run = Some (Throw "Failed to generate quick report: Invalid repository URL"))
  /\ (RepositoryController.validateRepositoryUrl repoUrl = true ->
      ReportController.strictValid fromDate = false
      \/ ReportController.strictValid toDate = false ->
      run = Some (Throw
              "Failed to generate quick report: Invalid date format. Use YYYY-MM-DD"))
  /\ (RepositoryController.validateRepositoryUrl repoUrl = true ->
      ReportController.strictValid fromDate = true ->
      ReportController.strictValid toDate = true ->
      ReportController.isAfter fromDate toDate = true ->
      run = Some (Throw
              "Failed to generate quick report: From date cannot be after to date")).
Proof.
  intros run. subst run. unfold ReportController.generateQuickReport.
  repeat split.
  - intros ->. reflexivity.
  - intros -> [-> | ->]; cbn [negb orb]; [reflexivity|].
    now rewrite orb_true_r.
  - intros -> -> -> ->. reflexivity.
Qed.

Lemma quick_report_rejections_witness :
  ReportController.generateQuickReport 0 Examples.steady Examples.morning
    (fun stamp => stamp) toLowerCase "https://github.com/acme/widgets"
    "2025-01-16" "2025-01-15" "main" "text" None
  = Some (Throw
      "Failed to generate quick report: From date cannot be after to date").
Proof.
  apply (proj2 (proj2 (quick_report_rejections 0 Examples.steady Examples.morning
                         (fun stamp => stamp) toLowerCase
                         "https://github.com/acme/widgets"
                         "2025-01-16" "2025-01-15" "main" "text" None)));
    reflexivity.
Defined.

(** The one-day report, as [generateReportForDate] requests it (the same
    date as start and as end), from the upstream that holds a commit of
    that day and honours the window: no commit is reported. *)
Lemma one_day_report_finds_nothing (fuel : nat) :
  exists d,
    ReportController.generateQuickReport (S fuel) Examples.oneCommitStore
      Examples.morning (fun stamp => stamp) toLowerCase
      "https://github.com/acme/widgets" "2025-01-15" "2025-01-15" "main" "text"
      None
    = Some (Ok d)
    /\ ReportController.report d
       = "No commits found for the date range 2025-01-15 to 2025-01-15"
    /\ ReportController.totalCommits (ReportController.summary d) = 0%Z.
Proof. eexists. split; [reflexivity | split; reflexivity]. Qed.

(** An exception of the listing loop always carries the loop's prefix. *)
Lemma getCommitsFrom_throws (up : Upstream) (owner repo : string)
  (options : GitHubService.Options) (fuel : nat) :
  forall (page : nat) (commits : list Commit) (m : string),
    GitHubService.getCommitsFrom fuel up owner repo options page commits
    = Some (Throw m) ->
    exists detail, m = ("Error fetching commits: " ++ detail)%string.
Proof.
  induction fuel as [|fuel IH]; intros page commits m H; [discriminate|].
  cbn [GitHubService.getCommitsFrom] in H.
  destruct (listCommits up owner repo (GitHubService.paramsOf options page))
    as [[[|c rest]|]|e]; try discriminate.
  - destruct (GitHubService.detailLoop up owner repo (c :: rest) commits) as [cs|e].
    + destruct (_ <? _)%nat; [discriminate | now apply IH in H].
    + exists e. congruence.
  - exists e. congruence.
Qed.

(** X24. What a finished [ReportController.generateQuickReport] returns.
    A report means the inputs passed all three checks; its summary has a
    net change equal to additions minus deletions, the date range
    [from to to] and a non-empty author label; and its commit count is
    zero exactly when the file is the [no-commits-] one.  An exception is
    the controller's prefix followed by one of the three input complaints,
    or by the retrieval's own chain of prefixes. *)
Theorem quick_report_outcome (fuel : nat) (up : Upstream)
  (now : Moment.DateTime) (formatTime lower : string -> string)
  (repoUrl fromDate toDate branch format : string) (who : option string)
  (r : Result ReportController.ReportData) :
  ReportController.generateQuickReport fuel up now formatTime lower repoUrl
    fromDate toDate branch format who = Some r ->
  match r with
  | Ok d =>
      let s := ReportController.summary d in
      RepositoryController.validateRepositoryUrl repoUrl = true
      /\ ReportController.strictValid fromDate = true
      /\ ReportController.strictValid toDate = true
      /\ ReportController.isAfter fromDate toDate = false
      /\ ReportController.netChanges s
         = (ReportController.totalAdditions s - ReportController.totalDeletions s)%Z
      /\ ReportController.dateRange s = (fromDate ++ " to " ++ toDate)%string
      /\ ReportController.author s <> EmptyString
      /\ (ReportController.totalCommits s = 0%Z
          <-> String.prefix "no-commits-" (ReportController.filename d) = true)
  | Throw m =>
      exists cause,
        m = ("Failed to generate quick report: " ++ cause)%string
        /\ (cause = "Invalid repository URL"
            \/ cause = "Invalid date format. Use YYYY-MM-DD"
            \/ cause = "From date cannot be after to date"
            \/ exists detail,
                 cause = ("Failed to get commits for date range: "
                            ++ "Error fetching commits: " ++ detail)%string)
  end.
Proof.
  unfold ReportController.generateQuickReport.
  destruct (RepositoryController.validateRepositoryUrl repoUrl) eqn:Hv; cbn [negb].
  2:{ intros H. injection H as <-. eexists. split; [reflexivity | tauto]. }
  destruct (ReportController.strictValid fromDate) eqn:Hf; cbn [negb orb].
  2:{ intros H. injection H as <-. eexists. split; [reflexivity | tauto]. }
  destruct (ReportController.strictValid toDate) eqn:Ht; cbn [negb].
  2:{ intros H. injection H as <-. eexists. split; [reflexivity | tauto]. }
  destruct (ReportController.isAfter fromDate toDate) eqn:Ha.
  { intros H. injection H as <-. eexists. split; [reflexivity | tauto]. }
  destruct (CommitController.getCommitsForDateRange fuel up repoUrl fromDate
              toDate branch) as [[fetchedCommits|e]|] eqn:Hc; [| |discriminate].
  - assert (Hlabel : orElse (GitHubService.truthy who) "All contributors"
                     <> EmptyString).
    { destruct who as [[|c w]|]; discriminate. }
    destruct (match GitHubService.truthy who with
              | Some a => ReportController.filterCommitsByAuthor lower fetchedCommits a
              | None => fetchedCommits
              end) as [|c cs]; intros H; injection H as <-;
      cbn [ReportController.summary ReportController.netChanges
           ReportController.totalAdditions ReportController.totalDeletions
           ReportController.totalCommits ReportController.dateRange
           ReportController.author ReportController.filename];
      repeat split; try assumption; try reflexivity.
    + intros _. exact (prefix_app_same "no-commits-" _).
    + intros H. cbn [Totals.getReportStatistics Totals.t_commits List.length] in H.
      lia.
    + intros H. unfold ReportService.generateFilename in H. discriminate H.
  - intros H. injection H as <-.
    unfold CommitController.getCommitsForDateRange in Hc.
    rewrite viaService_spec in Hc.
    destruct (validateRepositoryUrl_true _ Hv) as [info Hi]. rewrite Hi in Hc.
    unfold GitHubService.getCommitsForDateRange, GitHubService.getCommits in Hc.
    destruct (GitHubService.getCommitsFrom _ _ _ _ _ _ _) as [[cs|e']|] eqn:Hg;
      try discriminate.
    injection Hc as <-.
    destruct (getCommitsFrom_throws _ _ _ _ _ _ _ _ Hg) as [detail ->].
    eexists. split; [reflexivity|]. right. right. right. now exists detail.
Qed.

Lemma quick_report_outcome_witness :
  exists cause,
    "Failed to generate quick report: Invalid repository URL"
    = ("Failed to generate quick report: " ++ cause)%string
    /\ (cause = "Invalid repository URL"
        \/ cause = "Invalid date format. Use YYYY-MM-DD"
        \/ cause = "From date cannot be after to date"
        \/ exists detail,
             cause = ("Failed to get commits for date range: "
                        ++ "Error fetching commits: " ++ detail)%string).
Proof.
  exact (quick_report_outcome 1 Examples.steady Examples.morning (fun s => s)
           toLowerCase "acme/widgets" "2025-01-15" "2025-01-16" "main" "text" None
           (Throw _) eq_refl).
Defined.

(** ** The Repository model *)

(** X25. For a repository whose [fullName] is [owner/name] (two non-empty
    parts without ['/'] or white space) the parts come from [fullName],
    whatever the [owner] and [name] fields hold; with an empty [fullName]
    they come from those fields.  Either way the display name is
    [owner/repo] of [getOwnerAndRepo], and the HTTPS URL is the GitHub
    prefix followed by the display name. *)
Theorem repository_names_agree (r : RepositoryModel.Repository) (o n : string) :
  (RepositoryModel.repo_fullName r = (o ++ "/" ++ n)%string
   /\ plain o = true /\ plain n = true /\ o <> EmptyString /\ n <> EmptyString)
  \/ (RepositoryModel.repo_fullName r = EmptyString
      /\ o = RepositoryModel.repo_owner r /\ n = RepositoryModel.repo_name r) ->
  RepositoryModel.getOwnerAndRepo r = mkRepoInfo o n
  /\ RepositoryModel.getDisplayName r = (o ++ "/" ++ n)%string
  /\ RepositoryModel.https (RepositoryModel.getUrls r)
     = ("https://github.com/" ++ RepositoryModel.getDisplayName r)%string.
Proof.
  intros H.
  assert (Hi : RepositoryModel.getOwnerAndRepo r = mkRepoInfo o n).
  { unfold RepositoryModel.getOwnerAndRepo.
    destruct H as [(-> & Ho & Hn & Hone & Hnne) | (-> & -> & ->)].
    - rewrite (split_owner_repo o n Ho Hn). cbn [nth_error RepositoryModel.partOr].
      destruct o; [contradiction|]. destruct n; [contradiction|]. reflexivity.
    - reflexivity. }
  assert (Hd : RepositoryModel.getDisplayName r = (o ++ "/" ++ n)%string).
  { unfold RepositoryModel.getDisplayName.
    destruct H as [(-> & _ & _ & Hone & _) | (-> & -> & ->)]; [|reflexivity].
    destruct o; [contradiction | reflexivity]. }
  repeat split; try assumption.
  unfold RepositoryModel.getUrls. rewrite Hi, Hd. reflexivity.
Qed.

Lemma repository_names_agree_witness :
  RepositoryModel.getOwnerAndRepo MoreExamples.vscode = mkRepoInfo "microsoft" "vscode"
  /\ RepositoryModel.getDisplayName MoreExamples.vscode = "microsoft/vscode"
  /\ RepositoryModel.https (RepositoryModel.getUrls MoreExamples.vscode)
     = ("https://github.com/" ++ RepositoryModel.getDisplayName MoreExamples.vscode)%string.
Proof.
  apply (repository_names_agree MoreExamples.vscode "microsoft" "vscode").
  left. repeat split; try reflexivity; discriminate.
Defined.
